(** * Collaborative whiteboard: canvas interaction, history and reconciliation

    A shallow embedding of the interaction core of the whiteboard
    (types/whiteboard.ts, components/Canvas.tsx, hooks/useCollaboration.ts
    and App.tsx).

    Conventions of the embedding.
    - A JavaScript [number] is a real number ([R]): arithmetic is exact and
      there is no NaN.  Statements that the program satisfies "within
      floating-point tolerance" are therefore proved exactly.
    - An optional field ([width?: number]) is an [option]; [None] is
      [undefined].  [a || d] is written out with JavaScript's falsiness
      ([undefined], [0] and the empty string are falsy).
    - A React state cell is a record field; an event handler is a function
      from the state it closes over to the state after the event together
      with the calls it makes on its props, in order.
    - [Math.random] is not modelled: the identifier drawn for a new element
      is an argument of the handler that creates the element. *)

From Stdlib Require Import List String Ascii Bool Arith Lia Reals Lra.
Import ListNotations.

Local Open Scope string_scope.
Local Open Scope list_scope.
Local Open Scope R_scope.

(** ** JavaScript values *)

Module Js.

(** [a <= b] and [a >= b] on numbers, as booleans. *)
Definition leb (a b : R) : bool := if Rle_dec a b then true else false.
Definition geb (a b : R) : bool := if Rge_dec a b then true else false.
Definition gtb (a b : R) : bool := if Rgt_dec a b then true else false.

(** [w || d] for an optional number: [undefined] and [0] are falsy. *)
Definition num_or (w : option R) (d : R) : R :=
  match w with
  | Some v => if Req_dec_T v 0 then d else v
  | None => d
  end.

(** Truthiness of an optional string: [undefined] and [''] are falsy. *)
Definition str_truthy (s : option string) : bool :=
  match s with
  | Some EmptyString => false
  | Some _ => true
  | None => false
  end.

(** [s || d] for an optional string. *)
Definition str_or (s : option string) (d : string) : string :=
  match s with
  | Some EmptyString => d
  | Some v => v
  | None => d
  end.

(** Truthiness of an optional boolean. *)
Definition bool_truthy (b : option bool) : bool :=
  match b with
  | Some true => true
  | _ => false
  end.

(** [s.split('\n')]: the pieces of [s] between line feeds; the empty
    string splits into one empty piece. *)
Fixpoint split_lines_aux (cur : string) (s : string) : list string :=
  match s with
  | EmptyString => [cur]
  | String c rest =>
      if Ascii.eqb c "010"%char
      then cur :: split_lines_aux EmptyString rest
      else split_lines_aux (cur ++ String c EmptyString)%string rest
  end.

Definition split_lines (s : string) : list string :=
  split_lines_aux EmptyString s.

(** [xs.map((v, index) => f v index)]. *)
Fixpoint mapi_from {A B : Type} (f : A -> nat -> B) (i : nat) (xs : list A)
  : list B :=
  match xs with
  | [] => []
  | v :: rest => f v i :: mapi_from f (S i) rest
  end.

Definition mapi {A B : Type} (f : A -> nat -> B) (xs : list A) : list B :=
  mapi_from f 0 xs.

End Js.

(** ** types/whiteboard.ts *)

Module Whiteboard.

Inductive Tool : Type :=
| ToolSelect | ToolPen | ToolRectangle | ToolCircle | ToolArrow | ToolLine
| ToolText | ToolStickyNote | ToolRichNote.

(** The [type] tag of an element.  The declared union has eight members;
  [TyUndeclared] stands for any other string, which the cast
  [tool as any] in [createNewElement] (and an inbound message, typed
  [any]) can put there. *)
Inductive ElementType : Type :=
| TyPath | TyRectangle | TyCircle | TyArrow | TyLine | TyText
| TyStickyNote | TyRichNote
| TyUndeclared (tag : string).

Record Point : Type := mkPoint { pt_x : R; pt_y : R }.

Record Comment : Type := mkComment {
comment_id : string;
comment_text : string;
comment_author : string;
comment_authorId : string;
comment_timestamp : R;
comment_resolved : option bool
}.

Record RichNote : Type := mkRichNote {
note_id : string;
note_content : string;
note_comments : list Comment;
note_lastEditedBy : option string;
note_lastEditedAt : option R
}.

Record WhiteboardElement : Type := mkElement {
id : string;
type : ElementType;
x : R;
y : R;
width : option R;
height : option R;
points : option (list Point);
text : option string;
color : string;
strokeWidth : R;
fill : option string;
selected : option bool;
richNote : option RichNote
}.

Record ViewportState : Type := mkViewport {
vp_x : R;
vp_y : R;
zoom : R
}.

Record DrawingState : Type := mkDrawingState {
isDrawing : bool;
currentPath : list Point;
currentElement : option WhiteboardElement
}.

Record User : Type := mkUser {
user_id : string;
email : string;
displayName : string
}.

Record UserCursor : Type := mkUserCursor {
userId : string;
cursor_x : R;
cursor_y : R;
cursor_displayName : string;
cursor_color : string
}.

Record CollaborationState : Type := mkCollaborationState {
users : list User;
cursors : list UserCursor;
isConnected : bool
}.

(** [{ ...el, selected: b }] *)
Definition with_selected (el : WhiteboardElement) (b : bool)
: WhiteboardElement :=
mkElement (id el) (type el) (x el) (y el) (width el) (height el)
          (points el) (text el) (color el) (strokeWidth el) (fill el)
          (Some b) (richNote el).

(** [{ ...el, width: w, height: h }] *)
Definition with_size (el : WhiteboardElement) (w h : R) : WhiteboardElement :=
mkElement (id el) (type el) (x el) (y el) (Some w) (Some h)
          (points el) (text el) (color el) (strokeWidth el) (fill el)
          (selected el) (richNote el).

(** [{ ...el, points: ps }] *)
Definition with_points (el : WhiteboardElement) (ps : list Point)
: WhiteboardElement :=
mkElement (id el) (type el) (x el) (y el) (width el) (height el)
          (Some ps) (text el) (color el) (strokeWidth el) (fill el)
          (selected el) (richNote el).

End Whiteboard.

Import Whiteboard.

(** ** The 2D drawing context

    Drawing is modelled by the sequence of calls and property assignments
    made on the [CanvasRenderingContext2D], in program order. *)

Inductive CtxOp : Type :=
| SetStrokeStyle (c : string)
| SetFillStyle (c : string)
| SetLineWidth (w : R)
| SetLineCap (s : string)
| SetLineJoin (s : string)
| SetFontPx (size : R) (family : string)   (* `${size}px family` *)
| SetLineDash (segments : list R)
| BeginPath
| MoveTo (px py : R)
| LineTo (px py : R)
| RectPath (px py w h : R)
| Arc (cx cy radius startAngle endAngle : R)
| Stroke
| Fill
| FillRect (px py w h : R)
| StrokeRect (px py w h : R)
| FillText (s : string) (px py : R).

(** ** components/Canvas.tsx *)

Module Canvas.

(** [canvas.getBoundingClientRect()], as far as the component reads it. *)
Record DOMRect : Type := mkRect { left : R; top : R }.

Record MouseEvent : Type := mkMouseEvent { clientX : R; clientY : R }.

Record WheelEvent : Type := mkWheelEvent {
  deltaY : R;
  wheel_clientX : R;
  wheel_clientY : R
}.

(** The props the handlers read.  [broadcastCursor] and
    [broadcastElementChange] are optional props which App.tsx always
    passes; calls on the function props are returned as [Call]s. *)
Record Props : Type := mkProps {
  elements : list WhiteboardElement;
  activeTool : Tool;
  strokeColor : string;
  prop_strokeWidth : R;
  viewport : ViewportState
}.

Inductive Call : Type :=
| OnElementsChange (els : list WhiteboardElement)
| OnViewportChange (v : ViewportState)
| BroadcastCursor (cx cy : R)
| BroadcastElementChange (els : list WhiteboardElement).

(** The component's own state cells. *)
Record State : Type := mkState {
  drawingState : DrawingState;
  isPanning : bool;
  lastPanPoint : Point
}.

Definition initialState : State :=
  mkState (mkDrawingState false [] None) false (mkPoint 0 0).

(** [canvasRef.current] is [None] while the canvas is not mounted. *)
Definition screenToCanvas (canvas : option DOMRect) (vp : ViewportState)
           (screenX screenY : R) : Point :=
  match canvas with
  | None => mkPoint 0 0
  | Some rect =>
      mkPoint ((screenX - left rect - vp_x vp) / zoom vp)
              ((screenY - top rect - vp_y vp) / zoom vp)
  end.

(** The transform [redraw] installs before drawing:
    [ctx.translate(viewport.x, viewport.y); ctx.scale(zoom, zoom)], which
    sends a world point to a pixel of the canvas. *)
Definition worldToCanvasPixel (vp : ViewportState) (p : Point) : Point :=
  mkPoint (pt_x p * zoom vp + vp_x vp) (pt_y p * zoom vp + vp_y vp).

(** [for (let i = 1; i < points.length; i++) ctx.lineTo(...)] *)
Definition lineTos (ps : list Point) : list CtxOp :=
  map (fun p => LineTo (pt_x p) (pt_y p)) (tl ps).

Definition drawElement (vp : ViewportState) (element : WhiteboardElement)
  : list CtxOp :=
  [ SetStrokeStyle (color element);
    SetLineWidth (strokeWidth element);
    SetLineCap "round";
    SetLineJoin "round" ]
  ++ match type element with
     | TyPath =>
         match points element with
         | Some (p0 :: p1 :: ps) =>
             [BeginPath; MoveTo (pt_x p0) (pt_y p0)]
             ++ lineTos (p0 :: p1 :: ps) ++ [Stroke]
         | _ => []
         end
     | TyRectangle =>
         [ BeginPath;
           RectPath (x element) (y element)
                    (Js.num_or (width element) 0)
                    (Js.num_or (height element) 0) ]
         ++ (if Js.str_truthy (fill element)
             then [SetFillStyle (Js.str_or (fill element) ""); Fill]
             else [])
         ++ [Stroke]
     | TyCircle =>
         let radius := Rmin (Js.num_or (width element) 0 / 2)
                            (Js.num_or (height element) 0 / 2) in
         [ BeginPath;
           Arc (x element + Js.num_or (width element) 0 / 2)
               (y element + Js.num_or (height element) 0 / 2)
               radius 0 (2 * PI) ]
         ++ (if Js.str_truthy (fill element)
             then [SetFillStyle (Js.str_or (fill element) ""); Fill]
             else [])
         ++ [Stroke]
     | TyLine =>
         [ BeginPath;
           MoveTo (x element) (y element);
           LineTo (x element + Js.num_or (width element) 0)
                  (y element + Js.num_or (height element) 0);
           Stroke ]
     | TyText =>
         [ SetFontPx (strokeWidth element * 4) "Inter, sans-serif";
           SetFillStyle (color element);
           FillText (Js.str_or (text element) "") (x element) (y element) ]
     | TyStickyNote =>
         [ SetFillStyle (Js.str_or (fill element) "#fef08a");
           FillRect (x element) (y element)
                    (Js.num_or (width element) 100)
                    (Js.num_or (height element) 100);
           StrokeRect (x element) (y element)
                      (Js.num_or (width element) 100)
                      (Js.num_or (height element) 100) ]
         ++ (if Js.str_truthy (text element)
             then
               [ SetFontPx (strokeWidth element * 3) "Inter, sans-serif";
                 SetFillStyle "#374151" ]
               ++ Js.mapi
                    (fun line index =>
                       FillText line (x element + 8)
                         (y element + 20
                          + INR index * strokeWidth element * 4))
                    (Js.split_lines (Js.str_or (text element) ""))
             else [])
     | _ => []
     end
  ++ (if Js.bool_truthy (selected element)
      then
        [ SetStrokeStyle "#4F46E5";
          SetLineWidth (2 / zoom vp);
          SetLineDash [5 / zoom vp; 5 / zoom vp];
          StrokeRect (x element - 5) (y element - 5)
                     (Js.num_or (width element) 0 + 10)
                     (Js.num_or (height element) 0 + 10);
          SetLineDash [] ]
      else []).

(** [tool as any]: the tool's string, read as an element type. *)
Definition toolAsAny (tool : Tool) : ElementType :=
  match tool with
  | ToolSelect => TyUndeclared "select"
  | ToolPen => TyUndeclared "pen"
  | ToolRectangle => TyRectangle
  | ToolCircle => TyCircle
  | ToolArrow => TyArrow
  | ToolLine => TyLine
  | ToolText => TyText
  | ToolStickyNote => TyStickyNote
  | ToolRichNote => TyRichNote
  end.

Definition createNewElement (newId : string) (tool : Tool) (point : Point)
           (c : string) (w : R) : WhiteboardElement :=
  match tool with
  | ToolPen =>
      mkElement newId TyPath (pt_x point) (pt_y point) None None
                (Some [point]) None c w None None None
  | ToolText =>
      mkElement newId TyText (pt_x point) (pt_y point) None None
                None (Some "Text") c w None None None
  | ToolStickyNote =>
      mkElement newId TyStickyNote (pt_x point) (pt_y point)
                (Some 100) (Some 100) None (Some "Note") c w
                (Some "#fef08a") None None
  | _ =>
      mkElement newId (toolAsAny tool) (pt_x point) (pt_y point)
                (Some 0) (Some 0) None None c w None None None
  end.

Definition updateElementWithPoint (element : WhiteboardElement)
           (point : Point) (path : list Point) : WhiteboardElement :=
  match type element with
  | TyPath => with_points element (path ++ [point])
  | TyRectangle | TyCircle =>
      with_size element (pt_x point - x element) (pt_y point - y element)
  | TyLine =>
      with_size element (pt_x point - x element) (pt_y point - y element)
  | _ => element
  end.

Definition isPointInElement (point : Point) (element : WhiteboardElement)
  : bool :=
  match type element with
  | TyRectangle | TyStickyNote =>
      Js.geb (pt_x point) (x element)
      && Js.leb (pt_x point) (x element + Js.num_or (width element) 0)
      && Js.geb (pt_y point) (y element)
      && Js.leb (pt_y point) (y element + Js.num_or (height element) 0)
  | TyCircle =>
      let centerX := x element + Js.num_or (width element) 0 / 2 in
      let centerY := y element + Js.num_or (height element) 0 / 2 in
      let radius := Rmin (Js.num_or (width element) 0 / 2)
                         (Js.num_or (height element) 0 / 2) in
      let distance := sqrt ((pt_x point - centerX) ^ 2
                            + (pt_y point - centerY) ^ 2) in
      Js.leb distance radius
  | _ => false
  end.

Definition handleMouseDown (newId : string) (canvas : option DOMRect)
           (props : Props) (e : MouseEvent) (st : State)
  : State * list Call :=
  let point := screenToCanvas canvas (viewport props)
                              (clientX e) (clientY e) in
  match activeTool props with
  | ToolSelect =>
      match find (fun el => isPointInElement point el) (elements props) with
      | Some clickedElement =>
          let updatedElements :=
            map (fun el => with_selected el
                             (String.eqb (id el) (id clickedElement)))
                (elements props) in
          (st, [OnElementsChange updatedElements])
      | None =>
          let updatedElements :=
            map (fun el => with_selected el false) (elements props) in
          (mkState (drawingState st) true
                   (mkPoint (clientX e) (clientY e)),
           [OnElementsChange updatedElements])
      end
  | tool =>
      (mkState
         (mkDrawingState true [point]
            (Some (createNewElement newId tool point (strokeColor props)
                                    (prop_strokeWidth props))))
         (isPanning st) (lastPanPoint st),
       [])
  end.

Definition handleMouseMove (canvas : option DOMRect) (props : Props)
           (e : MouseEvent) (st : State) : State * list Call :=
  let point := screenToCanvas canvas (viewport props)
                              (clientX e) (clientY e) in
  let cursor := BroadcastCursor (pt_x point) (pt_y point) in
  if isPanning st then
    let deltaX := clientX e - pt_x (lastPanPoint st) in
    let deltaY := clientY e - pt_y (lastPanPoint st) in
    (mkState (drawingState st) (isPanning st)
              (mkPoint (clientX e) (clientY e)),
     [ cursor;
       OnViewportChange
         (mkViewport (vp_x (viewport props) + deltaX)
                     (vp_y (viewport props) + deltaY)
                     (zoom (viewport props))) ])
  else
    match isDrawing (drawingState st),
          currentElement (drawingState st) with
    | true, Some cur =>
        let updatedElement :=
          updateElementWithPoint cur point
                                 (currentPath (drawingState st)) in
        (mkState
           (mkDrawingState
              (isDrawing (drawingState st))
              (match activeTool props with
               | ToolPen => currentPath (drawingState st) ++ [point]
               | _ => currentPath (drawingState st)
               end)
              (Some updatedElement))
           (isPanning st) (lastPanPoint st),
         [cursor])
    | _, _ => (st, [cursor])
    end.

Definition handleMouseUp (props : Props) (st : State) : State * list Call :=
  if isPanning st then
    (mkState (drawingState st) false (lastPanPoint st), [])
  else
    (mkState (mkDrawingState false [] None)
             (isPanning st) (lastPanPoint st),
     match isDrawing (drawingState st),
           currentElement (drawingState st) with
     | true, Some cur =>
         let newElements := elements props ++ [cur] in
         [OnElementsChange newElements; BroadcastElementChange newElements]
     | _, _ => []
     end).

(** [Math.max(0.1, Math.min(5, viewport.zoom * zoomFactor))] *)
Definition newZoomOf (vp : ViewportState) (e : WheelEvent) : R :=
  let zoomFactor := if Js.gtb (deltaY e) 0 then 0.9 else 1.1 in
  Rmax 0.1 (Rmin 5 (zoom vp * zoomFactor)).

(** The result is the argument of the [onViewportChange] call, if the
    call is made. *)
Definition handleWheel (canvas : option DOMRect) (vp : ViewportState)
           (e : WheelEvent) : option ViewportState :=
  let newZoom := newZoomOf vp e in
  match canvas with
  | Some rect =>
      let mouseX := wheel_clientX e - left rect in
      let mouseY := wheel_clientY e - top rect in
      Some (mkViewport
              (vp_x vp - (mouseX - vp_x vp) * (newZoom / zoom vp - 1))
              (vp_y vp - (mouseY - vp_y vp) * (newZoom / zoom vp - 1))
              newZoom)
  | None => None
  end.

(** App.tsx passes [setViewport] as [onViewportChange]: the viewport
    after a wheel event. *)
Definition afterWheel (vp : ViewportState)
           (ev : option DOMRect * WheelEvent) : ViewportState :=
  match handleWheel (fst ev) vp (snd ev) with
  | Some v => v
  | None => vp
  end.

(** The viewports after each event of a sequence of wheel events. *)
Fixpoint wheelTrace (vp : ViewportState)
         (evs : list (option DOMRect * WheelEvent)) : list ViewportState :=
  match evs with
  | [] => []
  | ev :: rest => afterWheel vp ev :: wheelTrace (afterWheel vp ev) rest
  end.

End Canvas.

(** ** hooks/useCollaboration.ts *)

Module Collaboration.

Record Metadata : Type := mkMetadata {
  meta_displayName : option string;
  meta_color : option string
}.

(** [message.data]: the handler reads [x] and [y] of a cursor move and
    [elements] of an elements update; it never reads [timestamp]. *)
Record MessageData : Type := mkData {
  data_x : R;
  data_y : R;
  data_elements : list WhiteboardElement;
  data_timestamp : R
}.

Record Message : Type := mkMessage {
  msg_type : string;
  msg_userId : string;
  data : MessageData;
  metadata : option Metadata
}.

(** What [blink.realtime.publish] is asked to send. *)
Record Publication : Type := mkPublication {
  pub_channel : string;
  pub_type : string;
  pub_data : MessageData;
  pub_userId : string;
  pub_metadata : Metadata
}.

Definition CHANNEL_NAME : string := "whiteboard-collaboration".

Definition initialState : CollaborationState :=
  mkCollaborationState [] [] false.

(** [message.metadata?.displayName] and [message.metadata?.color] *)
Definition metaDisplayName (m : Message) : option string :=
  match metadata m with
  | Some md => meta_displayName md
  | None => None
  end.

Definition metaColor (m : Message) : option string :=
  match metadata m with
  | Some md => meta_color md
  | None => None
  end.

Definition cursorOf (m : Message) : UserCursor :=
  mkUserCursor (msg_userId m) (data_x (data m)) (data_y (data m))
               (Js.str_or (metaDisplayName m) "Anonymous")
               (Js.str_or (metaColor m) "#666").

(** The [channel.onMessage] handler installed for the signed-in [user].
    The second component is the argument of the [onElementsUpdate] call,
    if the call is made. *)
Definition onMessage (user : User) (message : Message)
           (prev : CollaborationState)
  : CollaborationState * option (list WhiteboardElement) :=
  if String.eqb (msg_type message) "cursor-move"
     && negb (String.eqb (msg_userId message) (user_id user))
  then
    (mkCollaborationState
       (users prev)
       (filter (fun c => negb (String.eqb (userId c) (msg_userId message)))
               (cursors prev)
        ++ [cursorOf message])
       (isConnected prev),
     None)
  else if String.eqb (msg_type message) "elements-update"
          && negb (String.eqb (msg_userId message) (user_id user))
  then (prev, Some (data_elements (data message)))
  else (prev, None).

(** The collaboration state after the channel has delivered [messages],
    first to last. *)
Definition onMessages (user : User) (messages : list Message)
           (prev : CollaborationState) : CollaborationState :=
  fold_left (fun st m => fst (onMessage user m st)) messages prev.

(** [broadcastElementChange]; [now] is [Date.now()].  Nothing is
    published while no user is signed in. *)
Definition broadcastElementChange (currentUser : option User) (now : R)
           (els : list WhiteboardElement) : option Publication :=
  match currentUser with
  | None => None
  | Some u =>
      Some (mkPublication CHANNEL_NAME "elements-update"
              (mkData 0 0 els now) (user_id u)
              (mkMetadata (Some (displayName u)) None))
  end.

Definition broadcastCursor (currentUser : option User) (userColor : string)
           (now : R) (cx cy : R) : option Publication :=
  match currentUser with
  | None => None
  | Some u =>
      Some (mkPublication CHANNEL_NAME "cursor-move"
              (mkData cx cy [] now) (user_id u)
              (mkMetadata (Some (displayName u)) (Some userColor)))
  end.

(** One member of the list the channel hands to [onPresence]. *)
Record PresenceMetadata : Type := mkPresenceMetadata {
  presence_email : option string;
  presence_displayName : option string
}.

Record PresenceMember : Type := mkPresenceMember {
  member_userId : string;
  member_metadata : option PresenceMetadata
}.

(** [u.metadata?.email] and [u.metadata?.displayName] *)
Definition memberEmail (u : PresenceMember) : option string :=
  match member_metadata u with
  | Some md => presence_email md
  | None => None
  end.

Definition memberDisplayName (u : PresenceMember) : option string :=
  match member_metadata u with
  | Some md => presence_displayName md
  | None => None
  end.

(** The [channel.onPresence] handler. *)
Definition onPresence (members : list PresenceMember)
           (prev : CollaborationState) : CollaborationState :=
  mkCollaborationState
    (map (fun u => mkUser (member_userId u)
                          (Js.str_or (memberEmail u) "")
                          (Js.str_or (memberDisplayName u) "Anonymous"))
         members)
    (cursors prev)
    true.

End Collaboration.

(** ** App.tsx *)

Module App.

(** The state cells of the top-level component.  A handler that would
    store [undefined] in [elements] has no next state ([None]): the
    next render calls [elements.forEach] on it. *)
Record State : Type := mkState {
  elements : list WhiteboardElement;
  activeTool : Tool;
  strokeColor : string;
  strokeWidth : R;
  viewport : ViewportState;
  history : list (list WhiteboardElement);
  historyIndex : nat
}.

Definition initialState : State :=
  mkState [] ToolPen "#000000" 2 (mkViewport 0 0 1) [[]] 0.

Definition setElements (els : list WhiteboardElement) (s : State) : State :=
  mkState els (activeTool s) (strokeColor s) (strokeWidth s) (viewport s)
          (history s) (historyIndex s).

Definition setHistory (h : list (list WhiteboardElement)) (s : State)
  : State :=
  mkState (elements s) (activeTool s) (strokeColor s) (strokeWidth s)
          (viewport s) h (historyIndex s).

Definition setHistoryIndex (i : nat) (s : State) : State :=
  mkState (elements s) (activeTool s) (strokeColor s) (strokeWidth s)
          (viewport s) (history s) i.

Definition setViewport (v : ViewportState) (s : State) : State :=
  mkState (elements s) (activeTool s) (strokeColor s) (strokeWidth s)
          v (history s) (historyIndex s).

Definition setActiveTool (t : Tool) (s : State) : State :=
  mkState (elements s) t (strokeColor s) (strokeWidth s) (viewport s)
          (history s) (historyIndex s).

Definition handleCollaborativeElementsUpdate
           (newElements : list WhiteboardElement) (s : State) : State :=
  setElements newElements s.

(** The auto-save that follows ([saveElements]) writes to the store and
    touches none of these cells. *)
Definition handleElementsChange (newElements : list WhiteboardElement)
           (s : State) : State :=
  let newHistory := firstn (historyIndex s + 1) (history s)
                    ++ [newElements] in
  setHistoryIndex (List.length newHistory - 1)
    (setHistory newHistory (setElements newElements s)).

Definition handleUndo (s : State) : option State :=
  if (0 <? historyIndex s)%nat then
    let newIndex := (historyIndex s - 1)%nat in
    match nth_error (history s) newIndex with
    | Some snapshot =>
        Some (setElements snapshot (setHistoryIndex newIndex s))
    | None => None
    end
  else Some s.

Definition handleRedo (s : State) : option State :=
  if (historyIndex s <? List.length (history s) - 1)%nat then
    let newIndex := (historyIndex s + 1)%nat in
    match nth_error (history s) newIndex with
    | Some snapshot =>
        Some (setElements snapshot (setHistoryIndex newIndex s))
    | None => None
    end
  else Some s.

(** The continuation of [loadElements(currentSession.id)]. *)
Definition onElementsLoaded (loadedElements : list WhiteboardElement)
           (s : State) : State :=
  if (0 <? List.length loadedElements)%nat then
    setHistoryIndex 1
      (setHistory [[]; loadedElements] (setElements loadedElements s))
  else s.

Definition canvasProps (s : State) : Canvas.Props :=
  Canvas.mkProps (elements s) (activeTool s) (strokeColor s)
                 (strokeWidth s) (viewport s).

(** The body of the loop of [handleExport]: what it draws for one
    element. *)
Definition exportElement (element : WhiteboardElement) : list CtxOp :=
  [ SetStrokeStyle (color element);
    SetLineWidth (Whiteboard.strokeWidth element);
    SetLineCap "round";
    SetLineJoin "round" ]
  ++ match type element with
     | TyPath =>
         match points element with
         | Some (p0 :: p1 :: ps) =>
             [BeginPath; MoveTo (pt_x p0) (pt_y p0)]
             ++ map (fun p => LineTo (pt_x p) (pt_y p)) (p1 :: ps)
             ++ [Stroke]
         | _ => []
         end
     | TyRectangle =>
         [ BeginPath;
           RectPath (x element) (y element)
                    (Js.num_or (width element) 0)
                    (Js.num_or (height element) 0) ]
         ++ (if Js.str_truthy (fill element)
             then [SetFillStyle (Js.str_or (fill element) ""); Fill]
             else [])
         ++ [Stroke]
     | TyCircle =>
         let radius := Rmin (Js.num_or (width element) 0 / 2)
                            (Js.num_or (height element) 0 / 2) in
         [ BeginPath;
           Arc (x element + Js.num_or (width element) 0 / 2)
               (y element + Js.num_or (height element) 0 / 2)
               radius 0 (2 * PI) ]
         ++ (if Js.str_truthy (fill element)
             then [SetFillStyle (Js.str_or (fill element) ""); Fill]
             else [])
         ++ [Stroke]
     | TyLine =>
         [ BeginPath;
           MoveTo (x element) (y element);
           LineTo (x element + Js.num_or (width element) 0)
                  (y element + Js.num_or (height element) 0);
           Stroke ]
     | TyText =>
         [ SetFontPx (Whiteboard.strokeWidth element * 4)
                     "Inter, sans-serif";
           SetFillStyle (color element);
           FillText (Js.str_or (text element) "") (x element) (y element) ]
     | TyStickyNote =>
         [ SetFillStyle (Js.str_or (fill element) "#fef08a");
           FillRect (x element) (y element)
                    (Js.num_or (width element) 100)
                    (Js.num_or (height element) 100);
           StrokeRect (x element) (y element)
                      (Js.num_or (width element) 100)
                      (Js.num_or (height element) 100) ]
         ++ (if Js.str_truthy (text element)
             then
               [ SetFontPx (Whiteboard.strokeWidth element * 3)
                           "Inter, sans-serif";
                 SetFillStyle "#374151" ]
               ++ Js.mapi
                    (fun line index =>
                       FillText line (x element + 8)
                         (y element + 20
                          + INR index * Whiteboard.strokeWidth element * 4))
                    (Js.split_lines (Js.str_or (text element) ""))
             else [])
     | _ => []
     end.

(** The offscreen canvas [handleExport] serialises. *)
Record ExportCanvas : Type := mkExportCanvas {
  canvas_width : R;
  canvas_height : R;
  canvas_ops : list CtxOp
}.

(** [hasContext] is whether [canvas.getContext('2d')] returned a
    context; without one nothing is exported. *)
Definition handleExport (hasContext : bool) (s : State)
  : option ExportCanvas :=
  if hasContext then
    Some (mkExportCanvas 1920 1080
            ([SetFillStyle "#ffffff"; FillRect 0 0 1920 1080]
             ++ flat_map exportElement (elements s)))
  else None.

(** The operations on the element collection and its history. *)
Inductive Op : Type :=
| LocalCommit (els : list WhiteboardElement)    (* handleElementsChange *)
| Undo
| Redo
| RemoteUpdate (els : list WhiteboardElement)   (* another user's update *)
| SessionLoad (els : list WhiteboardElement).

Definition step (s : State) (o : Op) : option State :=
  match o with
  | LocalCommit els => Some (handleElementsChange els s)
  | Undo => handleUndo s
  | Redo => handleRedo s
  | RemoteUpdate els => Some (handleCollaborativeElementsUpdate els s)
  | SessionLoad els => Some (onElementsLoaded els s)
  end.

Fixpoint runOps (s : State) (ops : list Op) : option State :=
  match ops with
  | [] => Some s
  | o :: rest =>
      match step s o with
      | Some s' => runOps s' rest
      | None => None
      end
  end.

Definition isRemoteUpdate (o : Op) : bool :=
  match o with
  | RemoteUpdate _ => true
  | _ => false
  end.

Definition setStrokeColor (c : string) (s : State) : State :=
  mkState (elements s) (activeTool s) c (strokeWidth s) (viewport s)
          (history s) (historyIndex s).

Definition setStrokeWidth (w : R) (s : State) : State :=
  mkState (elements s) (activeTool s) (strokeColor s) w (viewport s)
          (history s) (historyIndex s).

(** The toolbar's zoom buttons: [{ ...viewport, zoom: newZoom }]. *)
Definition handleZoomIn (s : State) : State :=
  let newZoom := Rmin 5 (zoom (viewport s) * 1.2) in
  setViewport (mkViewport (vp_x (viewport s)) (vp_y (viewport s)) newZoom) s.

Definition handleZoomOut (s : State) : State :=
  let newZoom := Rmax 0.1 (zoom (viewport s) * 0.8) in
  setViewport (mkViewport (vp_x (viewport s)) (vp_y (viewport s)) newZoom) s.

(** The [canUndo] and [canRedo] props passed to the toolbar. *)
Definition canUndo (s : State) : bool := (0 <? historyIndex s)%nat.

Definition canRedo (s : State) : bool :=
  (historyIndex s <? List.length (history s) - 1)%nat.

End App.

(** ** components/Toolbar.tsx *)

Module Toolbar.

Definition colors : list string :=
  [ "#000000"; "#4F46E5"; "#EF4444"; "#10B981";
    "#F59E0B"; "#8B5CF6"; "#EC4899"; "#6B7280" ].

Definition strokeWidths : list R := [2; 4; 6; 8].

(** The [id]s of the tool buttons, in order. *)
Definition tools : list Tool :=
  [ ToolSelect; ToolPen; ToolRectangle; ToolCircle; ToolArrow; ToolLine;
    ToolText; ToolStickyNote; ToolRichNote ].

End Toolbar.

(** ** components/UserPresence.tsx *)

Module UserPresence.

(** [users.filter(user => user.id !== currentUserId)]; [currentUserId] is
    [currentUser?.id], [undefined] while nobody is signed in. *)
Definition otherUsers (users : list User) (currentUserId : option string)
  : list User :=
  filter (fun user =>
            match currentUserId with
            | Some i => negb (String.eqb (user_id user) i)
            | None => true
            end)
         users.

(** The number shown before "online". *)
Definition onlineCount (users : list User) : nat := List.length users.

(** [otherUsers.slice(0, 5)]: the avatars drawn. *)
Definition avatars (users : list User) (currentUserId : option string)
  : list User :=
  firstn 5 (otherUsers users currentUserId).

(** The "+n" badge, drawn when there are more than five other users. *)
Definition overflowBadge (users : list User) (currentUserId : option string)
  : option nat :=
  if (5 <? List.length (otherUsers users currentUserId))%nat
  then Some (List.length (otherUsers users currentUserId) - 5)%nat
  else None.

End UserPresence.

(** ** components/RichNoteCard.tsx *)

Module RichNoteCard.

Definition withComments (richNote : RichNote) (cs : list Comment) : RichNote :=
  mkRichNote (note_id richNote) (note_content richNote) cs
             (note_lastEditedBy richNote) (note_lastEditedAt richNote).

Section Handlers.

(** [blank s] is [!s.trim()]: whether nothing is left of [s] once the
    engine's [String.prototype.trim] has removed the white space. *)
Variable blank : string -> bool.

(** The first component is the text box after the call; the second is the
    argument of the [onUpdate] call, if the call is made.  [newId] is the
    identifier drawn for the comment and [now] is [Date.now()]. *)
Definition handleAddComment (newId : string) (now : R) (newComment : string)
           (currentUser : option User) (richNote : RichNote)
  : string * option RichNote :=
  if blank newComment then (newComment, None)
  else
    match currentUser with
    | None => (newComment, None)
    | Some u =>
        let comment := mkComment newId newComment (displayName u) (user_id u)
                                 now (Some false) in
        ("", Some (withComments richNote
                                (note_comments richNote ++ [comment])))
    end.

End Handlers.

(** [{ ...comment, resolved: !comment.resolved }] *)
Definition toggled (comment : Comment) : Comment :=
  mkComment (comment_id comment) (comment_text comment)
            (comment_author comment) (comment_authorId comment)
            (comment_timestamp comment)
            (Some (negb (Js.bool_truthy (comment_resolved comment)))).

Definition handleToggleComment (commentId : string) (richNote : RichNote)
  : RichNote :=
  let updatedComments :=
    map (fun comment =>
           if String.eqb (comment_id comment) commentId
           then toggled comment
           else comment)
        (note_comments richNote) in
  withComments richNote updatedComments.

Definition handleDeleteComment (commentId : string) (richNote : RichNote)
  : RichNote :=
  let updatedComments :=
    filter (fun comment => negb (String.eqb (comment_id comment) commentId))
           (note_comments richNote) in
  withComments richNote updatedComments.

Definition unresolvedComments (richNote : RichNote) : list Comment :=
  filter (fun c => negb (Js.bool_truthy (comment_resolved c)))
         (note_comments richNote).

Definition resolvedComments (richNote : RichNote) : list Comment :=
  filter (fun c => Js.bool_truthy (comment_resolved c))
         (note_comments richNote).

(** Whether the Delete button is rendered for a comment:
    [currentUser?.id === comment.authorId]. *)
Definition showsDelete (currentUser : option User) (comment : Comment) : bool :=
  match currentUser with
  | Some u => String.eqb (user_id u) (comment_authorId comment)
  | None => false
  end.

(** What the auto-save timer does when it fires: the argument of the
    [onUpdate] call, if the call is made. *)
Definition autoSave (now : R) (content : string) (currentUser : option User)
           (richNote : RichNote) : option RichNote :=
  if String.eqb content (note_content richNote) then None
  else
    Some (mkRichNote
            (note_id richNote) content (note_comments richNote)
            (Some (Js.str_or (option_map displayName currentUser)
                             "Anonymous"))
            (Some now)).

(** The text [formatTimestamp] returns: ['Just now'], [`${m}m ago`],
    [`${h}h ago`] or the locale's rendering of the date. *)
Inductive TimeLabel : Type :=
| JustNow
| MinutesAgo (m : Z)
| HoursAgo (h : Z)
| LocaleDate (timestamp : R).

(** [new Date(timestamp).getTime()]: the timestamp with its fraction cut
    off, or [None] (an invalid date, whose time is NaN) when it is beyond
    the 8.64e15 milliseconds a date can hold. *)
Definition dateTime (timestamp : R) : option Z :=
  if Rle_dec (Rabs timestamp) 8640000000000000
  then Some (if Rle_dec 0 timestamp
             then Int_part timestamp
             else (- Int_part (- timestamp))%Z)
  else None.

(** [now] is [new Date().getTime()]; [Math.floor] is [Int_part].  With an
    invalid date every comparison is false and the (invalid) date is
    rendered. *)
Definition formatTimestamp (now : R) (timestamp : R) : TimeLabel :=
  match dateTime timestamp with
  | None => LocaleDate timestamp
  | Some time =>
      let diffInMinutes := Int_part ((now - IZR time) / (1000 * 60)) in
      if (diffInMinutes <? 1)%Z then JustNow
      else if (diffInMinutes <? 60)%Z then MinutesAgo diffInMinutes
      else if (diffInMinutes <? 1440)%Z
           then HoursAgo (Int_part (IZR diffInMinutes / 60))
           else LocaleDate timestamp
  end.

End RichNoteCard.

(** ** The components wired together

    App.tsx renders one [Canvas] with its state as props, and passes
    [handleElementsChange], [setViewport] and the two broadcast functions
    of [useCollaboration] as the callbacks. *)

Module System.

Record State : Type := mkState {
  app : App.State;
  canvas : Canvas.State;
  collaboration : CollaborationState;
  currentUser : option User;
  userColor : string;
  published : list Collaboration.Publication   (* oldest first *)
}.

Definition initialState : State :=
  mkState App.initialState Canvas.initialState
          Collaboration.initialState None "" [].

Definition setApp (a : App.State) (w : State) : State :=
  mkState a (canvas w) (collaboration w) (currentUser w) (userColor w)
          (published w).

Definition setCanvas (c : Canvas.State) (w : State) : State :=
  mkState (app w) c (collaboration w) (currentUser w) (userColor w)
          (published w).

Definition setCollaboration (c : CollaborationState) (w : State) : State :=
  mkState (app w) (canvas w) c (currentUser w) (userColor w) (published w).

Definition publish (p : option Collaboration.Publication) (w : State)
  : State :=
  match p with
  | Some m =>
      mkState (app w) (canvas w) (collaboration w) (currentUser w)
              (userColor w) (published w ++ [m])
  | None => w
  end.

(** One call made by the canvas on its props; [now] is [Date.now()]. *)
Definition dispatch (now : R) (w : State) (c : Canvas.Call) : State :=
  match c with
  | Canvas.OnElementsChange els =>
      setApp (App.handleElementsChange els (app w)) w
  | Canvas.OnViewportChange v =>
      setApp (App.setViewport v (app w)) w
  | Canvas.BroadcastCursor cx cy =>
      publish (Collaboration.broadcastCursor
                 (currentUser w) (userColor w) now cx cy) w
  | Canvas.BroadcastElementChange els =>
      publish (Collaboration.broadcastElementChange
                 (currentUser w) now els) w
  end.

Definition run (now : R) (r : Canvas.State * list Canvas.Call) (w : State)
  : State :=
  fold_left (dispatch now) (snd r) (setCanvas (fst r) w).

Definition mouseDown (newId : string) (rect : option Canvas.DOMRect)
           (now : R) (e : Canvas.MouseEvent) (w : State) : State :=
  run now (Canvas.handleMouseDown newId rect (App.canvasProps (app w)) e
                                  (canvas w)) w.

Definition mouseMove (rect : option Canvas.DOMRect) (now : R)
           (e : Canvas.MouseEvent) (w : State) : State :=
  run now (Canvas.handleMouseMove rect (App.canvasProps (app w)) e
                                  (canvas w)) w.

Definition mouseUp (now : R) (w : State) : State :=
  run now (Canvas.handleMouseUp (App.canvasProps (app w)) (canvas w)) w.

Definition wheel (rect : option Canvas.DOMRect) (e : Canvas.WheelEvent)
           (w : State) : State :=
  match Canvas.handleWheel rect (App.viewport (app w)) e with
  | Some v => setApp (App.setViewport v (app w)) w
  | None => w
  end.

(** A message delivered by the channel.  The handler exists only once a
    user is signed in and the channel is subscribed. *)
Definition receive (message : Collaboration.Message) (w : State) : State :=
  match currentUser w with
  | None => w
  | Some user =>
      let r := Collaboration.onMessage user message (collaboration w) in
      let w' := setCollaboration (fst r) w in
      match snd r with
      | Some els =>
          setApp (App.handleCollaborativeElementsUpdate els (app w')) w'
      | None => w'
      end
  end.

(** What can happen to the running application: pointer and wheel events
    on the canvas, clicks on the toolbar, deliveries from the channel and
    the arrival of the stored elements.  [now] is [Date.now()] at the
    event and [rect] the canvas's bounding rectangle. *)
Inductive Event : Type :=
| MouseDown (newId : string) (rect : option Canvas.DOMRect) (now : R)
            (e : Canvas.MouseEvent)
| MouseMove (rect : option Canvas.DOMRect) (now : R) (e : Canvas.MouseEvent)
| MouseUp (now : R)
| Wheel (rect : option Canvas.DOMRect) (e : Canvas.WheelEvent)
| PickTool (t : Tool)
| PickColor (button : nat)
| PickWidth (button : nat)
| UndoClick
| RedoClick
| ZoomInClick
| ZoomOutClick
| Message (m : Collaboration.Message)
| Presence (members : list Collaboration.PresenceMember)
| Loaded (els : list WhiteboardElement).

Definition step (w : State) (ev : Event) : option State :=
  match ev with
  | MouseDown newId rect now e => Some (mouseDown newId rect now e w)
  | MouseMove rect now e => Some (mouseMove rect now e w)
  | MouseUp now => Some (mouseUp now w)
  | Wheel rect e => Some (wheel rect e w)
  | PickTool t => Some (setApp (App.setActiveTool t (app w)) w)
  | PickColor button =>
      match nth_error Toolbar.colors button with
      | Some c => Some (setApp (App.setStrokeColor c (app w)) w)
      | None => Some w
      end
  | PickWidth button =>
      match nth_error Toolbar.strokeWidths button with
      | Some width => Some (setApp (App.setStrokeWidth width (app w)) w)
      | None => Some w
      end
  | UndoClick => option_map (fun a => setApp a w) (App.handleUndo (app w))
  | RedoClick => option_map (fun a => setApp a w) (App.handleRedo (app w))
  | ZoomInClick => Some (setApp (App.handleZoomIn (app w)) w)
  | ZoomOutClick => Some (setApp (App.handleZoomOut (app w)) w)
  | Message m => Some (receive m w)
  | Presence members =>
      match currentUser w with
      | Some _ =>
          Some (setCollaboration
                  (Collaboration.onPresence members (collaboration w)) w)
      | None => Some w
      end
  | Loaded els => Some (setApp (App.onElementsLoaded els (app w)) w)
  end.

Fixpoint runEvents (w : State) (evs : list Event) : option State :=
  match evs with
  | [] => Some w
  | ev :: rest =>
      match step w ev with
      | Some w' => runEvents w' rest
      | None => None
      end
  end.

(** The application as it starts for [user] ([None]: nobody signed in),
    with the cursor colour assigned to the user. *)
Definition startAs (user : option User) (c : string) : State :=
  mkState App.initialState Canvas.initialState Collaboration.initialState
          user c [].

End System.

(** ** Predicates used in the statements *)

(** The zoom of a viewport is within the clamp. *)
Definition zoomInRange (v : ViewportState) : Prop := 0.1 <= zoom v <= 5.

(** The box of an element, an absent side counting as [0], as
    [isPointInElement] reads it. *)
Definition boxWidth (el : WhiteboardElement) : R := Js.num_or (width el) 0.
Definition boxHeight (el : WhiteboardElement) : R := Js.num_or (height el) 0.

(** The history index points into the snapshot sequence. *)
Definition indexInRange (s : App.State) : Prop :=
  (App.historyIndex s < List.length (App.history s))%nat.

(** The snapshot under the history index is the displayed collection. *)
Definition inSync (s : App.State) : Prop :=
  nth_error (App.history s) (App.historyIndex s) = Some (App.elements s).

(** A sequence of operations made of local ones only. *)
Definition localOnly (ops : list App.Op) : bool :=
  forallb (fun o => negb (App.isRemoteUpdate o)) ops.

(** The operations that the guards of the handlers turn into no-ops: an
    undo at index 0, a redo at the last index, a load of no element. *)
Definition idle (s : App.State) (o : App.Op) : bool :=
  match o with
  | App.Undo => negb (App.canUndo s)
  | App.Redo => negb (App.canRedo s)
  | App.SessionLoad els => negb (0 <? List.length els)%nat
  | App.LocalCommit _ | App.RemoteUpdate _ => false
  end.

(** The operations after which the snapshot under the index is displayed
    whatever was displayed before: a local commit, an undo or a redo that
    takes effect, a load of at least one element. *)
Definition resyncs (s : App.State) (o : App.Op) : bool :=
  match o with
  | App.LocalCommit _ => true
  | App.Undo => App.canUndo s
  | App.Redo => App.canRedo s
  | App.SessionLoad els => (0 <? List.length els)%nat
  | App.RemoteUpdate _ => false
  end.

(** The last operation of a run from [s] that was not such a no-op,
    with the state it was applied to; [acc] when there is none. *)
Fixpoint lastEffective (s : App.State) (ops : list App.Op)
         (acc : option (App.State * App.Op))
  : option (App.State * App.Op) :=
  match ops with
  | [] => acc
  | o :: rest =>
      match App.step s o with
      | Some s1 =>
          lastEffective s1 rest (if idle s o then acc else Some (s, o))
      | None => None
      end
  end.

(** What that operation left on display: a remote update, its payload,
    which has to be compared with the snapshot under the index; any other
    operation, or none at all, that snapshot itself. *)
Definition displaysSnapshot (last : option (App.State * App.Op)) : Prop :=
  match last with
  | Some (s0, App.RemoteUpdate els) =>
      nth_error (App.history s0) (App.historyIndex s0) = Some els
  | _ => True
  end.

(** A rectangle used in the examples. *)
Definition sampleRectangle : WhiteboardElement :=
  Canvas.createNewElement "a1" ToolRectangle (mkPoint 10 10) "#000000" 2.

(** The cursor stored for [u], and the last message of [u] in a sequence
    of deliveries. *)
Definition cursorFor (u : string) (cs : list UserCursor) : option UserCursor :=
  find (fun c => String.eqb (userId c) u) cs.

Definition lastMessageOf (u : string) (ms : list Collaboration.Message)
  : option Collaboration.Message :=
  find (fun m => String.eqb (Collaboration.msg_userId m) u) (rev ms).


Definition onePerUser (cs : list UserCursor) : Prop := NoDup (map userId cs).

Definition isCursorMove (m : Collaboration.Message) : Prop :=
  Collaboration.msg_type m = "cursor-move".

(** What [drawElement] draws after the switch on the element's type: the
    dashed box around a selected element. *)
Definition selectionIndicator (vp : ViewportState) (element : WhiteboardElement)
  : list CtxOp :=
  if Js.bool_truthy (selected element)
  then [ SetStrokeStyle "#4F46E5";
         SetLineWidth (2 / zoom vp);
         SetLineDash [5 / zoom vp; 5 / zoom vp];
         StrokeRect (x element - 5) (y element - 5)
                    (Js.num_or (width element) 0 + 10)
                    (Js.num_or (height element) 0 + 10);
         SetLineDash [] ]
  else [].

(** Two elements that agree on every field but [selected]. *)
Definition sameButSelected (a b : WhiteboardElement) : Prop :=
  id a = id b /\ type a = type b /\ x a = x b /\ y a = y b
  /\ width a = width b /\ height a = height b /\ points a = points b
  /\ text a = text b /\ color a = color b
  /\ strokeWidth a = strokeWidth b /\ fill a = fill b
  /\ richNote a = richNote b.

(** [k] is the first position, in storage order, of an element that
    contains [p]. *)
Definition firstHitAt (p : Point) (els : list WhiteboardElement) (k : nat)
  : Prop :=
  (exists el, nth_error els k = Some el
              /\ Canvas.isPointInElement p el = true)
  /\ (forall j el, (j < k)%nat -> nth_error els j = Some el ->
                   Canvas.isPointInElement p el = false).

Definition uniqueIds (els : list WhiteboardElement) : Prop :=
  NoDup (map id els).

(** The comments of a note have pairwise different ids. *)
Definition uniqueCommentIds (richNote : RichNote) : Prop :=
  NoDup (map comment_id (note_comments richNote)).

(** No comment of the note has the id [i]. *)
Definition freshCommentId (i : string) (richNote : RichNote) : Prop :=
  ~ In i (map comment_id (note_comments richNote)).


(** Two elements that agree on every field but the box and the points. *)
Definition sameButShape (a b : WhiteboardElement) : Prop :=
  id a = id b /\ type a = type b /\ x a = x b /\ y a = y b
  /\ text a = text b /\ color a = color b
  /\ strokeWidth a = strokeWidth b /\ fill a = fill b
  /\ selected a = selected b /\ richNote a = richNote b.

(** The four assignments every element starts with, in both renderers. *)
Definition styleHeader (element : WhiteboardElement) : list CtxOp :=
  [ SetStrokeStyle (color element);
    SetLineWidth (strokeWidth element);
    SetLineCap "round";
    SetLineJoin "round" ].

(** The world point under the pointer of a mouse event. *)
Definition worldPoint (rect : option Canvas.DOMRect) (w : System.State)
           (e : Canvas.MouseEvent) : Point :=
  Canvas.screenToCanvas rect (App.viewport (System.app w))
                        (Canvas.clientX e) (Canvas.clientY e).

(** A run of pointer moves over the canvas, each with its [Date.now()]. *)
Definition moveEvents (rect : option Canvas.DOMRect)
           (es : list (R * Canvas.MouseEvent)) : list System.Event :=
  map (fun ne => System.MouseMove rect (fst ne) (snd ne)) es.

(** The client position of a mouse event. *)
Definition clientPoint (e : Canvas.MouseEvent) : Point :=
  mkPoint (Canvas.clientX e) (Canvas.clientY e).

(** The channel hands the publication [p] to a subscriber as the message
    [m]: same type, sender, data and metadata. *)
Definition deliveredAs (p : Collaboration.Publication)
           (m : Collaboration.Message) : Prop :=
  Collaboration.msg_type m = Collaboration.pub_type p
  /\ Collaboration.msg_userId m = Collaboration.pub_userId p
  /\ Collaboration.data m = Collaboration.pub_data p
  /\ Collaboration.metadata m = Some (Collaboration.pub_metadata p).

(** A colour and a width that the toolbar offers. *)
Definition toolbarStyle (c : string) (width : R) : Prop :=
  In c Toolbar.colors /\ In width Toolbar.strokeWidths.

(** The three cells of the drawing state agree: an element is being drawn
    exactly when [isDrawing] is set, and then the path is not empty. *)
Definition gestureConsistent (c : Canvas.State) : Prop :=
  match currentElement (Canvas.drawingState c) with
  | Some _ => isDrawing (Canvas.drawingState c) = true
              /\ currentPath (Canvas.drawingState c) <> []
  | None => isDrawing (Canvas.drawingState c) = false
            /\ currentPath (Canvas.drawingState c) = []
  end.

Definition appOk (a : App.State) : Prop :=
  indexInRange a /\ zoomInRange (App.viewport a)
  /\ toolbarStyle (App.strokeColor a) (App.strokeWidth a).

Definition canvasOk (c : Canvas.State) : Prop :=
  gestureConsistent c
  /\ forall el, currentElement (Canvas.drawingState c) = Some el ->
                toolbarStyle (color el) (strokeWidth el).

(** Everything published went to the collaboration channel under the id of
    the signed-in user; nothing was published while nobody was. *)
Definition publishedAs (u : option User)
           (ps : list Collaboration.Publication) : Prop :=
  match u with
  | None => ps = []
  | Some a =>
      Forall (fun p => Collaboration.pub_userId p = user_id a
                       /\ Collaboration.pub_channel p
                          = Collaboration.CHANNEL_NAME)
             ps
  end.

(** The cursors are those of other users, one for each. *)
Definition cursorsOfOthers (u : option User) (cs : list UserCursor) : Prop :=
  onePerUser cs
  /\ match u with
     | None => cs = []
     | Some a => cursorFor (user_id a) cs = None
     end.

Definition wellFormed (u : option User) (w : System.State) : Prop :=
  System.currentUser w = u
  /\ appOk (System.app w)
  /\ canvasOk (System.canvas w)
  /\ publishedAs u (System.published w)
  /\ cursorsOfOthers u (cursors (System.collaboration w)).

(** What a call from the canvas may ask of the application: a viewport
    whose zoom is within the clamp. *)
Definition callOk (c : Canvas.Call) : Prop :=
  match c with
  | Canvas.OnViewportChange v => zoomInRange v
  | _ => True
  end.

(** The drawing operation sets the line dash, as only the selection
    indicator does. *)
Definition setsLineDash (op : CtxOp) : bool :=
  match op with
  | SetLineDash _ => true
  | _ => false
  end.

(** * Properties *)

(** ** JavaScript values *)

Lemma leb_true (a b : R) : Js.leb a b = true <-> a <= b.
Proof.
  unfold Js.leb. destruct (Rle_dec a b); split; intros; auto;
    try discriminate; try contradiction.
Qed.

Lemma geb_true (a b : R) : Js.geb a b = true <-> b <= a.
Proof.
  unfold Js.geb. destruct (Rge_dec a b) as [H|H]; split; intros; auto;
    try discriminate; try lra.
Qed.

Lemma gtb_true (a b : R) : Js.gtb a b = true <-> b < a.
Proof.
  unfold Js.gtb. destruct (Rgt_dec a b) as [H|H]; split; intros; auto;
    try discriminate; try lra.
Qed.

Lemma leb_false (a b : R) : Js.leb a b = false <-> b < a.
Proof.
  unfold Js.leb. destruct (Rle_dec a b); split; intros; auto;
    try discriminate; lra.
Qed.

Lemma gtb_false (a b : R) : Js.gtb a b = false <-> a <= b.
Proof.
  unfold Js.gtb. destruct (Rgt_dec a b) as [H|H]; split; intros; auto;
    try discriminate; lra.
Qed.

(** [w || 0] is the width, an absent width counting as [0]. *)
Lemma num_or_zero (w : option R) :
  Js.num_or w 0 = match w with Some v => v | None => 0 end.
Proof.
  destruct w as [v|]; simpl; auto.
  destruct (Req_dec_T v 0); auto.
Qed.

Lemma num_or_nonzero (v d : R) : v <> 0 -> Js.num_or (Some v) d = v.
Proof.
  intros H. simpl. destruct (Req_dec_T v 0); auto. contradiction.
Qed.

Example split_lines_two_lines :
  Js.split_lines ("ab" ++ String "010"%char "c")%string = ["ab"; "c"].
Proof. reflexivity. Qed.

Example split_lines_trailing_newline :
  Js.split_lines (String "a"%char (String "010"%char "")) = ["a"; ""].
Proof. reflexivity. Qed.

Example sticky_note_zero_width_draws_default :
  Js.num_or (Some 0) 100 = 100 /\ Js.num_or None 100 = 100
  /\ Js.num_or (Some 40) 100 = 40.
Proof.
  split; [|split]; simpl; try reflexivity.
  - destruct (Req_dec_T 0 0); [reflexivity|contradiction].
  - destruct (Req_dec_T 40 0); [lra|reflexivity].
Qed.

(** ** Geometry *)

Section Geometry.

Variable rect : Canvas.DOMRect.
Variable vp : ViewportState.

Lemma screenToCanvas_formula (sx sy : R) :
  Canvas.screenToCanvas (Some rect) vp sx sy
  = mkPoint ((sx - Canvas.left rect - vp_x vp) / zoom vp)
            ((sy - Canvas.top rect - vp_y vp) / zoom vp).
Proof. reflexivity. Qed.

Lemma forward_after_inverse (sx sy : R) :
  zoom vp <> 0 ->
  Canvas.worldToCanvasPixel vp (Canvas.screenToCanvas (Some rect) vp sx sy)
  = mkPoint (sx - Canvas.left rect) (sy - Canvas.top rect).
Proof.
  intros Hz. unfold Canvas.worldToCanvasPixel. simpl.
  f_equal; field; assumption.
Qed.

End Geometry.

(** C3.  [screenToCanvas] (the spec's screenToWorld) sends the screen point
    [s] (the pointer position relative to the canvas) to
    [((s.x - viewport.x) / zoom, (s.y - viewport.y) / zoom)]; it is a
    function of its arguments alone; and when the zoom is not zero, the
    forward transform [world * zoom + offset] sends the result back to
    [s], exactly. *)
Theorem screenToCanvas_inverts_forward_transform
        (rect : Canvas.DOMRect) (vp : ViewportState) (clientX clientY : R) :
  zoom vp <> 0 ->
  let screen := mkPoint (clientX - Canvas.left rect)
                        (clientY - Canvas.top rect) in
  let world := Canvas.screenToCanvas (Some rect) vp clientX clientY in
  pt_x world = (pt_x screen - vp_x vp) / zoom vp
  /\ pt_y world = (pt_y screen - vp_y vp) / zoom vp
  /\ pt_x world * zoom vp + vp_x vp = pt_x screen
  /\ pt_y world * zoom vp + vp_y vp = pt_y screen
  /\ Canvas.worldToCanvasPixel vp world = screen.
Proof.
  intros Hz screen world.
  assert (Hback : Canvas.worldToCanvasPixel vp world = screen)
    by (apply forward_after_inverse; assumption).
  split; [reflexivity|]. split; [reflexivity|].
  split; [|split; [|exact Hback]].
  - change (pt_x (Canvas.worldToCanvasPixel vp world) = pt_x screen).
    now rewrite Hback.
  - change (pt_y (Canvas.worldToCanvasPixel vp world) = pt_y screen).
    now rewrite Hback.
Qed.

Lemma screenToCanvas_inverts_forward_transform_witness :
  zoom (mkViewport 30 (-20) 2) <> 0
  /\ Canvas.worldToCanvasPixel (mkViewport 30 (-20) 2)
       (Canvas.screenToCanvas (Some (Canvas.mkRect 8 4))
                              (mkViewport 30 (-20) 2) 138 44)
     = mkPoint (138 - 8) (44 - 4).
Proof.
  assert (Hz : zoom (mkViewport 30 (-20) 2) <> 0) by (simpl; lra).
  split; [exact Hz|].
  apply (screenToCanvas_inverts_forward_transform
           (Canvas.mkRect 8 4) (mkViewport 30 (-20) 2) 138 44 Hz).
Defined.

(** ** Zooming with the wheel *)

Lemma newZoomOf_in_range (vp : ViewportState) (e : Canvas.WheelEvent) :
  0.1 <= Canvas.newZoomOf vp e <= 5.
Proof.
  unfold Canvas.newZoomOf.
  set (z := zoom vp * _).
  unfold Rmax, Rmin.
  destruct (Rle_dec 5 z); destruct (Rle_dec _ _); lra.
Qed.

Lemma afterWheel_in_range (vp : ViewportState)
      (ev : option Canvas.DOMRect * Canvas.WheelEvent) :
  zoomInRange vp -> zoomInRange (Canvas.afterWheel vp ev).
Proof.
  intros Hin. unfold Canvas.afterWheel, Canvas.handleWheel.
  destruct (fst ev); [|exact Hin].
  unfold zoomInRange. simpl. apply newZoomOf_in_range.
Qed.

Lemma wheelTrace_in_range
      (evs : list (option Canvas.DOMRect * Canvas.WheelEvent)) :
  forall vp, zoomInRange vp -> Forall zoomInRange (Canvas.wheelTrace vp evs).
Proof.
  induction evs as [|ev rest IH]; intros vp Hin; simpl.
  - constructor.
  - constructor.
    + now apply afterWheel_in_range.
    + apply IH. now apply afterWheel_in_range.
Qed.

Lemma newZoomOf_factor (vp : ViewportState) (e : Canvas.WheelEvent) :
  (0 < Canvas.deltaY e ->
   Canvas.newZoomOf vp e = Rmax 0.1 (Rmin 5 (zoom vp * 0.9)))
  /\ (Canvas.deltaY e <= 0 ->
      Canvas.newZoomOf vp e = Rmax 0.1 (Rmin 5 (zoom vp * 1.1))).
Proof.
  unfold Canvas.newZoomOf. split; intros H.
  - apply gtb_true in H. now rewrite H.
  - apply gtb_false in H. now rewrite H.
Qed.

(** C4.  On a viewport whose zoom is in [0.1, 5], a wheel event on the
    mounted canvas sets the zoom to the old zoom times 0.9 (when
    [deltaY > 0]) or 1.1 (otherwise), clamped to [0.1, 5]; the world point
    under the cursor is sent to the cursor's pixel by the viewport after
    the event as it was by the viewport before it; and along any sequence
    of wheel events the zoom is in [0.1, 5] after every event. *)
Theorem handleWheel_zoom_clamped_cursor_fixed
        (rect : Canvas.DOMRect) (vp : ViewportState) (e : Canvas.WheelEvent) :
  zoomInRange vp ->
  exists vp',
    Canvas.handleWheel (Some rect) vp e = Some vp'
    /\ (0 < Canvas.deltaY e -> zoom vp' = Rmax 0.1 (Rmin 5 (zoom vp * 0.9)))
    /\ (Canvas.deltaY e <= 0 ->
        zoom vp' = Rmax 0.1 (Rmin 5 (zoom vp * 1.1)))
    /\ zoomInRange vp'
    /\ (let world := Canvas.screenToCanvas (Some rect) vp
                       (Canvas.wheel_clientX e) (Canvas.wheel_clientY e) in
        let cursor := mkPoint (Canvas.wheel_clientX e - Canvas.left rect)
                              (Canvas.wheel_clientY e - Canvas.top rect) in
        Canvas.worldToCanvasPixel vp world = cursor
        /\ Canvas.worldToCanvasPixel vp' world = cursor)
    /\ (forall evs, Forall zoomInRange (Canvas.wheelTrace vp evs)).
Proof.
  intros Hin.
  assert (Hz : zoom vp <> 0) by (unfold zoomInRange in Hin; lra).
  eexists. split; [reflexivity|].
  destruct (newZoomOf_factor vp e) as [Hdown Hup].
  split; [exact Hdown|]. split; [exact Hup|].
  split; [unfold zoomInRange; simpl; apply newZoomOf_in_range|].
  split.
  - split.
    + now apply forward_after_inverse.
    + unfold Canvas.worldToCanvasPixel. simpl.
      f_equal; field; assumption.
  - intros evs. now apply wheelTrace_in_range.
Qed.

Lemma handleWheel_zoom_clamped_cursor_fixed_witness :
  zoomInRange (mkViewport 0 0 1)
  /\ exists vp',
      Canvas.handleWheel (Some (Canvas.mkRect 0 0)) (mkViewport 0 0 1)
                         (Canvas.mkWheelEvent 100 200 100) = Some vp'
      /\ zoom vp' = Rmax 0.1 (Rmin 5 (1 * 0.9))
      /\ Canvas.worldToCanvasPixel vp' (mkPoint (200 / 1) (100 / 1))
         = mkPoint 200 100.
Proof.
  assert (Hin : zoomInRange (mkViewport 0 0 1))
    by (unfold zoomInRange; simpl; lra).
  split; [exact Hin|].
  destruct (handleWheel_zoom_clamped_cursor_fixed
              (Canvas.mkRect 0 0) (mkViewport 0 0 1)
              (Canvas.mkWheelEvent 100 200 100) Hin)
    as (vp' & Hw & Hdown & _ & _ & Hfix & _).
  exists vp'. split; [exact Hw|]. split.
  - apply Hdown. simpl. lra.
  - destruct Hfix as [_ Hafter]. simpl in Hafter.
    replace (200 / 1) with ((200 - 0 - 0) / 1) by lra.
    replace (100 / 1) with ((100 - 0 - 0) / 1) by lra.
    rewrite Hafter. f_equal; lra.
Defined.

(** ** Hit-testing *)

Lemma andb4_true (a b c d : bool) :
  a && b && c && d = true <-> (a = true /\ b = true) /\ (c = true /\ d = true).
Proof. destruct a, b, c, d; simpl; intuition discriminate. Qed.

Lemma isPointInElement_box (p : Point) (el : WhiteboardElement) :
  type el = TyRectangle \/ type el = TyStickyNote ->
  (Canvas.isPointInElement p el = true
   <-> (x el <= pt_x p <= x el + boxWidth el)
       /\ (y el <= pt_y p <= y el + boxHeight el)).
Proof.
  intros Hty. unfold Canvas.isPointInElement, boxWidth, boxHeight.
  destruct Hty as [Hty|Hty]; rewrite Hty;
    rewrite andb4_true, !geb_true, !leb_true; tauto.
Qed.

Lemma isPointInElement_circle (p : Point) (el : WhiteboardElement) :
  type el = TyCircle ->
  (Canvas.isPointInElement p el = true
   <-> sqrt ((pt_x p - (x el + boxWidth el / 2)) ^ 2
             + (pt_y p - (y el + boxHeight el / 2)) ^ 2)
       <= Rmin (boxWidth el) (boxHeight el) / 2).
Proof.
  intros Hty. unfold Canvas.isPointInElement, boxWidth, boxHeight.
  rewrite Hty. cbv zeta. rewrite leb_true.
  set (w := Js.num_or (width el) 0). set (h := Js.num_or (height el) 0).
  assert (Hmin : Rmin (w / 2) (h / 2) = Rmin w h / 2).
  { unfold Rmin. destruct (Rle_dec (w / 2) (h / 2)), (Rle_dec w h); lra. }
  rewrite Hmin. tauto.
Qed.

Lemma isPointInElement_other (p : Point) (el : WhiteboardElement) :
  type el <> TyRectangle -> type el <> TyStickyNote -> type el <> TyCircle ->
  Canvas.isPointInElement p el = false.
Proof.
  intros H1 H2 H3. unfold Canvas.isPointInElement.
  destruct (type el); try reflexivity; congruence.
Qed.

Lemma sqrt_of_square (a r : R) : 0 <= r -> a = r * r -> sqrt a = r.
Proof. intros Hr ->. now apply sqrt_square. Qed.

(** C6.  [isPointInElement]: a rectangle or sticky note contains the point
    iff [x <= px <= x + width] and [y <= py <= y + height], so a box with a
    negative side contains nothing; a circle contains it iff its distance
    to the centre of the box is at most [min(width, height) / 2]; every
    other kind (path, line, arrow, text, rich note) contains nothing.  The
    circle of centre (50,50) and radius 10 contains (50,59), not (50,61). *)
Theorem isPointInElement_spec (p : Point) (el : WhiteboardElement) :
  (type el = TyRectangle \/ type el = TyStickyNote ->
   (Canvas.isPointInElement p el = true
    <-> (x el <= pt_x p <= x el + boxWidth el)
        /\ (y el <= pt_y p <= y el + boxHeight el))
   /\ (boxWidth el < 0 \/ boxHeight el < 0 ->
       Canvas.isPointInElement p el = false))
  /\ (type el = TyCircle ->
      (Canvas.isPointInElement p el = true
       <-> sqrt ((pt_x p - (x el + boxWidth el / 2)) ^ 2
                 + (pt_y p - (y el + boxHeight el / 2)) ^ 2)
           <= Rmin (boxWidth el) (boxHeight el) / 2))
  /\ (In (type el) [TyPath; TyLine; TyArrow; TyText; TyRichNote] ->
      Canvas.isPointInElement p el = false)
  /\ (type el <> TyRectangle -> type el <> TyStickyNote ->
      type el <> TyCircle -> Canvas.isPointInElement p el = false)
  /\ (type el = TyCircle -> x el = 40 -> y el = 40 ->
      width el = Some 20 -> height el = Some 20 ->
      x el + boxWidth el / 2 = 50 /\ y el + boxHeight el / 2 = 50
      /\ Rmin (boxWidth el) (boxHeight el) / 2 = 10
      /\ Canvas.isPointInElement (mkPoint 50 59) el = true
      /\ Canvas.isPointInElement (mkPoint 50 61) el = false).
Proof.
  split; [|split; [|split; [|split]]].
  - intros Hty. split; [now apply isPointInElement_box|].
    intros Hneg.
    destruct (Canvas.isPointInElement p el) eqn:Hhit; [|reflexivity].
    apply (isPointInElement_box p el Hty) in Hhit. lra.
  - apply isPointInElement_circle.
  - intros Hin. apply isPointInElement_other; intros Heq;
      rewrite Heq in Hin; simpl in Hin;
      repeat (destruct Hin as [Hin|Hin]; [discriminate|]); exact Hin.
  - apply isPointInElement_other.
  - intros Hty Hx Hy Hw Hh.
    assert (Hbw : boxWidth el = 20)
      by (unfold boxWidth; rewrite Hw; apply num_or_nonzero; lra).
    assert (Hbh : boxHeight el = 20)
      by (unfold boxHeight; rewrite Hh; apply num_or_nonzero; lra).
    assert (Hmin : Rmin (boxWidth el) (boxHeight el) / 2 = 10).
    { rewrite Hbw, Hbh. unfold Rmin. destruct (Rle_dec 20 20); lra. }
    split; [rewrite Hx, Hbw; lra|]. split; [rewrite Hy, Hbh; lra|].
    split; [exact Hmin|]. split.
    + apply (isPointInElement_circle _ _ Hty). rewrite Hmin, Hx, Hy, Hbw, Hbh.
      simpl pt_x; simpl pt_y.
      rewrite (sqrt_of_square _ 9); lra.
    + destruct (Canvas.isPointInElement (mkPoint 50 61) el) eqn:Hhit;
        [|reflexivity].
      apply (isPointInElement_circle _ _ Hty) in Hhit.
      rewrite Hmin, Hx, Hy, Hbw, Hbh in Hhit.
      simpl pt_x in Hhit; simpl pt_y in Hhit.
      rewrite (sqrt_of_square _ 11) in Hhit; lra.
Qed.

Lemma isPointInElement_spec_witness :
  let circle := mkElement "c" TyCircle 40 40 (Some 20) (Some 20) None None
                          "#000000" 2 None None None in
  let square := mkElement "r" TyRectangle 0 0 (Some (-5)) (Some 5) None None
                          "#000000" 2 None None None in
  Canvas.isPointInElement (mkPoint 50 59) circle = true
  /\ Canvas.isPointInElement (mkPoint 50 61) circle = false
  /\ Canvas.isPointInElement (mkPoint (-1) 1) square = false.
Proof.
  intros circle square.
  destruct (isPointInElement_spec (mkPoint 50 59) circle)
    as (_ & _ & _ & _ & Hc).
  destruct (Hc eq_refl eq_refl eq_refl eq_refl eq_refl)
    as (_ & _ & _ & Hin & Hout).
  destruct (isPointInElement_spec (mkPoint (-1) 1) square) as (Hbox & _).
  destruct (Hbox (or_introl eq_refl)) as [_ Hneg].
  split; [exact Hin|]. split; [exact Hout|].
  apply Hneg. left. unfold boxWidth. simpl.
  destruct (Req_dec_T (-5) 0); lra.
Defined.

(** ** History *)

Section History.

Local Open Scope nat_scope.

Implicit Types (s : App.State) (els : list WhiteboardElement).

Lemma record_history s els :
  App.history (App.handleElementsChange els s)
  = firstn (App.historyIndex s + 1) (App.history s) ++ [els].
Proof. reflexivity. Qed.

Lemma record_index_last s els :
  App.historyIndex (App.handleElementsChange els s)
  = List.length (App.history (App.handleElementsChange els s)) - 1.
Proof. reflexivity. Qed.

Lemma record_index_succ s els :
  indexInRange s ->
  App.historyIndex (App.handleElementsChange els s) = App.historyIndex s + 1.
Proof.
  unfold indexInRange. intros Hwf. simpl.
  rewrite length_app, length_firstn. simpl. lia.
Qed.

Lemma record_keeps_prefix s els i :
  i <= App.historyIndex s -> indexInRange s ->
  nth_error (App.history (App.handleElementsChange els s)) i
  = nth_error (App.history s) i.
Proof.
  unfold indexInRange. intros Hi Hwf. rewrite record_history.
  rewrite nth_error_app1 by (rewrite length_firstn; lia).
  rewrite nth_error_firstn.
  destruct (Nat.ltb_spec i (App.historyIndex s + 1)); [reflexivity|lia].
Qed.

Lemma record_in_range s els :
  indexInRange (App.handleElementsChange els s).
Proof.
  unfold indexInRange. rewrite record_index_last, record_history.
  rewrite length_app. simpl. lia.
Qed.

Lemma record_in_sync s els : inSync (App.handleElementsChange els s).
Proof.
  unfold inSync. rewrite record_index_last, record_history.
  rewrite nth_error_app2 by (rewrite length_app; simpl; lia).
  rewrite length_app. simpl.
  replace (_ + 1 - 1 - _) with 0 by lia. reflexivity.
Qed.

Lemma undo_effective s :
  0 < App.historyIndex s -> indexInRange s ->
  exists snapshot,
    nth_error (App.history s) (App.historyIndex s - 1) = Some snapshot
    /\ App.handleUndo s
       = Some (App.setElements snapshot
                 (App.setHistoryIndex (App.historyIndex s - 1) s)).
Proof.
  unfold indexInRange. intros Hpos Hwf.
  destruct (nth_error (App.history s) (App.historyIndex s - 1))
    as [snapshot|] eqn:Hnth.
  - exists snapshot. split; [reflexivity|].
    unfold App.handleUndo.
    destruct (Nat.ltb_spec 0 (App.historyIndex s)); [|lia].
    now rewrite Hnth.
  - apply nth_error_None in Hnth. lia.
Qed.

Lemma undo_at_bottom s : App.historyIndex s = 0 -> App.handleUndo s = Some s.
Proof. intros H0. unfold App.handleUndo. now rewrite H0. Qed.

Lemma redo_effective s :
  App.historyIndex s < List.length (App.history s) - 1 ->
  exists snapshot,
    nth_error (App.history s) (App.historyIndex s + 1) = Some snapshot
    /\ App.handleRedo s
       = Some (App.setElements snapshot
                 (App.setHistoryIndex (App.historyIndex s + 1) s)).
Proof.
  intros Hlt.
  destruct (nth_error (App.history s) (App.historyIndex s + 1))
    as [snapshot|] eqn:Hnth.
  - exists snapshot. split; [reflexivity|].
    unfold App.handleRedo.
    destruct (Nat.ltb_spec (App.historyIndex s)
                           (List.length (App.history s) - 1)); [|lia].
    now rewrite Hnth.
  - apply nth_error_None in Hnth. lia.
Qed.

Lemma redo_at_top s :
  List.length (App.history s) - 1 <= App.historyIndex s ->
  App.handleRedo s = Some s.
Proof.
  intros Hge. unfold App.handleRedo.
  destruct (Nat.ltb_spec (App.historyIndex s)
                         (List.length (App.history s) - 1)); [lia|].
  reflexivity.
Qed.

(** Undo and redo never leave the typed state space from a state whose
    index is in range, and keep the index in range. *)
Lemma undo_total s :
  indexInRange s ->
  exists s', App.handleUndo s = Some s' /\ indexInRange s'
             /\ App.history s' = App.history s
             /\ (inSync s \/ 0 < App.historyIndex s -> inSync s').
Proof.
  intros Hwf. destruct (Nat.eq_dec (App.historyIndex s) 0) as [H0|Hpos].
  - exists s. rewrite undo_at_bottom by assumption.
    repeat split; auto. intros [Hs|Hlt]; [assumption|lia].
  - destruct (undo_effective s) as (snapshot & Hnth & Hundo);
      [lia|assumption|].
    eexists. split; [exact Hundo|].
    unfold indexInRange, inSync in *. simpl. repeat split; auto. lia.
Qed.

Lemma redo_total s :
  indexInRange s ->
  exists s', App.handleRedo s = Some s' /\ indexInRange s'
             /\ App.history s' = App.history s
             /\ (inSync s \/ App.historyIndex s
                              < List.length (App.history s) - 1 ->
                 inSync s').
Proof.
  intros Hwf.
  destruct (Nat.ltb_spec (App.historyIndex s)
                         (List.length (App.history s) - 1)) as [Hlt|Hge].
  - destruct (redo_effective s Hlt) as (snapshot & Hnth & Hredo).
    eexists. split; [exact Hredo|].
    unfold indexInRange, inSync in *. simpl. repeat split; auto. lia.
  - exists s. rewrite redo_at_top by assumption.
    repeat split; auto. intros [Hs|Hlt]; [assumption|lia].
Qed.

Lemma load_in_range s els :
  indexInRange s -> indexInRange (App.onElementsLoaded els s).
Proof.
  intros Hwf. unfold App.onElementsLoaded.
  destruct (0 <? List.length els); [|assumption].
  unfold indexInRange. simpl. lia.
Qed.

Lemma load_in_sync s els : inSync s -> inSync (App.onElementsLoaded els s).
Proof.
  intros Hs. unfold App.onElementsLoaded.
  destruct (0 <? List.length els); [|assumption].
  reflexivity.
Qed.

Lemma runOps_app s ops1 ops2 :
  App.runOps s (ops1 ++ ops2)
  = match App.runOps s ops1 with
    | Some s' => App.runOps s' ops2
    | None => None
    end.
Proof.
  revert s. induction ops1 as [|o rest IH]; intros s; simpl.
  - reflexivity.
  - destruct (App.step s o); [apply IH|reflexivity].
Qed.

(** Every operation is defined on a state whose index is in range and
    keeps it in range; the sync of snapshot and display is kept by every
    operation but a remote update. *)
Lemma step_invariant s o :
  indexInRange s ->
  exists s', App.step s o = Some s' /\ indexInRange s'
             /\ (App.isRemoteUpdate o = false -> inSync s -> inSync s').
Proof.
  intros Hwf. destruct o as [els| | |els|els]; simpl.
  - eexists. split; [reflexivity|]. split; [apply record_in_range|].
    intros _ _. apply record_in_sync.
  - destruct (undo_total s Hwf) as (s' & Hu & Hwf' & _ & Hs).
    exists s'. repeat split; auto.
  - destruct (redo_total s Hwf) as (s' & Hr & Hwf' & _ & Hs).
    exists s'. repeat split; auto.
  - eexists. split; [reflexivity|]. split; [exact Hwf|]. discriminate.
  - eexists. split; [reflexivity|]. split; [now apply load_in_range|].
    intros _. apply load_in_sync.
Qed.

Lemma runOps_invariant ops :
  forall s, indexInRange s ->
  exists s', App.runOps s ops = Some s' /\ indexInRange s'
             /\ (localOnly ops = true -> inSync s -> inSync s').
Proof.
  induction ops as [|o rest IH]; intros s Hwf; simpl.
  - exists s. auto.
  - destruct (step_invariant s o Hwf) as (s1 & Hstep & Hwf1 & Hsync1).
    rewrite Hstep.
    destruct (IH s1 Hwf1) as (s' & Hrun & Hwf' & Hsync').
    exists s'. repeat split; auto.
    intros Hloc Hs. apply andb_prop in Hloc. destruct Hloc as [Ho Hrest].
    apply Hsync'; [assumption|]. apply Hsync1; [|assumption].
    now destruct (App.isRemoteUpdate o).
Qed.

Lemma initial_in_range : indexInRange App.initialState.
Proof. unfold indexInRange. simpl. lia. Qed.

Lemma initial_in_sync : inSync App.initialState.
Proof. reflexivity. Qed.

Lemma commits_append snaps :
  forall s,
    indexInRange s ->
    App.historyIndex s = List.length (App.history s) - 1 ->
    exists s',
      App.runOps s (map App.LocalCommit snaps) = Some s'
      /\ App.history s' = App.history s ++ snaps
      /\ App.historyIndex s' = List.length (App.history s') - 1.
Proof.
  induction snaps as [|a rest IH]; intros s Hwf Htop.
  - exists s. simpl. rewrite app_nil_r. auto.
  - simpl map. cbn [App.runOps App.step].
    destruct (IH (App.handleElementsChange a s)) as (s' & Hrun & Hh & Hi).
    + apply record_in_range.
    + apply record_index_last.
    + exists s'. split; [exact Hrun|]. split; [|exact Hi].
      rewrite Hh, record_history.
      rewrite firstn_all2 by (unfold indexInRange in Hwf; lia).
      now rewrite <- app_assoc.
Qed.

Lemma undos_walk_back k :
  forall s,
    indexInRange s -> k <= App.historyIndex s ->
    exists s',
      App.runOps s (repeat App.Undo k) = Some s'
      /\ App.history s' = App.history s
      /\ App.historyIndex s' = App.historyIndex s - k
      /\ (0 < k ->
          nth_error (App.history s) (App.historyIndex s - k)
          = Some (App.elements s')).
Proof.
  induction k as [|k IH]; intros s Hwf Hk.
  - exists s. simpl. repeat split; auto; lia.
  - destruct (undo_effective s) as (snapshot & Hnth & Hundo);
      [lia|assumption|].
    simpl repeat. cbn [App.runOps App.step]. rewrite Hundo.
    set (s1 := App.setElements snapshot
                 (App.setHistoryIndex (App.historyIndex s - 1) s)).
    destruct (IH s1) as (s' & Hrun & Hh & Hi & He).
    + unfold indexInRange in *. simpl. lia.
    + simpl. lia.
    + exists s'. split; [exact Hrun|]. split; [exact Hh|].
      split; [rewrite Hi; simpl; lia|]. intros _.
      destruct k as [|k'].
      * simpl in Hrun. injection Hrun as <-. simpl.
        exact Hnth.
      * rewrite <- He by lia. simpl. f_equal. lia.
Qed.

Lemma commits_then_undos snaps :
  exists s',
    App.runOps App.initialState
               (map App.LocalCommit snaps
                ++ repeat App.Undo (List.length snaps)) = Some s'
    /\ App.elements s' = [] /\ App.historyIndex s' = 0.
Proof.
  destruct (commits_append snaps App.initialState)
    as (s1 & Hrun1 & Hh1 & Hi1);
    [apply initial_in_range|reflexivity|].
  assert (Hidx : App.historyIndex s1 = List.length snaps)
    by (rewrite Hi1, Hh1; simpl; lia).
  destruct (undos_walk_back (List.length snaps) s1)
    as (s' & Hrun2 & Hh2 & Hi2 & He2).
  - unfold indexInRange. rewrite Hidx, Hh1. simpl. lia.
  - lia.
  - exists s'. rewrite runOps_app, Hrun1. split; [exact Hrun2|].
    split; [|lia].
    destruct snaps as [|a rest].
    + simpl in Hrun1, Hrun2.
      injection Hrun1 as <-. injection Hrun2 as <-. reflexivity.
    + assert (Hpos : 0 < List.length (a :: rest)) by (simpl; lia).
      specialize (He2 Hpos). rewrite Hidx, Nat.sub_diag, Hh1 in He2.
      simpl in He2. congruence.
Qed.

Lemma redo_after_undo s :
  indexInRange s -> inSync s -> 0 < App.historyIndex s ->
  exists s1, App.handleUndo s = Some s1 /\ App.handleRedo s1 = Some s.
Proof.
  intros Hwf Hs Hpos.
  destruct (undo_effective s Hpos Hwf) as (snapshot & Hnth & Hundo).
  eexists. split; [exact Hundo|].
  unfold indexInRange, inSync in *.
  unfold App.handleRedo. simpl.
  destruct (Nat.ltb_spec (App.historyIndex s - 1)
                         (List.length (App.history s) - 1)); [|lia].
  replace (App.historyIndex s - 1 + 1) with (App.historyIndex s) by lia.
  rewrite Hs. destruct s. reflexivity.
Qed.

Lemma commits_are_local snaps : localOnly (map App.LocalCommit snaps) = true.
Proof. induction snaps; simpl; auto. Qed.

Lemma redo_after_undo_on_top snaps :
  exists s s1,
    App.runOps App.initialState (map App.LocalCommit snaps) = Some s
    /\ App.handleUndo s = Some s1
    /\ App.handleRedo s1 = Some s.
Proof.
  destruct (commits_append snaps App.initialState)
    as (s & Hrun & Hh & Hi); [apply initial_in_range|reflexivity|].
  destruct (runOps_invariant (map App.LocalCommit snaps) App.initialState
                             initial_in_range)
    as (s' & Hrun' & Hwf & Hsync).
  rewrite Hrun in Hrun'. injection Hrun' as <-.
  specialize (Hsync (commits_are_local snaps) initial_in_sync).
  destruct (Nat.eq_dec (App.historyIndex s) 0) as [H0|Hpos].
  - exists s, s. split; [exact Hrun|].
    split; [now apply undo_at_bottom|]. apply redo_at_top. lia.
  - destruct (redo_after_undo s Hwf Hsync) as (s1 & Hu & Hr); [lia|].
    exists s, s1. auto.
Qed.

(** Undo then redo, whatever is displayed: the redo displays the snapshot
    under the index the undo started from, and that is the state before
    the undo exactly when this snapshot was on display. *)
Lemma undo_then_redo s :
  indexInRange s -> 0 < App.historyIndex s ->
  exists snapshot s1,
    nth_error (App.history s) (App.historyIndex s) = Some snapshot
    /\ App.handleUndo s = Some s1
    /\ App.handleRedo s1 = Some (App.setElements snapshot s)
    /\ (App.setElements snapshot s = s <-> inSync s).
Proof.
  intros Hwf Hpos.
  destruct (undo_effective s Hpos Hwf) as (below & Hbelow & Hundo).
  destruct (nth_error (App.history s) (App.historyIndex s))
    as [snapshot|] eqn:Hnth.
  2:{ apply nth_error_None in Hnth. unfold indexInRange in Hwf. lia. }
  exists snapshot. eexists. split; [reflexivity|].
  split; [exact Hundo|]. split.
  - unfold indexInRange in Hwf. unfold App.handleRedo. simpl.
    destruct (Nat.ltb_spec (App.historyIndex s - 1)
                           (List.length (App.history s) - 1)); [|lia].
    replace (App.historyIndex s - 1 + 1) with (App.historyIndex s) by lia.
    rewrite Hnth. destruct s. reflexivity.
  - unfold inSync. rewrite Hnth. split.
    + intros Heq. apply (f_equal App.elements) in Heq. simpl in Heq.
      now rewrite Heq.
    + intros Heq. injection Heq as ->. destruct s. reflexivity.
Qed.

Lemma idle_step s o : idle s o = true -> App.step s o = Some s.
Proof.
  destruct o as [els| | |els|els]; simpl; try discriminate.
  - unfold App.canUndo, App.handleUndo.
    destruct (0 <? App.historyIndex s); [discriminate|reflexivity].
  - unfold App.canRedo, App.handleRedo.
    destruct (App.historyIndex s <? List.length (App.history s) - 1);
      [discriminate|reflexivity].
  - unfold App.onElementsLoaded.
    destruct (0 <? List.length els); [discriminate|reflexivity].
Qed.

Lemma resyncs_step s o s1 :
  indexInRange s -> resyncs s o = true -> App.step s o = Some s1 ->
  inSync s1.
Proof.
  intros Hwf Hre Hstep. destruct o as [els| | |els|els]; simpl in *.
  - injection Hstep as <-. apply record_in_sync.
  - destruct (undo_total s Hwf) as (s' & Hu & _ & _ & Hs).
    rewrite Hu in Hstep. injection Hstep as <-. apply Hs. right.
    unfold App.canUndo in Hre. now apply Nat.ltb_lt.
  - destruct (redo_total s Hwf) as (s' & Hr & _ & _ & Hs).
    rewrite Hr in Hstep. injection Hstep as <-. apply Hs. right.
    unfold App.canRedo in Hre. now apply Nat.ltb_lt.
  - discriminate.
  - injection Hstep as <-. unfold App.onElementsLoaded. rewrite Hre.
    reflexivity.
Qed.

Lemma effective_step s o s1 :
  indexInRange s -> idle s o = false -> App.step s o = Some s1 ->
  (inSync s1 <-> displaysSnapshot (Some (s, o))).
Proof.
  intros Hwf Hidle Hstep.
  destruct o as [els| | |els|els].
  - split; [intros _; exact I|intros _].
    now apply (resyncs_step s (App.LocalCommit els)).
  - split; [intros _; exact I|intros _].
    apply (resyncs_step s App.Undo); auto. simpl in *.
    now destruct (App.canUndo s).
  - split; [intros _; exact I|intros _].
    apply (resyncs_step s App.Redo); auto. simpl in *.
    now destruct (App.canRedo s).
  - simpl in Hstep. injection Hstep as <-. reflexivity.
  - split; [intros _; exact I|intros _].
    apply (resyncs_step s (App.SessionLoad els)); auto. simpl in *.
    now destruct (0 <? List.length els).
Qed.

(** Which runs end with the snapshot under the index on display: those
    whose last effective operation is not a remote update with another
    payload. *)
Lemma run_sync_exact ops :
  forall s acc,
    indexInRange s -> (inSync s <-> displaysSnapshot acc) ->
    exists s',
      App.runOps s ops = Some s' /\ indexInRange s'
      /\ (inSync s' <-> displaysSnapshot (lastEffective s ops acc)).
Proof.
  induction ops as [|o rest IH]; intros s acc Hwf Hacc; simpl.
  - exists s. auto.
  - destruct (step_invariant s o Hwf) as (s1 & Hstep & Hwf1 & _).
    rewrite Hstep. apply IH; [exact Hwf1|].
    destruct (idle s o) eqn:Hidle.
    + rewrite (idle_step s o Hidle) in Hstep. injection Hstep as <-.
      exact Hacc.
    + now apply effective_step.
Qed.

(** An operation that brings the snapshot back on display, and local
    operations after it. *)
Lemma run_resync s0 ops s o post :
  indexInRange s0 -> App.runOps s0 ops = Some s ->
  resyncs s o = true -> localOnly post = true ->
  exists s',
    App.runOps s0 (ops ++ o :: post) = Some s'
    /\ indexInRange s' /\ inSync s'.
Proof.
  intros Hwf0 Hrun Hre Hloc.
  destruct (runOps_invariant ops s0 Hwf0) as (s_ & Hrun_ & Hwf & _).
  rewrite Hrun in Hrun_. injection Hrun_ as <-.
  destruct (step_invariant s o Hwf) as (s1 & Hstep & Hwf1 & _).
  destruct (runOps_invariant post s1 Hwf1) as (s' & Hpost & Hwf' & Hsync).
  exists s'. rewrite runOps_app, Hrun. cbn [App.runOps]. rewrite Hstep.
  split; [exact Hpost|]. split; [exact Hwf'|].
  apply Hsync; [exact Hloc|]. now apply (resyncs_step s o).
Qed.

End History.

(** C2, as the code has it.  The history is a linear stack of snapshots
    that starts as the single empty snapshot at index 0.  Recording
    truncates the sequence to positions [0..index], appends the snapshot
    and moves the index to the new last position.  Undo, when the index
    is positive, moves the index down by one and displays the snapshot
    there, and does nothing otherwise; redo, when the index is below the
    last position, moves it up by one and displays the snapshot there,
    and does nothing otherwise.  Hence [n] commits followed by [n] undos
    display the empty collection.  A redo after an undo that took effect
    displays the snapshot under the index the undo started from and
    restores that index, in any state: it gives back the state before
    the undo exactly when that snapshot was on display.  In the state
    any run of operations ends in, that is the case exactly when the
    last operation that was not a no-op is not a remote update with
    another payload, so in particular after every run of local
    operations.  After commit A, commit B, undo, commit C the display is
    C and redo does nothing. *)
Theorem history_is_linear_snapshot_stack
        (s : App.State) (els A B C : list WhiteboardElement)
        (snaps : list (list WhiteboardElement)) (ops : list App.Op) :
  (App.history App.initialState = [[]]
   /\ App.historyIndex App.initialState = 0%nat
   /\ App.elements App.initialState = [])
  /\ (App.history (App.handleElementsChange els s)
      = firstn (App.historyIndex s + 1) (App.history s) ++ [els]
      /\ App.historyIndex (App.handleElementsChange els s)
         = (List.length (App.history (App.handleElementsChange els s)) - 1)%nat
      /\ App.elements (App.handleElementsChange els s) = els)
  /\ (indexInRange s -> (0 < App.historyIndex s)%nat ->
      exists snapshot,
        nth_error (App.history s) (App.historyIndex s - 1) = Some snapshot
        /\ App.handleUndo s
           = Some (App.setElements snapshot
                     (App.setHistoryIndex (App.historyIndex s - 1) s)))
  /\ (App.historyIndex s = 0%nat -> App.handleUndo s = Some s)
  /\ ((App.historyIndex s < List.length (App.history s) - 1)%nat ->
      exists snapshot,
        nth_error (App.history s) (App.historyIndex s + 1) = Some snapshot
        /\ App.handleRedo s
           = Some (App.setElements snapshot
                     (App.setHistoryIndex (App.historyIndex s + 1) s)))
  /\ ((List.length (App.history s) - 1 <= App.historyIndex s)%nat ->
      App.handleRedo s = Some s)
  /\ (exists s',
        App.runOps App.initialState
                   (map App.LocalCommit snaps
                    ++ repeat App.Undo (List.length snaps)) = Some s'
        /\ App.elements s' = [] /\ App.historyIndex s' = 0%nat)
  /\ (indexInRange s -> (0 < App.historyIndex s)%nat ->
      exists snapshot s1,
        nth_error (App.history s) (App.historyIndex s) = Some snapshot
        /\ App.handleUndo s = Some s1
        /\ App.handleRedo s1 = Some (App.setElements snapshot s)
        /\ (App.setElements snapshot s = s <-> inSync s))
  /\ (exists r,
        App.runOps App.initialState ops = Some r
        /\ indexInRange r
        /\ (inSync r
            <-> displaysSnapshot
                  (lastEffective App.initialState ops None))
        /\ (localOnly ops = true -> inSync r)
        /\ ((0 < App.historyIndex r)%nat ->
            exists snapshot r1,
              nth_error (App.history r) (App.historyIndex r) = Some snapshot
              /\ App.handleUndo r = Some r1
              /\ App.handleRedo r1 = Some (App.setElements snapshot r)
              /\ (App.setElements snapshot r = r <-> inSync r)))
  /\ (exists r r1,
        App.runOps App.initialState (map App.LocalCommit snaps) = Some r
        /\ App.handleUndo r = Some r1
        /\ App.handleRedo r1 = Some r)
  /\ (exists r,
        App.runOps App.initialState
                   [App.LocalCommit A; App.LocalCommit B; App.Undo;
                    App.LocalCommit C] = Some r
        /\ App.elements r = C
        /\ App.history r = [[]; A; C]
        /\ App.handleRedo r = Some r).
Proof.
  split; [repeat split|].
  split; [repeat split|].
  split; [intros Hwf Hpos; now apply undo_effective|].
  split; [apply undo_at_bottom|].
  split; [apply redo_effective|].
  split; [apply redo_at_top|].
  split; [apply commits_then_undos|].
  split; [apply undo_then_redo|].
  split.
  - destruct (run_sync_exact ops App.initialState None initial_in_range)
      as (r & Hrun & Hwf & Hexact).
    { split; [intros _; exact I|intros _; exact initial_in_sync]. }
    exists r. split; [exact Hrun|]. split; [exact Hwf|].
    split; [exact Hexact|]. split.
    + intros Hloc.
      destruct (runOps_invariant ops App.initialState initial_in_range)
        as (r' & Hrun' & _ & Hsync).
      rewrite Hrun in Hrun'. injection Hrun' as <-.
      apply Hsync; [assumption|reflexivity].
    + now apply undo_then_redo.
  - split; [apply redo_after_undo_on_top|].
    eexists. split; [reflexivity|]. repeat split.
Qed.

Lemma history_is_linear_snapshot_stack_witness :
  indexInRange (App.handleElementsChange [sampleRectangle] App.initialState)
  /\ (0 < App.historyIndex
            (App.handleElementsChange [sampleRectangle] App.initialState))%nat
  /\ localOnly [App.LocalCommit [sampleRectangle]; App.Undo; App.Redo] = true
  /\ App.handleUndo
       (App.handleElementsChange [sampleRectangle] App.initialState)
     = Some (App.setElements []
               (App.setHistoryIndex 0
                  (App.handleElementsChange [sampleRectangle]
                                            App.initialState)))
  /\ (exists s1,
        App.handleUndo
          (App.handleElementsChange [sampleRectangle] App.initialState)
        = Some s1
        /\ App.handleRedo s1
           = Some (App.handleElementsChange [sampleRectangle]
                                            App.initialState))
  /\ exists r,
      App.runOps App.initialState
                 [App.LocalCommit [sampleRectangle]; App.Undo; App.Redo]
      = Some r
      /\ App.elements r = [sampleRectangle]
      /\ (0 < App.historyIndex r)%nat
      /\ inSync r
      /\ exists r1, App.handleUndo r = Some r1 /\ App.handleRedo r1 = Some r.
Proof.
  pose proof (history_is_linear_snapshot_stack
                (App.handleElementsChange [sampleRectangle] App.initialState)
                [] [] [] [] []
                [App.LocalCommit [sampleRectangle]; App.Undo; App.Redo])
    as (_ & _ & Hundo & _ & _ & _ & _ & Hback & Hrun & _).
  assert (Hwf : indexInRange
                  (App.handleElementsChange [sampleRectangle]
                                            App.initialState))
    by (unfold indexInRange; simpl; lia).
  assert (Hpos : (0 < App.historyIndex
                        (App.handleElementsChange [sampleRectangle]
                                                  App.initialState))%nat)
    by (simpl; lia).
  split; [exact Hwf|]. split; [exact Hpos|]. split; [reflexivity|].
  split; [|split].
  - destruct (Hundo Hwf Hpos) as (snapshot & Hnth & Hu).
    simpl in Hnth. injection Hnth as <-. exact Hu.
  - destruct (Hback Hwf Hpos) as (snapshot & s1 & Hnth & Hu & Hr & _).
    simpl in Hnth. injection Hnth as <-.
    exists s1. split; [exact Hu|exact Hr].
  - destruct Hrun as (r & Hrun & _ & _ & Hloc & Hur).
    assert (Hr : r = App.handleElementsChange [sampleRectangle]
                                              App.initialState)
      by (simpl in Hrun; injection Hrun as <-; reflexivity).
    assert (Hposr : (0 < App.historyIndex r)%nat) by (rewrite Hr; exact Hpos).
    pose proof (Hloc eq_refl) as Hsync.
    destruct (Hur Hposr) as (snapshot & r1 & _ & Hu & Hre & Hiff).
    exists r. split; [exact Hrun|]. split; [rewrite Hr; reflexivity|].
    split; [exact Hposr|]. split; [exact Hsync|].
    exists r1. split; [exact Hu|].
    rewrite Hre. f_equal. now apply Hiff.
Defined.

(** C2 as stated fails, in two ways.  After a commit of one rectangle and
    a remote update that empties the display, an undo followed by a redo
    displays the rectangle, not the empty collection that was on display
    before the undo.  And after a commit and an undo the index is 0, a
    second undo does nothing, and the redo after it displays the
    rectangle, not the empty collection on display before that undo. *)
Lemma redo_after_undo_need_not_restore_the_display :
  (App.runOps App.initialState
              [App.LocalCommit [sampleRectangle]; App.RemoteUpdate []]
   = Some (App.handleCollaborativeElementsUpdate []
             (App.handleElementsChange [sampleRectangle]
                                       App.initialState))
   /\ App.elements
        (App.handleCollaborativeElementsUpdate []
           (App.handleElementsChange [sampleRectangle] App.initialState))
      = []
   /\ App.handleUndo
        (App.handleCollaborativeElementsUpdate []
           (App.handleElementsChange [sampleRectangle] App.initialState))
      = Some (App.setElements []
                (App.setHistoryIndex 0
                   (App.handleElementsChange [sampleRectangle]
                                             App.initialState)))
   /\ App.handleRedo
        (App.setElements []
           (App.setHistoryIndex 0
              (App.handleElementsChange [sampleRectangle]
                                        App.initialState)))
      = Some (App.handleElementsChange [sampleRectangle] App.initialState)
   /\ App.elements
        (App.handleElementsChange [sampleRectangle] App.initialState)
      = [sampleRectangle]
   /\ App.elements
        (App.handleElementsChange [sampleRectangle] App.initialState)
      <> App.elements
           (App.handleCollaborativeElementsUpdate []
              (App.handleElementsChange [sampleRectangle]
                                        App.initialState)))
  /\ (App.runOps App.initialState
                 [App.LocalCommit [sampleRectangle]; App.Undo]
      = Some (App.setElements []
                (App.setHistoryIndex 0
                   (App.handleElementsChange [sampleRectangle]
                                             App.initialState)))
      /\ App.handleUndo
           (App.setElements []
              (App.setHistoryIndex 0
                 (App.handleElementsChange [sampleRectangle]
                                           App.initialState)))
         = Some (App.setElements []
                   (App.setHistoryIndex 0
                      (App.handleElementsChange [sampleRectangle]
                                                App.initialState)))
      /\ App.handleRedo
           (App.setElements []
              (App.setHistoryIndex 0
                 (App.handleElementsChange [sampleRectangle]
                                           App.initialState)))
         = Some (App.handleElementsChange [sampleRectangle]
                                          App.initialState)
      /\ App.elements
           (App.handleElementsChange [sampleRectangle] App.initialState)
         <> App.elements
              (App.setElements []
                 (App.setHistoryIndex 0
                    (App.handleElementsChange [sampleRectangle]
                                              App.initialState)))).
Proof.
  split.
  - split; [reflexivity|]. split; [reflexivity|]. split; [reflexivity|].
    split; [reflexivity|]. split; [reflexivity|].
    simpl. discriminate.
  - split; [reflexivity|]. split; [reflexivity|]. split; [reflexivity|].
    simpl. discriminate.
Qed.

(** C9, as the code has it.  From the initial state every sequence of
    local commits, undos, redos, remote updates and session loads is
    defined and ends in a state whose index is within the snapshot
    sequence.  The snapshot under the index is the displayed collection
    in that state exactly when the last operation of the sequence that
    was not a no-op (an undo at index 0, a redo at the last index, a
    load of no element) is not a remote update whose payload differs
    from the snapshot under the index: so after every sequence without a
    remote update, and again after a local commit, an undo or a redo
    that takes effect or a load of at least one element, and any local
    operations after it, whatever came before.  A remote update replaces
    the display and leaves the history alone. *)
Theorem history_in_range_and_sync_up_to_remote_update (ops : list App.Op) :
  exists s,
    App.runOps App.initialState ops = Some s
    /\ indexInRange s
    /\ (inSync s
        <-> displaysSnapshot (lastEffective App.initialState ops None))
    /\ (localOnly ops = true -> inSync s)
    /\ (forall o post,
          resyncs s o = true -> localOnly post = true ->
          exists s',
            App.runOps App.initialState (ops ++ o :: post) = Some s'
            /\ indexInRange s' /\ inSync s')
    /\ (forall els, inSync (App.handleElementsChange els s))
    /\ (forall els,
          App.history (App.handleCollaborativeElementsUpdate els s)
          = App.history s
          /\ App.historyIndex (App.handleCollaborativeElementsUpdate els s)
             = App.historyIndex s
          /\ App.elements (App.handleCollaborativeElementsUpdate els s)
             = els).
Proof.
  destruct (run_sync_exact ops App.initialState None initial_in_range)
    as (s & Hrun & Hwf & Hexact).
  { split; [intros _; exact I|intros _; exact initial_in_sync]. }
  exists s. split; [exact Hrun|]. split; [exact Hwf|].
  split; [exact Hexact|]. split.
  - intros Hloc.
    destruct (runOps_invariant ops App.initialState initial_in_range)
      as (s' & Hrun' & _ & Hsync).
    rewrite Hrun in Hrun'. injection Hrun' as <-.
    apply Hsync; [assumption|reflexivity].
  - split.
    + intros o post Hre Hloc.
      now apply (run_resync App.initialState ops s o post initial_in_range).
    + split; [intros els; apply record_in_sync|].
      intros els. repeat split.
Qed.

Lemma history_in_range_and_sync_up_to_remote_update_witness :
  (localOnly [App.SessionLoad [sampleRectangle]; App.Undo] = true
   /\ exists s,
       App.runOps App.initialState
                  [App.SessionLoad [sampleRectangle]; App.Undo] = Some s
       /\ indexInRange s /\ inSync s)
  /\ (resyncs (App.handleCollaborativeElementsUpdate []
                 (App.handleElementsChange [sampleRectangle]
                                           App.initialState))
              App.Undo = true
      /\ localOnly [App.Redo] = true
      /\ ~ inSync (App.handleCollaborativeElementsUpdate []
                     (App.handleElementsChange [sampleRectangle]
                                               App.initialState))
      /\ exists s',
          App.runOps App.initialState
                     ([App.LocalCommit [sampleRectangle];
                       App.RemoteUpdate []] ++ App.Undo :: [App.Redo])
          = Some s'
          /\ indexInRange s' /\ inSync s').
Proof.
  split.
  - split; [reflexivity|].
    destruct (history_in_range_and_sync_up_to_remote_update
                [App.SessionLoad [sampleRectangle]; App.Undo])
      as (s & Hrun & Hwf & _ & Hsync & _).
    exists s. split; [exact Hrun|]. split; [exact Hwf|].
    apply Hsync. reflexivity.
  - split; [reflexivity|]. split; [reflexivity|].
    destruct (history_in_range_and_sync_up_to_remote_update
                [App.LocalCommit [sampleRectangle]; App.RemoteUpdate []])
      as (s & Hrun & _ & Hexact & _ & Hre & _).
    assert (Hs : s = App.handleCollaborativeElementsUpdate []
                       (App.handleElementsChange [sampleRectangle]
                                                 App.initialState))
      by (simpl in Hrun; injection Hrun as <-; reflexivity).
    split.
    + rewrite <- Hs. intros Hsync. apply Hexact in Hsync.
      simpl in Hsync. discriminate.
    + apply (Hre App.Undo [App.Redo]); [rewrite Hs|]; reflexivity.
Defined.

(** C9 as stated fails: after a remote update on the initial state the
    snapshot under the index is still the empty collection while the
    display is the remote payload. *)
Lemma history_out_of_sync_after_remote_update :
  App.runOps App.initialState [App.RemoteUpdate [sampleRectangle]]
  = Some (App.handleCollaborativeElementsUpdate [sampleRectangle]
                                                App.initialState)
  /\ nth_error
       (App.history (App.handleCollaborativeElementsUpdate
                       [sampleRectangle] App.initialState))
       (App.historyIndex (App.handleCollaborativeElementsUpdate
                            [sampleRectangle] App.initialState))
     = Some []
  /\ App.elements (App.handleCollaborativeElementsUpdate
                     [sampleRectangle] App.initialState)
     = [sampleRectangle]
  /\ ~ inSync (App.handleCollaborativeElementsUpdate
                 [sampleRectangle] App.initialState).
Proof.
  split; [reflexivity|]. split; [reflexivity|]. split; [reflexivity|].
  unfold inSync. simpl. discriminate.
Qed.

(** ** Remote element updates *)

Section RemoteUpdates.

Variable user : User.
Variable w : System.State.
Hypothesis signedIn : System.currentUser w = Some user.

Variable message : Collaboration.Message.
Hypothesis isUpdate : Collaboration.msg_type message = "elements-update".

Lemma receive_remote_update :
  Collaboration.msg_userId message <> user_id user ->
  System.receive message w
  = System.setApp
      (App.handleCollaborativeElementsUpdate
         (Collaboration.data_elements (Collaboration.data message))
         (System.app w)) w.
Proof.
  intros Hother. unfold System.receive, Collaboration.onMessage.
  rewrite signedIn, isUpdate.
  apply String.eqb_neq in Hother. rewrite Hother. simpl.
  destruct w. reflexivity.
Qed.

Lemma receive_own_update :
  Collaboration.msg_userId message = user_id user ->
  System.receive message w = w.
Proof.
  intros Hself. unfold System.receive, Collaboration.onMessage.
  rewrite signedIn, isUpdate.
  apply String.eqb_eq in Hself. rewrite Hself. simpl.
  destruct w. reflexivity.
Qed.

End RemoteUpdates.

Lemma undo_ignores_display (els : list WhiteboardElement) (s : App.State) :
  (0 < App.historyIndex s)%nat ->
  App.handleUndo (App.handleCollaborativeElementsUpdate els s)
  = App.handleUndo s.
Proof.
  intros Hpos. unfold App.handleUndo. simpl.
  destruct (Nat.ltb_spec 0 (App.historyIndex s)); [|lia].
  destruct (nth_error (App.history s) (App.historyIndex s - 1)); reflexivity.
Qed.

Lemma undo_after_commit (A snapshot : list WhiteboardElement) (s : App.State) :
  nth_error (App.history s) (App.historyIndex s) = Some snapshot ->
  exists a,
    App.handleUndo (App.handleElementsChange A s) = Some a
    /\ App.elements a = snapshot
    /\ App.historyIndex a = App.historyIndex s.
Proof.
  intros Hnth.
  assert (Hwf : indexInRange s).
  { unfold indexInRange. apply nth_error_Some. congruence. }
  destruct (undo_effective (App.handleElementsChange A s))
    as (snap & Hsnap & Hundo).
  - rewrite record_index_succ by assumption. lia.
  - apply record_in_range.
  - rewrite record_index_succ in Hsnap by assumption.
    rewrite record_keeps_prefix in Hsnap by (assumption || lia).
    replace (App.historyIndex s + 1 - 1)%nat with (App.historyIndex s)
      in Hsnap by lia.
    rewrite Hnth in Hsnap. injection Hsnap as <-.
    eexists. split; [exact Hundo|]. split; [reflexivity|].
    simpl. rewrite length_app, length_firstn.
    unfold indexInRange in Hwf. simpl. lia.
Qed.

(** C1.  An inbound elements-update of another user replaces the element
    collection with the payload and leaves the snapshot sequence and the
    history index (and everything else) as they were; an undo after it
    gives what it would have given without it - after a local commit, the
    snapshot that was current before that commit.  An elements-update
    carrying the local user's own id changes nothing. *)
Theorem remote_update_replaces_elements_keeps_history
        (user : User) (w : System.State) (message : Collaboration.Message) :
  System.currentUser w = Some user ->
  Collaboration.msg_type message = "elements-update" ->
  (Collaboration.msg_userId message <> user_id user ->
   let w' := System.receive message w in
   App.elements (System.app w')
   = Collaboration.data_elements (Collaboration.data message)
   /\ App.history (System.app w') = App.history (System.app w)
   /\ App.historyIndex (System.app w') = App.historyIndex (System.app w)
   /\ System.collaboration w' = System.collaboration w
   /\ System.canvas w' = System.canvas w
   /\ ((0 < App.historyIndex (System.app w))%nat ->
       App.handleUndo (System.app w') = App.handleUndo (System.app w)))
  /\ (forall A snapshot,
        Collaboration.msg_userId message <> user_id user ->
        nth_error (App.history (System.app w))
                  (App.historyIndex (System.app w)) = Some snapshot ->
        let committed :=
          System.setApp (App.handleElementsChange A (System.app w)) w in
        exists a,
          App.handleUndo (System.app (System.receive message committed))
          = Some a
          /\ App.elements a = snapshot)
  /\ (Collaboration.msg_userId message = user_id user ->
      System.receive message w = w).
Proof.
  intros Huser Htype. split; [|split].
  - intros Hother w'. unfold w'.
    rewrite (receive_remote_update user w Huser message Htype Hother).
    repeat split. intros Hpos. simpl. now apply undo_ignores_display.
  - intros A snapshot Hother Hnth committed.
    assert (Huser' : System.currentUser committed = Some user) by exact Huser.
    rewrite (receive_remote_update user committed Huser' message Htype Hother).
    destruct (undo_after_commit A snapshot (System.app w) Hnth)
      as (a & Hundo & Hel & _).
    exists a. split; [|exact Hel].
    cbn [System.app System.setApp]. rewrite undo_ignores_display.
    + exact Hundo.
    + unfold committed. cbn [System.app System.setApp].
      rewrite record_index_succ; [lia|].
      unfold indexInRange. apply nth_error_Some. congruence.
  - apply receive_own_update; assumption.
Qed.

Lemma remote_update_replaces_elements_keeps_history_witness :
  let alice := mkUser "alice" "alice@example.com" "alice" in
  let w := System.mkState
             (App.handleElementsChange [sampleRectangle] App.initialState)
             Canvas.initialState Collaboration.initialState
             (Some alice) "#FF6B6B" [] in
  let message := Collaboration.mkMessage "elements-update" "bob"
                   (Collaboration.mkData 0 0 [] 17) None in
  System.currentUser w = Some alice
  /\ Collaboration.msg_type message = "elements-update"
  /\ Collaboration.msg_userId message <> user_id alice
  /\ App.elements (System.app (System.receive message w)) = []
  /\ App.history (System.app (System.receive message w))
     = [[]; [sampleRectangle]]
  /\ App.handleUndo (System.app (System.receive message w))
     = App.handleUndo (System.app w).
Proof.
  intros alice w message.
  assert (Hother : Collaboration.msg_userId message <> user_id alice)
    by (simpl; discriminate).
  destruct (remote_update_replaces_elements_keeps_history
              alice w message eq_refl eq_refl) as (Hremote & _ & _).
  destruct (Hremote Hother) as (Hel & Hh & _ & _ & _ & Hundo).
  split; [reflexivity|]. split; [reflexivity|]. split; [exact Hother|].
  split; [exact Hel|]. split; [exact Hh|].
  apply Hundo. simpl. lia.
Defined.

(** ** Remote cursors *)

Section Cursors.

Variable user : User.

Implicit Types (m : Collaboration.Message) (cs : list UserCursor)
         (prev : CollaborationState) (u : string).

Lemma cursor_move_remote m prev :
  isCursorMove m -> Collaboration.msg_userId m <> user_id user ->
  Collaboration.onMessage user m prev
  = (mkCollaborationState
       (users prev)
       (filter (fun c => negb (String.eqb (userId c)
                                          (Collaboration.msg_userId m)))
               (cursors prev)
        ++ [Collaboration.cursorOf m])
       (isConnected prev),
     None).
Proof.
  unfold isCursorMove. intros Hty Hother. unfold Collaboration.onMessage.
  rewrite Hty. apply String.eqb_neq in Hother. now rewrite Hother.
Qed.

Lemma cursor_move_own m prev :
  isCursorMove m -> Collaboration.msg_userId m = user_id user ->
  Collaboration.onMessage user m prev = (prev, None).
Proof.
  unfold isCursorMove. intros Hty Hself. unfold Collaboration.onMessage.
  rewrite Hty. apply String.eqb_eq in Hself. now rewrite Hself.
Qed.

Lemma cursorFor_app u cs1 cs2 :
  cursorFor u (cs1 ++ cs2)
  = match cursorFor u cs1 with
    | Some c => Some c
    | None => cursorFor u cs2
    end.
Proof.
  unfold cursorFor. induction cs1 as [|c rest IH]; simpl.
  - reflexivity.
  - destruct (String.eqb (userId c) u); [reflexivity|exact IH].
Qed.

Lemma cursorFor_filter_other u v cs :
  u <> v ->
  cursorFor u (filter (fun c => negb (String.eqb (userId c) v)) cs)
  = cursorFor u cs.
Proof.
  intros Hne. unfold cursorFor. induction cs as [|c rest IH]; simpl.
  - reflexivity.
  - destruct (String.eqb_spec (userId c) v) as [Hv|Hv]; simpl.
    + destruct (String.eqb_spec (userId c) u); [congruence|exact IH].
    + destruct (String.eqb (userId c) u); [reflexivity|exact IH].
Qed.

Lemma cursorFor_filter_same u cs :
  cursorFor u (filter (fun c => negb (String.eqb (userId c) u)) cs) = None.
Proof.
  unfold cursorFor. induction cs as [|c rest IH]; simpl.
  - reflexivity.
  - destruct (String.eqb (userId c) u) eqn:Hu; simpl.
    + exact IH.
    + now rewrite Hu.
Qed.

Lemma onePerUser_upsert cs (c : UserCursor) :
  onePerUser cs ->
  onePerUser (filter (fun c' => negb (String.eqb (userId c') (userId c))) cs
              ++ [c]).
Proof.
  unfold onePerUser. intros Hnd. rewrite map_app. apply NoDup_app.
  - induction cs as [|c0 rest IH]; simpl; [constructor|].
    inversion Hnd as [|? ? Hnotin Hrest]; subst.
    destruct (String.eqb (userId c0) (userId c)); simpl; auto.
    constructor; auto.
    intros Hin. apply Hnotin. apply in_map_iff in Hin.
    destruct Hin as (c1 & Heq & Hin). apply filter_In in Hin.
    apply in_map_iff. exists c1. tauto.
  - simpl. constructor; [tauto|constructor].
  - intros a Hin [Heq|[]]. subst a. apply in_map_iff in Hin.
    destruct Hin as (c1 & Heq & Hin). apply filter_In in Hin.
    destruct Hin as [_ Hne]. rewrite Heq, String.eqb_refl in Hne.
    discriminate.
Qed.

Lemma lastMessageOf_cons u m ms :
  lastMessageOf u (m :: ms)
  = match lastMessageOf u ms with
    | Some m' => Some m'
    | None => if String.eqb (Collaboration.msg_userId m) u
              then Some m else None
    end.
Proof.
  unfold lastMessageOf. simpl rev.
  induction (rev ms) as [|m0 rest IH]; simpl.
  - reflexivity.
  - destruct (String.eqb (Collaboration.msg_userId m0) u);
      [reflexivity|exact IH].
Qed.

Lemma cursor_moves_invariant ms :
  forall prev,
    Forall isCursorMove ms -> onePerUser (cursors prev) ->
    onePerUser (cursors (Collaboration.onMessages user ms prev))
    /\ (forall u, u <> user_id user ->
          cursorFor u (cursors (Collaboration.onMessages user ms prev))
          = match lastMessageOf u ms with
            | Some m => Some (Collaboration.cursorOf m)
            | None => cursorFor u (cursors prev)
            end)
    /\ cursorFor (user_id user)
                 (cursors (Collaboration.onMessages user ms prev))
       = cursorFor (user_id user) (cursors prev).
Proof.
  induction ms as [|m rest IH]; intros prev Hall Hone.
  - simpl. auto.
  - inversion Hall as [|? ? Hm Hrest]; subst.
    unfold Collaboration.onMessages. simpl fold_left.
    fold (Collaboration.onMessages user rest
            (fst (Collaboration.onMessage user m prev))).
    destruct (String.eqb_spec (Collaboration.msg_userId m) (user_id user))
      as [Hself|Hother].
    + rewrite (cursor_move_own m prev Hm Hself). simpl fst.
      destruct (IH prev Hrest Hone) as (Hone' & Hlast & Hown).
      split; [exact Hone'|]. split; [|exact Hown].
      intros u Hu. rewrite (Hlast u Hu), lastMessageOf_cons.
      destruct (lastMessageOf u rest); [reflexivity|].
      destruct (String.eqb_spec (Collaboration.msg_userId m) u);
        [congruence|reflexivity].
    + rewrite (cursor_move_remote m prev Hm Hother). simpl fst.
      match goal with
      | |- context [Collaboration.onMessages user rest ?st] =>
          destruct (IH st Hrest) as (Hone' & Hlast & Hown)
      end.
      { simpl. apply (onePerUser_upsert (cursors prev)
                                        (Collaboration.cursorOf m) Hone). }
      split; [exact Hone'|]. split.
      * intros u Hu. rewrite (Hlast u Hu), lastMessageOf_cons.
        destruct (lastMessageOf u rest); [reflexivity|].
        simpl cursors. rewrite cursorFor_app.
        destruct (String.eqb_spec (Collaboration.msg_userId m) u)
          as [Heq|Hne].
        -- subst u. rewrite cursorFor_filter_same.
           unfold cursorFor. simpl. now rewrite String.eqb_refl.
        -- rewrite cursorFor_filter_other by congruence.
           destruct (cursorFor u (cursors prev)); [reflexivity|].
           unfold cursorFor. simpl.
           destruct (String.eqb_spec (Collaboration.msg_userId m) u);
             [congruence|reflexivity].
      * rewrite Hown. simpl cursors. rewrite cursorFor_app.
        rewrite cursorFor_filter_other by congruence.
        destruct (cursorFor (user_id user) (cursors prev)); [reflexivity|].
        unfold cursorFor. simpl.
        destruct (String.eqb_spec (Collaboration.msg_userId m)
                                  (user_id user));
          [congruence|reflexivity].
Qed.

End Cursors.





(** ** Export *)

Lemma drawElement_is_export_then_indicator
      (vp : ViewportState) (element : WhiteboardElement) :
  Canvas.drawElement vp element
  = App.exportElement element ++ selectionIndicator vp element.
Proof.
  unfold Canvas.drawElement, App.exportElement, selectionIndicator.
  rewrite <- app_assoc. reflexivity.
Qed.

(** C10.  Export draws on a 1920 x 1080 canvas, and for every element it
    issues the stroke style, line width, caps and the per-kind drawing
    operations that the live renderer's [drawElement] issues for that
    element, with the same raw coordinates: [drawElement] is the export
    sequence followed by the selection indicator, which is empty unless
    the element is selected. *)
Theorem export_draws_like_live_renderer
        (vp : ViewportState) (element : WhiteboardElement) (s : App.State) :
  Canvas.drawElement vp element
  = App.exportElement element ++ selectionIndicator vp element
  /\ (Js.bool_truthy (selected element) = false ->
      Canvas.drawElement vp element = App.exportElement element)
  /\ App.handleExport true s
     = Some (App.mkExportCanvas 1920 1080
               ([SetFillStyle "#ffffff"; FillRect 0 0 1920 1080]
                ++ flat_map App.exportElement (App.elements s)))
  /\ (Forall (fun el => Js.bool_truthy (selected el) = false)
             (App.elements s) ->
      flat_map (Canvas.drawElement vp) (App.elements s)
      = flat_map App.exportElement (App.elements s)).
Proof.
  split; [apply drawElement_is_export_then_indicator|].
  split.
  - intros Hsel. rewrite drawElement_is_export_then_indicator.
    unfold selectionIndicator. rewrite Hsel. apply app_nil_r.
  - split; [reflexivity|].
    induction (App.elements s) as [|el rest IH]; intros Hall.
    + reflexivity.
    + inversion Hall as [|? ? Hel Hrest]; subst. cbn [flat_map].
      rewrite (IH Hrest), drawElement_is_export_then_indicator.
      unfold selectionIndicator. rewrite Hel. now rewrite app_nil_r.
Qed.

Lemma export_draws_like_live_renderer_witness :
  Js.bool_truthy (selected sampleRectangle) = false
  /\ Canvas.drawElement (mkViewport 30 40 2) sampleRectangle
     = App.exportElement sampleRectangle.
Proof.
  split; [reflexivity|].
  apply (export_draws_like_live_renderer
           (mkViewport 30 40 2) sampleRectangle App.initialState).
  reflexivity.
Defined.

(** ** Selection *)

Section Selection.

Local Open Scope nat_scope.

Variable p : Point.

Implicit Types (els : list WhiteboardElement) (el : WhiteboardElement).

Lemma find_first_hit els :
  forall k, firstHitAt p els k ->
  exists el, nth_error els k = Some el
             /\ find (fun el' => Canvas.isPointInElement p el') els = Some el.
Proof.
  induction els as [|a rest IH]; intros k [(el & Hk & Hhit) Hbefore].
  - destruct k; discriminate.
  - destruct k as [|k]; simpl in Hk.
    + injection Hk as ->. exists el. simpl. now rewrite Hhit.
    + simpl. rewrite (Hbefore 0 a) by (simpl; auto; lia).
      destruct (IH k) as (el' & Hk' & Hfind).
      * split; [exists el; auto|].
        intros j el0 Hj Hnth. apply (Hbefore (S j) el0); [lia|exact Hnth].
      * exists el'. auto.
Qed.

Lemma find_no_hit els :
  (forall el, In el els -> Canvas.isPointInElement p el = false) ->
  find (fun el' => Canvas.isPointInElement p el') els = None.
Proof.
  induction els as [|a rest IH]; intros Hmiss; simpl.
  - reflexivity.
  - rewrite (Hmiss a) by (left; reflexivity).
    apply IH. intros el Hin. apply Hmiss. now right.
Qed.

Lemma unique_id_position els i k a b :
  uniqueIds els ->
  nth_error els i = Some a -> nth_error els k = Some b ->
  String.eqb (id a) (id b) = Nat.eqb i k.
Proof.
  unfold uniqueIds. intros Hnd Ha Hb.
  destruct (Nat.eqb_spec i k) as [->|Hne].
  - rewrite Ha in Hb. injection Hb as ->. apply String.eqb_refl.
  - apply String.eqb_neq. intros Hid. apply Hne.
    rewrite NoDup_nth_error in Hnd. apply Hnd.
    + rewrite length_map. apply nth_error_Some. congruence.
    + rewrite !nth_error_map, Ha, Hb. simpl. now rewrite Hid.
Qed.

Lemma with_selected_same el b : sameButSelected el (with_selected el b).
Proof. unfold sameButSelected. simpl. repeat split. Qed.

End Selection.

(** C7.  A pointer-down with the select tool selects the first element, in
    storage order, that contains the point: afterwards that element has
    [selected = true] and every other element [selected = false], and
    nothing else about the collection - its length, its order, any other
    field of any element - has changed.  When no element contains the
    point every element gets [selected = false] and panning starts.
    Element ids are unique, as the data model requires. *)
Theorem select_marks_first_hit_only
        (newId : string) (rect : option Canvas.DOMRect) (now : R)
        (e : Canvas.MouseEvent) (w : System.State) :
  App.activeTool (System.app w) = ToolSelect ->
  let p := Canvas.screenToCanvas rect (App.viewport (System.app w))
                                 (Canvas.clientX e) (Canvas.clientY e) in
  let els := App.elements (System.app w) in
  let w' := System.mouseDown newId rect now e w in
  let els' := App.elements (System.app w') in
  (forall k,
     uniqueIds els -> firstHitAt p els k ->
     List.length els' = List.length els
     /\ (forall i el,
           nth_error els i = Some el ->
           exists el',
             nth_error els' i = Some el'
             /\ selected el' = Some (Nat.eqb i k)
             /\ sameButSelected el el')
     /\ System.canvas w' = System.canvas w)
  /\ ((forall el, In el els -> Canvas.isPointInElement p el = false) ->
      List.length els' = List.length els
      /\ (forall i el,
            nth_error els i = Some el ->
            exists el',
              nth_error els' i = Some el'
              /\ selected el' = Some false
              /\ sameButSelected el el')
      /\ Canvas.isPanning (System.canvas w') = true
      /\ Canvas.lastPanPoint (System.canvas w')
         = mkPoint (Canvas.clientX e) (Canvas.clientY e)
      /\ Canvas.drawingState (System.canvas w')
         = Canvas.drawingState (System.canvas w)).
Proof.
  intros Htool p els w' els'.
  unfold els', w', System.mouseDown, Canvas.handleMouseDown.
  cbn [Canvas.activeTool Canvas.elements Canvas.viewport App.canvasProps].
  rewrite Htool. fold p. fold els. split.
  - intros k Huniq Hhit.
    destruct (find_first_hit p els k Hhit) as (clicked & Hk & Hfind).
    rewrite Hfind. cbn.
    split; [apply length_map|]. split.
    + intros i el Hi. eexists. split.
      * rewrite nth_error_map, Hi. reflexivity.
      * split; [|apply with_selected_same].
        simpl. f_equal. now apply (unique_id_position els i k).
    + destruct w. reflexivity.
  - intros Hmiss. rewrite (find_no_hit p els Hmiss). cbn.
    split; [apply length_map|]. split.
    + intros i el Hi. eexists. split.
      * rewrite nth_error_map, Hi. reflexivity.
      * split; [reflexivity|apply with_selected_same].
    + repeat split.
Qed.

Lemma select_marks_first_hit_only_witness :
  let front := mkElement "a" TyRectangle 10 10 (Some 20) (Some 20) None None
                         "#000000" 2 None None None in
  let back := mkElement "b" TyRectangle 0 0 (Some 50) (Some 50) None None
                        "#000000" 2 None None None in
  let w := System.setApp
             (App.setActiveTool ToolSelect
                (App.handleElementsChange [front; back] App.initialState))
             System.initialState in
  let e := Canvas.mkMouseEvent 15 15 in
  let rect := Some (Canvas.mkRect 0 0) in
  let p := Canvas.screenToCanvas rect (App.viewport (System.app w)) 15 15 in
  App.activeTool (System.app w) = ToolSelect
  /\ uniqueIds [front; back]
  /\ firstHitAt p [front; back] 0
  /\ Canvas.isPointInElement p back = true
  /\ exists el',
      nth_error (App.elements (System.app (System.mouseDown "n" rect 0 e w))) 1
      = Some el'
      /\ selected el' = Some false /\ sameButSelected back el'.
Proof.
  intros front back w e rect p.
  assert (Hfront : Canvas.isPointInElement p front = true).
  { apply isPointInElement_box; [left; reflexivity|].
    unfold boxWidth, boxHeight.
    rewrite !num_or_zero. simpl. lra. }
  assert (Hback : Canvas.isPointInElement p back = true).
  { apply isPointInElement_box; [left; reflexivity|].
    unfold boxWidth, boxHeight.
    rewrite !num_or_zero. simpl. lra. }
  assert (Huniq : uniqueIds [front; back]).
  { unfold uniqueIds. simpl. constructor.
    - intros [H|[]]. discriminate.
    - constructor; [intros []|constructor]. }
  assert (Hhit : firstHitAt p [front; back] 0).
  { split; [exists front; split; [reflexivity|exact Hfront]|].
    intros j el Hj. lia. }
  split; [reflexivity|]. split; [exact Huniq|]. split; [exact Hhit|].
  split; [exact Hback|].
  destruct (select_marks_first_hit_only "n" rect 0 e w eq_refl) as [Hsel _].
  destruct (Hsel 0%nat Huniq Hhit) as (_ & Heach & _).
  exact (Heach 1%nat back eq_refl).
Defined.

(** ** Committing a drawing gesture *)

Section Gesture.

Variable now : R.

Lemma mouseDown_starts_drawing (newId : string)
      (rect : option Canvas.DOMRect) (e : Canvas.MouseEvent)
      (w : System.State) :
  App.activeTool (System.app w) <> ToolSelect ->
  System.mouseDown newId rect now e w
  = System.setCanvas
      (Canvas.mkState
         (mkDrawingState true
            [Canvas.screenToCanvas rect (App.viewport (System.app w))
                                   (Canvas.clientX e) (Canvas.clientY e)]
            (Some (Canvas.createNewElement
                     newId (App.activeTool (System.app w))
                     (Canvas.screenToCanvas
                        rect (App.viewport (System.app w))
                        (Canvas.clientX e) (Canvas.clientY e))
                     (App.strokeColor (System.app w))
                     (App.strokeWidth (System.app w)))))
         (Canvas.isPanning (System.canvas w))
         (Canvas.lastPanPoint (System.canvas w)))
      w.
Proof.
  intros Htool. unfold System.mouseDown, Canvas.handleMouseDown.
  cbn [Canvas.activeTool Canvas.elements Canvas.viewport App.canvasProps
       Canvas.strokeColor Canvas.prop_strokeWidth].
  destruct (App.activeTool (System.app w)); try reflexivity.
  contradiction.
Qed.

Lemma mouseMove_updates_drawing (rect : option Canvas.DOMRect)
      (e : Canvas.MouseEvent) (w : System.State)
      (cur : WhiteboardElement) :
  Canvas.isPanning (System.canvas w) = false ->
  isDrawing (Canvas.drawingState (System.canvas w)) = true ->
  currentElement (Canvas.drawingState (System.canvas w)) = Some cur ->
  let point := Canvas.screenToCanvas rect (App.viewport (System.app w))
                                     (Canvas.clientX e) (Canvas.clientY e) in
  let w' := System.mouseMove rect now e w in
  System.app w' = System.app w
  /\ Canvas.isPanning (System.canvas w') = false
  /\ isDrawing (Canvas.drawingState (System.canvas w')) = true
  /\ currentElement (Canvas.drawingState (System.canvas w'))
     = Some (Canvas.updateElementWithPoint
               cur point
               (currentPath (Canvas.drawingState (System.canvas w)))).
Proof.
  intros Hpan Hdraw Hcur point w'.
  unfold w', System.mouseMove, Canvas.handleMouseMove.
  rewrite Hpan, Hdraw, Hcur.
  unfold System.run. cbn [fst snd fold_left System.dispatch].
  unfold System.publish.
  destruct (Collaboration.broadcastCursor _ _ _ _ _);
    cbn; rewrite ?Hpan, ?Hdraw; repeat split.
Qed.

Lemma mouseUp_commits (w : System.State) (cur : WhiteboardElement) :
  Canvas.isPanning (System.canvas w) = false ->
  isDrawing (Canvas.drawingState (System.canvas w)) = true ->
  currentElement (Canvas.drawingState (System.canvas w)) = Some cur ->
  System.mouseUp now w
  = System.publish
      (Collaboration.broadcastElementChange
         (System.currentUser w) now (App.elements (System.app w) ++ [cur]))
      (System.setApp
         (App.handleElementsChange (App.elements (System.app w) ++ [cur])
                                   (System.app w))
         (System.setCanvas
            (Canvas.mkState (mkDrawingState false [] None) false
                            (Canvas.lastPanPoint (System.canvas w)))
            w)).
Proof.
  intros Hpan Hdraw Hcur.
  unfold System.mouseUp, Canvas.handleMouseUp.
  rewrite Hpan, Hdraw, Hcur. reflexivity.
Qed.

End Gesture.

Lemma publish_keeps_app_and_canvas
      (m : option Collaboration.Publication) (w : System.State) :
  System.app (System.publish m w) = System.app w
  /\ System.canvas (System.publish m w) = System.canvas w.
Proof. destruct m; split; reflexivity. Qed.

Lemma rectangle_drag_scenario
      (now : R) (newId : string) (rect : option Canvas.DOMRect)
      (eDown eMove : Canvas.MouseEvent) (w0 : System.State) :
  App.activeTool (System.app w0) = ToolRectangle ->
  App.strokeColor (System.app w0) = "#000000" ->
  App.strokeWidth (System.app w0) = 2 ->
  Canvas.isPanning (System.canvas w0) = false ->
  Canvas.screenToCanvas rect (App.viewport (System.app w0))
                        (Canvas.clientX eDown) (Canvas.clientY eDown)
  = mkPoint 10 10 ->
  Canvas.screenToCanvas rect (App.viewport (System.app w0))
                        (Canvas.clientX eMove) (Canvas.clientY eMove)
  = mkPoint 110 60 ->
  App.elements
    (System.app
       (System.mouseUp now
          (System.mouseMove rect now eMove
             (System.mouseDown newId rect now eDown w0))))
  = App.elements (System.app w0)
    ++ [mkElement newId TyRectangle 10 10 (Some 100) (Some 50) None None
                  "#000000" 2 None None None].
Proof.
  intros Htool Hcolor Hwidth Hpan Hdown Hmove.
  rewrite (mouseDown_starts_drawing now newId rect eDown w0)
    by (rewrite Htool; discriminate).
  rewrite Htool, Hcolor, Hwidth, Hdown, Hpan.
  set (w1 := System.setCanvas _ w0).
  assert (Happ1 : System.app w1 = System.app w0) by reflexivity.
  destruct (mouseMove_updates_drawing
              now rect eMove w1
              (Canvas.createNewElement newId ToolRectangle (mkPoint 10 10)
                                       "#000000" 2)
              eq_refl eq_refl eq_refl)
    as (Happ2 & Hpan2 & Hdraw2 & Hcur2).
  rewrite Happ1, Hmove in Hcur2.
  rewrite (mouseUp_commits now _ _ Hpan2 Hdraw2 Hcur2).
  rewrite (proj1 (publish_keeps_app_and_canvas _ _)).
  cbn [System.app System.setApp].
  cbn [App.elements App.handleElementsChange App.setElements
       App.setHistory App.setHistoryIndex].
  rewrite Happ2, Happ1. f_equal.
  unfold Canvas.updateElementWithPoint, Canvas.createNewElement, with_size.
  simpl. f_equal. f_equal; f_equal; lra.
Qed.

(** C5, as the code has it.  On pointer-up while a drawing gesture is in
    progress and no pan is, the in-progress element is appended to the
    element collection (the stored elements unchanged and in order), the
    resulting collection is recorded as the new last history snapshot and
    handed to the broadcast routine, which publishes it as an
    elements-update when a user is signed in, and the drawing state is
    cleared; while a pan is in progress pointer-up only ends the pan.  A
    rectangle drawn in black with stroke width 2 from world
    (10,10) to (110,60) is committed with origin (10,10), width 100 and
    height 50; while dragging, width and height are the signed differences
    between the pointer and the origin. *)
Theorem pointer_up_commits_drawing_when_not_panning
        (now : R) (w : System.State) (cur : WhiteboardElement) :
  Canvas.isPanning (System.canvas w) = false ->
  isDrawing (Canvas.drawingState (System.canvas w)) = true ->
  currentElement (Canvas.drawingState (System.canvas w)) = Some cur ->
  let w' := System.mouseUp now w in
  let committed := App.elements (System.app w) ++ [cur] in
  App.elements (System.app w') = committed
  /\ App.history (System.app w')
     = firstn (App.historyIndex (System.app w) + 1)
              (App.history (System.app w)) ++ [committed]
  /\ App.historyIndex (System.app w')
     = (List.length (App.history (System.app w')) - 1)%nat
  /\ inSync (System.app w')
  /\ In (Canvas.BroadcastElementChange committed)
        (snd (Canvas.handleMouseUp (App.canvasProps (System.app w))
                                   (System.canvas w)))
  /\ (forall u,
        System.currentUser w = Some u ->
        exists m,
          System.published w' = System.published w ++ [m]
          /\ Collaboration.pub_type m = "elements-update"
          /\ Collaboration.pub_userId m = user_id u
          /\ Collaboration.data_elements (Collaboration.pub_data m)
             = committed)
  /\ Canvas.drawingState (System.canvas w') = mkDrawingState false [] None
  /\ Canvas.isPanning (System.canvas w') = false
  /\ (forall w0,
        Canvas.isPanning (System.canvas w0) = true ->
        System.mouseUp now w0
        = System.setCanvas
            (Canvas.mkState (Canvas.drawingState (System.canvas w0)) false
                            (Canvas.lastPanPoint (System.canvas w0)))
            w0)
  /\ (forall el point path,
        type el = TyRectangle ->
        Canvas.updateElementWithPoint el point path
        = with_size el (pt_x point - x el) (pt_y point - y el))
  /\ (forall newId rect eDown eMove w0,
        App.activeTool (System.app w0) = ToolRectangle ->
        App.strokeColor (System.app w0) = "#000000" ->
        App.strokeWidth (System.app w0) = 2 ->
        Canvas.isPanning (System.canvas w0) = false ->
        Canvas.screenToCanvas rect (App.viewport (System.app w0))
                              (Canvas.clientX eDown) (Canvas.clientY eDown)
        = mkPoint 10 10 ->
        Canvas.screenToCanvas rect (App.viewport (System.app w0))
                              (Canvas.clientX eMove) (Canvas.clientY eMove)
        = mkPoint 110 60 ->
        App.elements
          (System.app
             (System.mouseUp now
                (System.mouseMove rect now eMove
                   (System.mouseDown newId rect now eDown w0))))
        = App.elements (System.app w0)
          ++ [mkElement newId TyRectangle 10 10 (Some 100) (Some 50)
                        None None "#000000" 2 None None None]).
Proof.
  intros Hpan Hdraw Hcur w' committed. unfold w'.
  rewrite (mouseUp_commits now w cur Hpan Hdraw Hcur). fold committed.
  rewrite (proj1 (publish_keeps_app_and_canvas _ _)).
  rewrite (proj2 (publish_keeps_app_and_canvas _ _)).
  cbn [System.app System.setApp System.canvas System.setCanvas].
  split; [reflexivity|]. split; [reflexivity|]. split; [reflexivity|].
  split; [apply record_in_sync|].
  split.
  { unfold Canvas.handleMouseUp. rewrite Hpan, Hdraw, Hcur.
    cbn [snd]. right. left. reflexivity. }
  split.
  { intros u Hu. rewrite Hu. eexists. split; [reflexivity|].
    repeat split. }
  split; [reflexivity|]. split; [reflexivity|].
  split.
  { intros w0 Hpan0. unfold System.mouseUp, Canvas.handleMouseUp.
    now rewrite Hpan0. }
  split.
  { intros el point path Hty. unfold Canvas.updateElementWithPoint.
    now rewrite Hty. }
  intros newId rect eDown eMove w0. apply rectangle_drag_scenario.
Qed.

Lemma pointer_up_commits_drawing_when_not_panning_witness :
  let alice := mkUser "alice" "alice@example.com" "alice" in
  let w := System.mkState
             App.initialState
             (Canvas.mkState
                (mkDrawingState true [mkPoint 10 10] (Some sampleRectangle))
                false (mkPoint 0 0))
             Collaboration.initialState (Some alice) "#FF6B6B" [] in
  Canvas.isPanning (System.canvas w) = false
  /\ isDrawing (Canvas.drawingState (System.canvas w)) = true
  /\ currentElement (Canvas.drawingState (System.canvas w))
     = Some sampleRectangle
  /\ App.elements (System.app (System.mouseUp 5 w)) = [sampleRectangle]
  /\ App.history (System.app (System.mouseUp 5 w)) = [[]; [sampleRectangle]]
  /\ Canvas.drawingState (System.canvas (System.mouseUp 5 w))
     = mkDrawingState false [] None.
Proof.
  intros alice w.
  destruct (pointer_up_commits_drawing_when_not_panning
              5 w sampleRectangle eq_refl eq_refl eq_refl)
    as (Hel & Hhist & _ & _ & _ & _ & Hclear & _).
  split; [reflexivity|]. split; [reflexivity|]. split; [reflexivity|].
  split; [exact Hel|]. split; [exact Hhist|]. exact Hclear.
Defined.

(** C5 as stated fails when a pan is also in progress.  A pointer-down
    with the select tool on the empty board starts a pan; the tool is
    changed to rectangle and a second pointer-down (before any pointer-up
    reached the canvas) starts a drawing; the pointer-up then only ends
    the pan: nothing is committed, recorded or published, and the drawing
    state is not cleared. *)
Lemma pointer_up_while_panning_commits_nothing :
  let e := Canvas.mkMouseEvent 10 10 in
  let rect := Some (Canvas.mkRect 0 0) in
  let w0 := System.setApp (App.setActiveTool ToolSelect App.initialState)
                          System.initialState in
  let w1 := System.mouseDown "a0" rect 0 e w0 in
  let w2 := System.setApp (App.setActiveTool ToolRectangle (System.app w1))
                          w1 in
  let w3 := System.mouseDown "a1" rect 0 e w2 in
  let w4 := System.mouseUp 0 w3 in
  Canvas.isPanning (System.canvas w3) = true
  /\ isDrawing (Canvas.drawingState (System.canvas w3)) = true
  /\ (exists cur,
        currentElement (Canvas.drawingState (System.canvas w3)) = Some cur
        /\ App.elements (System.app w4)
           <> App.elements (System.app w3) ++ [cur])
  /\ App.elements (System.app w4) = App.elements (System.app w3)
  /\ App.history (System.app w4) = App.history (System.app w3)
  /\ System.published w4 = System.published w3
  /\ Canvas.drawingState (System.canvas w4)
     = Canvas.drawingState (System.canvas w3)
  /\ Canvas.drawingState (System.canvas w4) <> mkDrawingState false [] None.
Proof.
  cbv zeta.
  split; [reflexivity|]. split; [reflexivity|].
  split.
  { eexists. split; [reflexivity|]. cbn. discriminate. }
  split; [reflexivity|]. split; [reflexivity|]. split; [reflexivity|].
  split; [reflexivity|]. cbn. discriminate.
Qed.

(** * Further properties of the code *)

(** ** Undo, redo and the toolbar buttons *)

Section HistoryControls.

Local Open Scope nat_scope.

Implicit Types (s : App.State) (els : list WhiteboardElement).

Lemma canUndo_true s : App.canUndo s = true <-> 0 < App.historyIndex s.
Proof. unfold App.canUndo. apply Nat.ltb_lt. Qed.

Lemma canRedo_true s :
  App.canRedo s = true
  <-> App.historyIndex s < List.length (App.history s) - 1.
Proof. unfold App.canRedo. apply Nat.ltb_lt. Qed.

Lemma canUndo_false s : App.canUndo s = false <-> App.historyIndex s = 0.
Proof. unfold App.canUndo. rewrite Nat.ltb_ge. lia. Qed.

Lemma canRedo_false s :
  App.canRedo s = false
  <-> List.length (App.history s) - 1 <= App.historyIndex s.
Proof. unfold App.canRedo. apply Nat.ltb_ge. Qed.

(** The Undo and Redo buttons are disabled exactly when their handlers
    would do nothing: with [canUndo] false [handleUndo] returns the state
    unchanged, with [canUndo] true it moves the index down by one and
    keeps the snapshots; the same for redo, upwards. *)
Theorem buttons_enabled_iff_handlers_act s :
  indexInRange s ->
  (App.canUndo s = false -> App.handleUndo s = Some s)
  /\ (App.canUndo s = true ->
      exists s', App.handleUndo s = Some s'
                 /\ App.historyIndex s' + 1 = App.historyIndex s
                 /\ App.history s' = App.history s
                 /\ inSync s' /\ indexInRange s')
  /\ (App.canRedo s = false -> App.handleRedo s = Some s)
  /\ (App.canRedo s = true ->
      exists s', App.handleRedo s = Some s'
                 /\ App.historyIndex s' = App.historyIndex s + 1
                 /\ App.history s' = App.history s
                 /\ inSync s' /\ indexInRange s').
Proof.
  intros Hwf. split; [|split; [|split]].
  - intros H. apply undo_at_bottom. now apply canUndo_false.
  - intros H. apply canUndo_true in H.
    destruct (undo_effective s H Hwf) as (snapshot & Hnth & Hundo).
    eexists. split; [exact Hundo|].
    unfold inSync, indexInRange in *. simpl.
    repeat split; auto; lia.
  - intros H. apply redo_at_top. now apply canRedo_false.
  - intros H. apply canRedo_true in H.
    destruct (redo_effective s H) as (snapshot & Hnth & Hredo).
    eexists. split; [exact Hredo|].
    unfold inSync, indexInRange in *. simpl.
    repeat split; auto; lia.
Qed.

Lemma buttons_enabled_iff_handlers_act_witness :
  indexInRange (App.handleElementsChange [sampleRectangle] App.initialState)
  /\ App.canUndo (App.handleElementsChange [sampleRectangle] App.initialState)
     = true
  /\ App.canRedo (App.handleElementsChange [sampleRectangle] App.initialState)
     = false
  /\ App.handleRedo
       (App.handleElementsChange [sampleRectangle] App.initialState)
     = Some (App.handleElementsChange [sampleRectangle] App.initialState).
Proof.
  assert (Hwf : indexInRange
                  (App.handleElementsChange [sampleRectangle]
                                            App.initialState))
    by (unfold indexInRange; simpl; lia).
  split; [exact Hwf|]. split; [reflexivity|]. split; [reflexivity|].
  apply (buttons_enabled_iff_handlers_act _ Hwf). reflexivity.
Defined.

(** Undo after a redo that took effect gives back the state before the
    redo, when the display was the snapshot under the index. *)
Theorem undo_after_redo_restores s :
  indexInRange s -> inSync s -> App.canRedo s = true ->
  exists s1, App.handleRedo s = Some s1 /\ App.handleUndo s1 = Some s.
Proof.
  intros Hwf Hs Hcan. apply canRedo_true in Hcan.
  destruct (redo_effective s Hcan) as (snapshot & Hnth & Hredo).
  eexists. split; [exact Hredo|].
  unfold indexInRange, inSync in *.
  unfold App.handleUndo. simpl.
  destruct (Nat.ltb_spec 0 (App.historyIndex s + 1)); [|lia].
  replace (App.historyIndex s + 1 - 1) with (App.historyIndex s) by lia.
  rewrite Hs. destruct s. reflexivity.
Qed.

Lemma undo_after_redo_restores_witness :
  let s := App.mkState [] ToolPen "#000000" 2 (mkViewport 0 0 1)
                       [[]; [sampleRectangle]] 0 in
  indexInRange s /\ inSync s /\ App.canRedo s = true
  /\ exists s1, App.handleRedo s = Some s1 /\ App.handleUndo s1 = Some s.
Proof.
  intros s.
  assert (Hwf : indexInRange s) by (unfold indexInRange; simpl; lia).
  split; [exact Hwf|]. split; [reflexivity|]. split; [reflexivity|].
  apply (undo_after_redo_restores s Hwf); reflexivity.
Defined.

(** Right after a commit nothing can be redone, whatever was undone
    before, and the commit can be undone; when the display was the
    snapshot under the index, undoing the commit displays what was
    displayed before it. *)
Theorem commit_clears_redo_and_is_undoable s els :
  indexInRange s ->
  App.canRedo (App.handleElementsChange els s) = false
  /\ App.canUndo (App.handleElementsChange els s) = true
  /\ List.length (App.history (App.handleElementsChange els s))
     = App.historyIndex s + 2
  /\ (inSync s ->
      exists a, App.handleUndo (App.handleElementsChange els s) = Some a
                /\ App.elements a = App.elements s
                /\ App.historyIndex a = App.historyIndex s
                /\ App.canRedo a = true).
Proof.
  intros Hwf.
  assert (Hlen : List.length (App.history (App.handleElementsChange els s))
                 = App.historyIndex s + 2).
  { rewrite record_history, length_app, length_firstn.
    unfold indexInRange in Hwf. simpl. lia. }
  split; [|split; [|split; [exact Hlen|]]].
  - apply canRedo_false. rewrite record_index_last. lia.
  - apply canUndo_true. rewrite record_index_succ by assumption. lia.
  - intros Hs.
    destruct (undo_after_commit els (App.elements s) s Hs)
      as (a & Hundo & Hel & Hidx).
    exists a. repeat split; auto.
    apply canRedo_true. rewrite Hidx.
    unfold App.handleUndo in Hundo.
    destruct (0 <? App.historyIndex (App.handleElementsChange els s));
      [|injection Hundo as <-; lia].
    destruct (nth_error _ _); [|discriminate].
    injection Hundo as <-. simpl.
    rewrite length_app, length_firstn. unfold indexInRange in Hwf.
    simpl. lia.
Qed.

Lemma commit_clears_redo_and_is_undoable_witness :
  let s := App.mkState [] ToolPen "#000000" 2 (mkViewport 0 0 1)
                       [[]; [sampleRectangle]; []] 0 in
  indexInRange s
  /\ App.canRedo s = true
  /\ App.canRedo (App.handleElementsChange [sampleRectangle] s) = false
  /\ List.length (App.history (App.handleElementsChange [sampleRectangle] s))
     = 2.
Proof.
  intros s.
  assert (Hwf : indexInRange s) by (unfold indexInRange; simpl; lia).
  destruct (commit_clears_redo_and_is_undoable s [sampleRectangle] Hwf)
    as (Hredo & _ & Hlen & _).
  split; [exact Hwf|]. split; [reflexivity|]. split; [exact Hredo|].
  exact Hlen.
Defined.

(** The stored elements arriving: an empty collection changes nothing; a
    non-empty one is displayed and replaces the whole history by the empty
    snapshot followed by the loaded one, so that one undo shows the empty
    board, nothing of the earlier history can be reached, and a redo shows
    the loaded elements again. *)
Theorem load_resets_history s els :
  (els = [] -> App.onElementsLoaded els s = s)
  /\ (els <> [] ->
      let s' := App.onElementsLoaded els s in
      App.elements s' = els
      /\ App.history s' = [[]; els]
      /\ App.historyIndex s' = 1
      /\ App.canRedo s' = false
      /\ exists a,
          App.handleUndo s' = Some a
          /\ App.elements a = []
          /\ App.canUndo a = false
          /\ App.handleRedo a = Some s').
Proof.
  split.
  - intros ->. reflexivity.
  - intros Hne s'. unfold s', App.onElementsLoaded.
    destruct els as [|el rest]; [contradiction|].
    simpl. repeat split. eexists. split; [reflexivity|]. repeat split.
Qed.

Lemma load_resets_history_witness :
  [sampleRectangle] <> []
  /\ App.history
       (App.onElementsLoaded
          [sampleRectangle]
          (App.handleElementsChange [] (App.handleElementsChange []
                                          App.initialState)))
     = [[]; [sampleRectangle]].
Proof.
  assert (Hne : [sampleRectangle] <> []) by discriminate.
  split; [exact Hne|].
  apply (load_resets_history
           (App.handleElementsChange [] (App.handleElementsChange []
                                           App.initialState))
           [sampleRectangle]).
  exact Hne.
Defined.

End HistoryControls.

(** ** Comments of a rich note *)

Section Comments.

Local Open Scope nat_scope.

Variable blank : string -> bool.

Implicit Types (richNote : RichNote) (c : Comment) (i : string).

Lemma delete_keeps_others i (cs : list Comment) :
  ~ In i (map comment_id cs) ->
  filter (fun c => negb (String.eqb (comment_id c) i)) cs = cs.
Proof.
  induction cs as [|c rest IH]; intros Hfresh; simpl.
  - reflexivity.
  - destruct (String.eqb_spec (comment_id c) i) as [Heq|Hne]; simpl.
    + exfalso. apply Hfresh. left. exact Heq.
    + rewrite IH; [reflexivity|]. intros Hin. apply Hfresh. now right.
Qed.

Lemma withComments_same richNote :
  RichNoteCard.withComments richNote (note_comments richNote) = richNote.
Proof. destruct richNote. reflexivity. Qed.

(** Adding a comment.  Nothing is sent while the text is blank or nobody
    is signed in, and the text box keeps its content.  Otherwise the note
    is updated with the old comments, unchanged and in order, followed by
    one new unresolved comment written by the signed-in user, who is
    offered its Delete button; the content of the note is untouched and
    the text box is emptied. *)
Theorem add_comment_appends_unresolved_comment
        (newId : string) (now : R) (newComment : string)
        (currentUser : option User) richNote :
  (blank newComment = true \/ currentUser = None ->
   RichNoteCard.handleAddComment blank newId now newComment currentUser
                                 richNote
   = (newComment, None))
  /\ (forall u,
        blank newComment = false -> currentUser = Some u ->
        exists c,
          RichNoteCard.handleAddComment blank newId now newComment
                                        currentUser richNote
          = (EmptyString,
             Some (RichNoteCard.withComments
                     richNote (note_comments richNote ++ [c])))
          /\ comment_id c = newId /\ comment_text c = newComment
          /\ comment_authorId c = user_id u
          /\ comment_author c = displayName u
          /\ comment_resolved c = Some false
          /\ RichNoteCard.showsDelete currentUser c = true
          /\ List.length
               (RichNoteCard.unresolvedComments
                  (RichNoteCard.withComments
                     richNote (note_comments richNote ++ [c])))
             = List.length (RichNoteCard.unresolvedComments richNote) + 1).
Proof.
  split.
  - unfold RichNoteCard.handleAddComment. intros [Hb| ->].
    + now rewrite Hb.
    + now destruct (blank newComment).
  - intros u Hb ->. unfold RichNoteCard.handleAddComment. rewrite Hb.
    eexists. split; [reflexivity|]. simpl.
    repeat split.
    + apply String.eqb_refl.
    + unfold RichNoteCard.unresolvedComments. simpl.
      rewrite filter_app, length_app. reflexivity.
Qed.

End Comments.

Lemma add_comment_appends_unresolved_comment_witness :
  let alice := mkUser "alice" "alice@example.com" "alice" in
  let note := mkRichNote "n1" "text" [] None None in
  (fun s => match s with EmptyString => true | _ => false end) "hello"
  = false
  /\ snd (RichNoteCard.handleAddComment
            (fun s => match s with EmptyString => true | _ => false end)
            "c1" 5 "hello" (Some alice) note)
     = Some (RichNoteCard.withComments
               note [mkComment "c1" "hello" "alice" "alice" 5 (Some false)]).
Proof.
  intros alice note. split; [reflexivity|].
  destruct (add_comment_appends_unresolved_comment
              (fun s => match s with EmptyString => true | _ => false end)
              "c1" 5 "hello" (Some alice) note) as [_ Hadd].
  destruct (Hadd alice eq_refl eq_refl) as (c & Hcall & _).
  reflexivity.
Defined.

Section CommentThread.

Local Open Scope nat_scope.

Implicit Types (richNote : RichNote) (c : Comment) (i : string).





(** Deleting a comment removes every comment with that id and no other,
    keeps the content of the note, and changes nothing when done a second
    time or when no comment has that id. *)
Theorem delete_comment_removes_exactly_that_id i richNote :
  let richNote' := RichNoteCard.handleDeleteComment i richNote in
  (forall c, In c (note_comments richNote')
             <-> In c (note_comments richNote) /\ comment_id c <> i)
  /\ note_content richNote' = note_content richNote
  /\ List.length (note_comments richNote')
     <= List.length (note_comments richNote)
  /\ RichNoteCard.handleDeleteComment i richNote' = richNote'
  /\ (freshCommentId i richNote -> richNote' = richNote).
Proof.
  intros richNote'. unfold richNote', RichNoteCard.handleDeleteComment.
  cbn [note_comments note_content RichNoteCard.withComments].
  split; [|split; [reflexivity|split; [apply filter_length_le|split]]].
  - intros c. rewrite filter_In, negb_true_iff, String.eqb_neq. tauto.
  - unfold RichNoteCard.withComments. simpl. f_equal.
    apply delete_keeps_others. intros Hin. apply in_map_iff in Hin.
    destruct Hin as (c & Hid & Hin). apply filter_In in Hin.
    destruct Hin as [_ Hne]. rewrite Hid, String.eqb_refl in Hne.
    discriminate.
  - unfold freshCommentId. intros Hfresh.
    rewrite delete_keeps_others by assumption. apply withComments_same.
Qed.

Lemma delete_comment_removes_exactly_that_id_witness :
  let c1 := mkComment "c1" "first" "alice" "alice" 5 (Some false) in
  let note := mkRichNote "n1" "text" [c1] None None in
  freshCommentId "c9" note
  /\ RichNoteCard.handleDeleteComment "c9" note = note.
Proof.
  intros c1 note.
  assert (Hfresh : freshCommentId "c9" note).
  { unfold freshCommentId. simpl. intros [H|[]]. discriminate. }
  split; [exact Hfresh|].
  apply (delete_comment_removes_exactly_that_id "c9" note). exact Hfresh.
Defined.

End CommentThread.

Section CommentCounts.

Local Open Scope nat_scope.

Implicit Types (richNote : RichNote) (c : Comment) (i : string).

Lemma toggle_leaves_other_ids i (cs : list Comment) :
  ~ In i (map comment_id cs) ->
  map (fun c => if String.eqb (comment_id c) i
                then RichNoteCard.toggled c else c) cs
  = cs.
Proof.
  induction cs as [|c rest IH]; intros Hfresh; [reflexivity|].
  simpl. rewrite IH by (intros Hin; apply Hfresh; now right).
  destruct (String.eqb_spec (comment_id c) i) as [Heq|Hne];
    [|reflexivity].
  exfalso. apply Hfresh. now left.
Qed.

Lemma resolve_counts i (cs : list Comment) c :
  NoDup (map comment_id cs) -> In c cs -> comment_id c = i ->
  Js.bool_truthy (comment_resolved c) = false ->
  let cs' := map (fun c => if String.eqb (comment_id c) i
                           then RichNoteCard.toggled c else c) cs in
  List.length (filter (fun c => Js.bool_truthy (comment_resolved c)) cs')
  = List.length (filter (fun c => Js.bool_truthy (comment_resolved c)) cs) + 1
  /\ List.length
       (filter (fun c => negb (Js.bool_truthy (comment_resolved c))) cs') + 1
     = List.length
         (filter (fun c => negb (Js.bool_truthy (comment_resolved c))) cs).
Proof.
  induction cs as [|a rest IH]; intros Hnd Hin Hid Hopen; [contradiction|].
  simpl in Hnd. inversion Hnd as [|? ? Hnotin Hrest]; subst.
  destruct Hin as [->|Hin].
  - cbn zeta. simpl map. rewrite String.eqb_refl.
    rewrite (toggle_leaves_other_ids _ rest Hnotin).
    simpl. rewrite Hopen. simpl. lia.
  - assert (Hne : comment_id a <> comment_id c).
    { intros Heq. apply Hnotin. rewrite Heq. now apply in_map. }
    cbn zeta. simpl map.
    destruct (String.eqb_spec (comment_id a) (comment_id c));
      [contradiction|].
    destruct (IH Hrest Hin eq_refl Hopen) as [Hres Hunres].
    cbn zeta in Hres, Hunres. simpl.
    destruct (Js.bool_truthy (comment_resolved a)); simpl; lia.
Qed.

(** The comment lists of the side bar.  Every comment is in exactly one of
    the unresolved and the resolved list, so the two lengths add up to the
    number of comments; and resolving an unresolved comment whose id no
    other comment has takes one comment off the unresolved list (the
    number in the badge) and puts one on the resolved list. *)
Theorem resolving_moves_one_comment_between_lists i richNote c :
  uniqueCommentIds richNote ->
  In c (note_comments richNote) -> comment_id c = i ->
  Js.bool_truthy (comment_resolved c) = false ->
  let richNote' := RichNoteCard.handleToggleComment i richNote in
  List.length (RichNoteCard.unresolvedComments richNote)
  + List.length (RichNoteCard.resolvedComments richNote)
  = List.length (note_comments richNote)
  /\ List.length (RichNoteCard.unresolvedComments richNote') + 1
     = List.length (RichNoteCard.unresolvedComments richNote)
  /\ List.length (RichNoteCard.resolvedComments richNote')
     = List.length (RichNoteCard.resolvedComments richNote) + 1.
Proof.
  intros Huniq Hin Hid Hopen richNote'.
  destruct (resolve_counts i (note_comments richNote) c Huniq Hin Hid Hopen)
    as [Hres Hunres].
  split; [|split].
  - unfold RichNoteCard.unresolvedComments, RichNoteCard.resolvedComments.
    rewrite Nat.add_comm. apply filter_length.
  - exact Hunres.
  - exact Hres.
Qed.

Lemma resolving_moves_one_comment_between_lists_witness :
  let c1 := mkComment "c1" "first" "alice" "alice" 5 (Some false) in
  let c2 := mkComment "c2" "second" "bob" "bob" 6 None in
  let note := mkRichNote "n1" "text" [c1; c2] None None in
  uniqueCommentIds note /\ In c2 (note_comments note)
  /\ Js.bool_truthy (comment_resolved c2) = false
  /\ List.length (RichNoteCard.unresolvedComments
                    (RichNoteCard.handleToggleComment "c2" note)) + 1
     = List.length (RichNoteCard.unresolvedComments note).
Proof.
  intros c1 c2 note.
  assert (Huniq : uniqueCommentIds note).
  { unfold uniqueCommentIds. simpl. constructor.
    - intros [H|[]]. discriminate.
    - constructor; [intros []|constructor]. }
  assert (Hin : In c2 (note_comments note)) by (right; left; reflexivity).
  split; [exact Huniq|]. split; [exact Hin|]. split; [reflexivity|].
  apply (resolving_moves_one_comment_between_lists
           "c2" note c2 Huniq Hin eq_refl eq_refl).
Defined.

End CommentCounts.

(** Deleting the comment that was just added gives back the note as it
    was, when the identifier drawn for the comment was not in use. *)
Theorem delete_after_add_restores_note
        (blank : string -> bool) (newId : string) (now : R)
        (newComment : string) (u : User) (richNote : RichNote) :
  blank newComment = false ->
  freshCommentId newId richNote ->
  exists added,
    snd (RichNoteCard.handleAddComment blank newId now newComment (Some u)
                                       richNote) = Some added
    /\ List.length (note_comments added)
       = S (List.length (note_comments richNote))
    /\ RichNoteCard.handleDeleteComment newId added = richNote.
Proof.
  intros Hb Hfresh. unfold RichNoteCard.handleAddComment. rewrite Hb.
  eexists. split; [reflexivity|]. split.
  - simpl. rewrite length_app. simpl. apply Nat.add_1_r.
  - unfold RichNoteCard.handleDeleteComment, RichNoteCard.withComments.
    simpl. rewrite filter_app. simpl. rewrite String.eqb_refl. simpl.
    rewrite app_nil_r, delete_keeps_others by exact Hfresh.
    destruct richNote. reflexivity.
Qed.

Lemma delete_after_add_restores_note_witness :
  let alice := mkUser "alice" "alice@example.com" "alice" in
  let c1 := mkComment "c1" "first" "bob" "bob" 5 (Some false) in
  let note := mkRichNote "n1" "text" [c1] None None in
  (fun s => match s with EmptyString => true | _ => false end) "hello" = false
  /\ freshCommentId "c2" note
  /\ exists added,
      snd (RichNoteCard.handleAddComment
             (fun s => match s with EmptyString => true | _ => false end)
             "c2" 7 "hello" (Some alice) note) = Some added
      /\ RichNoteCard.handleDeleteComment "c2" added = note.
Proof.
  intros alice c1 note.
  assert (Hfresh : freshCommentId "c2" note).
  { unfold freshCommentId. simpl. intros [H|[]]. discriminate. }
  split; [reflexivity|]. split; [exact Hfresh|].
  destruct (delete_after_add_restores_note
              (fun s => match s with EmptyString => true | _ => false end)
              "c2" 7 "hello" alice note eq_refl Hfresh)
    as (added & Hadd & _ & Hdel).
  exists added. split; assumption.
Defined.

(** ** Relative time of a comment *)

Lemma floor_bounds (r : R) : IZR (Int_part r) <= r < IZR (Int_part r) + 1.
Proof. destruct (base_Int_part r). lra. Qed.

Lemma dateTime_of_integer (t : Z) :
  Rabs (IZR t) <= 8640000000000000 ->
  RichNoteCard.dateTime (IZR t) = Some t.
Proof.
  intros Hrange. unfold RichNoteCard.dateTime.
  destruct (Rle_dec (Rabs (IZR t)) 8640000000000000); [|contradiction].
  f_equal. destruct (Rle_dec 0 (IZR t)).
  - symmetry. apply Int_part_spec. lra.
  - rewrite <- opp_IZR.
    rewrite <- (Int_part_spec (IZR (- t)) (- t)) by lra. lia.
Qed.

(** [formatTimestamp], for a timestamp that is a valid date: anything less
    than a minute old, or dated in the future, is 'Just now'; the minutes
    shown are between 1 and 59 and the hours between 1 and 23, each the
    number of whole minutes or hours elapsed; from 24 hours on the date is
    shown.  A timestamp that is a whole number of milliseconds within the
    range of dates is a valid date. *)
Theorem formatTimestamp_ranges (now timestamp : R) (time : Z) :
  RichNoteCard.dateTime timestamp = Some time ->
  (now - IZR time < 60000 ->
   RichNoteCard.formatTimestamp now timestamp = RichNoteCard.JustNow)
  /\ (forall m,
        RichNoteCard.formatTimestamp now timestamp
        = RichNoteCard.MinutesAgo m ->
        (1 <= m <= 59)%Z
        /\ IZR m * 60000 <= now - IZR time < (IZR m + 1) * 60000)
  /\ (forall h,
        RichNoteCard.formatTimestamp now timestamp
        = RichNoteCard.HoursAgo h ->
        (1 <= h <= 23)%Z
        /\ IZR h * 3600000 <= now - IZR time < (IZR h + 1) * 3600000)
  /\ (86400000 <= now - IZR time ->
      RichNoteCard.formatTimestamp now timestamp
      = RichNoteCard.LocaleDate timestamp)
  /\ (Rabs (IZR time) <= 8640000000000000 ->
      RichNoteCard.dateTime (IZR time) = Some time).
Proof.
  intros Hdate. unfold RichNoteCard.formatTimestamp. rewrite Hdate.
  set (d := now - IZR time).
  set (m := Int_part (d / (1000 * 60))).
  assert (Hm : IZR m <= d / (1000 * 60) < IZR m + 1) by apply floor_bounds.
  assert (Hd : IZR m * 60000 <= d < (IZR m + 1) * 60000) by lra.
  split; [|split; [|split; [|split; [|apply dateTime_of_integer]]]].
  - intros Hyoung. destruct (Z.ltb_spec m 1) as [_|Hge]; [reflexivity|].
    apply IZR_le in Hge. lra.
  - intros m' Hfmt.
    destruct (Z.ltb_spec m 1) as [|H1]; [discriminate|].
    destruct (Z.ltb_spec m 60) as [H60|]; [|].
    + injection Hfmt as <-. split; [lia|exact Hd].
    + destruct (Z.ltb_spec m 1440); discriminate.
  - intros h Hfmt.
    destruct (Z.ltb_spec m 1) as [|H1]; [discriminate|].
    destruct (Z.ltb_spec m 60) as [|H60]; [discriminate|].
    destruct (Z.ltb_spec m 1440) as [H1440|]; [|discriminate].
    injection Hfmt as <-.
    set (h := Int_part (IZR m / 60)).
    assert (Hh : IZR h <= IZR m / 60 < IZR h + 1) by apply floor_bounds.
    apply IZR_le in H60. apply IZR_lt in H1440.
    assert (Hlow : (0 < h)%Z) by (apply lt_IZR; lra).
    assert (Hhigh : (h < 24)%Z) by (apply lt_IZR; lra).
    assert (Hnext : (m + 1 <= 60 * (h + 1))%Z).
    { assert (Hlt : (m < 60 * (h + 1))%Z).
      { apply lt_IZR. rewrite mult_IZR, plus_IZR. lra. }
      lia. }
    apply IZR_le in Hnext. rewrite plus_IZR, mult_IZR, plus_IZR in Hnext.
    split; [lia|]. lra.
  - intros Hold.
    destruct (Z.ltb_spec m 1) as [H1|_].
    { apply IZR_lt in H1. lra. }
    destruct (Z.ltb_spec m 60) as [H60|_].
    { apply IZR_lt in H60. lra. }
    destruct (Z.ltb_spec m 1440) as [H1440|_]; [|reflexivity].
    assert (Hle : (m + 1 <= 1440)%Z) by lia.
    apply IZR_le in Hle. rewrite plus_IZR in Hle. lra.
Qed.

Lemma formatTimestamp_ranges_witness :
  RichNoteCard.dateTime 990000 = Some 990000%Z
  /\ 1000 - 990000 < 60000
  /\ RichNoteCard.formatTimestamp 1000 990000 = RichNoteCard.JustNow.
Proof.
  assert (Hdate : RichNoteCard.dateTime 990000 = Some 990000%Z).
  { apply (dateTime_of_integer 990000).
    rewrite Rabs_right; lra. }
  assert (H : 1000 - IZR 990000 < 60000) by lra.
  split; [exact Hdate|]. split; [exact H|].
  apply (formatTimestamp_ranges 1000 990000 990000 Hdate). exact H.
Defined.

(** ** Presence avatars *)

Lemma In_firstn_In {A : Type} (n : nat) (l : list A) (a : A) :
  In a (firstn n l) -> In a l.
Proof.
  revert l. induction n as [|n IH]; intros [|b l]; simpl; try tauto.
  intros [->|Hin]; [now left|right; now apply IH].
Qed.

Section Avatars.

Local Open Scope nat_scope.

Variable users : list User.
Variable currentUserId : option string.

(** The presence indicator draws at most five avatars, never one of the
    signed-in user, and the avatars and the number on the "+n" badge
    together account for every other user; the badge is drawn only for a
    positive number; and the count shown as online includes the
    signed-in user. *)
Theorem avatars_and_badge_cover_other_users :
  List.length (UserPresence.avatars users currentUserId) <= 5
  /\ List.length (UserPresence.avatars users currentUserId)
     + match UserPresence.overflowBadge users currentUserId with
       | Some n => n
       | None => 0
       end
     = List.length (UserPresence.otherUsers users currentUserId)
  /\ (forall n, UserPresence.overflowBadge users currentUserId = Some n ->
                0 < n)
  /\ (forall u i, currentUserId = Some i ->
                  In u (UserPresence.avatars users currentUserId) ->
                  user_id u <> i)
  /\ (forall u, In u (UserPresence.otherUsers users currentUserId) ->
                In u users)
  /\ List.length (UserPresence.otherUsers users currentUserId)
     <= UserPresence.onlineCount users.
Proof.
  unfold UserPresence.avatars, UserPresence.overflowBadge,
    UserPresence.onlineCount.
  set (others := UserPresence.otherUsers users currentUserId).
  split; [rewrite length_firstn; lia|].
  split.
  { rewrite length_firstn.
    destruct (Nat.ltb_spec 5 (List.length others)); lia. }
  split.
  { intros n. destruct (Nat.ltb_spec 5 (List.length others));
      [|discriminate].
    intros [= <-]. lia. }
  split.
  { intros u i -> Hin. apply In_firstn_In in Hin.
    unfold others, UserPresence.otherUsers in Hin.
    apply filter_In in Hin. destruct Hin as [_ Hne].
    apply negb_true_iff in Hne. now apply String.eqb_neq. }
  split.
  { intros u Hin. unfold others, UserPresence.otherUsers in Hin.
    apply filter_In in Hin. tauto. }
  apply filter_length_le.
Qed.

End Avatars.

Lemma avatars_and_badge_cover_other_users_witness :
  let mk := fun i => mkUser i "" i in
  let users := [mk "a"; mk "b"; mk "c"; mk "d"; mk "e"; mk "f"; mk "g";
                mk "me"] in
  UserPresence.overflowBadge users (Some "me") = Some 2%nat
  /\ (0 < 2)%nat.
Proof.
  intros mk users. split; [reflexivity|].
  destruct (avatars_and_badge_cover_other_users users (Some "me"))
    as (_ & _ & Hpos & _).
  apply Hpos. reflexivity.
Defined.

(** ** Dragging a shape *)

Lemma boxWidth_with_size (el : WhiteboardElement) (w h : R) :
  boxWidth (with_size el w h) = w /\ boxHeight (with_size el w h) = h.
Proof. unfold boxWidth, boxHeight. rewrite !num_or_zero. split; reflexivity. Qed.

(** While an element is dragged nothing but its box (or, for a freehand
    path, its points) changes.  A rectangle, circle or line is re-sized
    from the pointer alone, so that only the last pointer position of a
    drag counts and the corner opposite the origin is under the pointer;
    every other kind but a path (arrow, text, sticky note, rich note) is
    left exactly as it was. *)
Theorem drag_resizes_only_rectangle_circle_line
        (el : WhiteboardElement) (p q : Point) (path path' : list Point) :
  sameButShape el (Canvas.updateElementWithPoint el p path)
  /\ (In (type el) [TyRectangle; TyCircle; TyLine] ->
      Canvas.updateElementWithPoint
        (Canvas.updateElementWithPoint el q path') p path
      = Canvas.updateElementWithPoint el p path
      /\ x el + boxWidth (Canvas.updateElementWithPoint el p path) = pt_x p
      /\ y el + boxHeight (Canvas.updateElementWithPoint el p path) = pt_y p
      /\ points (Canvas.updateElementWithPoint el p path) = points el)
  /\ (type el = TyPath ->
      points (Canvas.updateElementWithPoint el p path) = Some (path ++ [p])
      /\ width (Canvas.updateElementWithPoint el p path) = width el
      /\ height (Canvas.updateElementWithPoint el p path) = height el)
  /\ (~ In (type el) [TyPath; TyRectangle; TyCircle; TyLine] ->
      Canvas.updateElementWithPoint el p path = el).
Proof.
  split; [|split; [|split]].
  - unfold Canvas.updateElementWithPoint, sameButShape.
    destruct (type el) eqn:Hty; simpl; repeat split; auto.
  - intros Hin.
    assert (Hsize : forall r pa,
               Canvas.updateElementWithPoint el r pa
               = with_size el (pt_x r - x el) (pt_y r - y el)).
    { intros r pa. unfold Canvas.updateElementWithPoint.
      simpl in Hin. destruct Hin as [<-|[<-|[<-|[]]]]; reflexivity. }
    rewrite (Hsize p path), (Hsize q path').
    destruct (boxWidth_with_size el (pt_x p - x el) (pt_y p - y el))
      as [Hw Hh].
    rewrite Hw, Hh.
    split; [|split; [lra|split; [lra|reflexivity]]].
    unfold Canvas.updateElementWithPoint.
    assert (Hty : type (with_size el (pt_x q - x el) (pt_y q - y el))
                  = type el) by reflexivity.
    rewrite Hty. simpl in Hin.
    destruct Hin as [<-|[<-|[<-|[]]]]; reflexivity.
  - intros Hty. unfold Canvas.updateElementWithPoint. rewrite Hty.
    repeat split.
  - intros Hnot. unfold Canvas.updateElementWithPoint.
    destruct (type el); try reflexivity;
      exfalso; apply Hnot; simpl; tauto.
Qed.

Lemma drag_resizes_only_rectangle_circle_line_witness :
  let arrow := Canvas.createNewElement "a1" ToolArrow (mkPoint 10 10)
                                       "#000000" 2 in
  ~ In (type arrow) [TyPath; TyRectangle; TyCircle; TyLine]
  /\ Canvas.updateElementWithPoint arrow (mkPoint 200 90) [mkPoint 10 10]
     = arrow.
Proof.
  intros arrow.
  assert (Hnot : ~ In (type arrow) [TyPath; TyRectangle; TyCircle; TyLine]).
  { simpl. intros [H|[H|[H|[H|[]]]]]; discriminate. }
  split; [exact Hnot|].
  apply (drag_resizes_only_rectangle_circle_line
           arrow (mkPoint 200 90) (mkPoint 0 0) [mkPoint 10 10] []).
  exact Hnot.
Defined.

(** A circle dragged to the left of or above its origin gets a negative
    width or height: the live renderer then calls [arc] with a negative
    radius, and no point is inside the circle, so it cannot be selected. *)
Theorem circle_dragged_backwards_has_negative_radius
        (vp : ViewportState) (el : WhiteboardElement) (p : Point)
        (path : list Point) :
  type el = TyCircle ->
  pt_x p < x el \/ pt_y p < y el ->
  let el' := Canvas.updateElementWithPoint el p path in
  (exists cx cy radius,
      In (Arc cx cy radius 0 (2 * PI)) (Canvas.drawElement vp el')
      /\ radius = Rmin (pt_x p - x el) (pt_y p - y el) / 2
      /\ radius < 0)
  /\ (forall q, Canvas.isPointInElement q el' = false).
Proof.
  intros Hty Hback el'.
  assert (Hel' : el' = with_size el (pt_x p - x el) (pt_y p - y el)).
  { unfold el', Canvas.updateElementWithPoint. now rewrite Hty. }
  assert (Hty' : type el' = TyCircle) by (rewrite Hel'; exact Hty).
  destruct (boxWidth_with_size el (pt_x p - x el) (pt_y p - y el))
    as [Hw Hh].
  rewrite <- Hel' in Hw, Hh.
  assert (Hmin : Rmin (boxWidth el') (boxHeight el') / 2
                 = Rmin (pt_x p - x el) (pt_y p - y el) / 2)
    by (now rewrite Hw, Hh).
  assert (Hneg : Rmin (pt_x p - x el) (pt_y p - y el) / 2 < 0).
  { unfold Rmin. destruct (Rle_dec _ _); lra. }
  split.
  - exists (x el' + boxWidth el' / 2), (y el' + boxHeight el' / 2),
      (Rmin (boxWidth el' / 2) (boxHeight el' / 2)).
    assert (Hhalf : Rmin (boxWidth el' / 2) (boxHeight el' / 2)
                    = Rmin (pt_x p - x el) (pt_y p - y el) / 2).
    { rewrite Hw, Hh. unfold Rmin.
      destruct (Rle_dec _ _), (Rle_dec _ _); lra. }
    split; [|split; [exact Hhalf|rewrite Hhalf; exact Hneg]].
    unfold Canvas.drawElement. rewrite Hty'.
    apply in_or_app. right. apply in_or_app. left.
    right. left. reflexivity.
  - intros q.
    destruct (Canvas.isPointInElement q el') eqn:Hhit; [|reflexivity].
    apply (isPointInElement_circle q el' Hty') in Hhit.
    rewrite Hmin in Hhit.
    pose proof (sqrt_pos ((pt_x q - (x el' + boxWidth el' / 2)) ^ 2
                          + (pt_y q - (y el' + boxHeight el' / 2)) ^ 2)).
    lra.
Qed.

Lemma circle_dragged_backwards_has_negative_radius_witness :
  let circle := Canvas.createNewElement "c1" ToolCircle (mkPoint 50 50)
                                        "#000000" 2 in
  type circle = TyCircle
  /\ (pt_x (mkPoint 30 80) < x circle \/ pt_y (mkPoint 30 80) < y circle)
  /\ Canvas.isPointInElement
       (mkPoint 40 65)
       (Canvas.updateElementWithPoint circle (mkPoint 30 80) [])
     = false.
Proof.
  intros circle.
  assert (Hback : pt_x (mkPoint 30 80) < x circle
                  \/ pt_y (mkPoint 30 80) < y circle)
    by (left; simpl; lra).
  split; [reflexivity|]. split; [exact Hback|].
  apply (circle_dragged_backwards_has_negative_radius
           (mkViewport 0 0 1) circle (mkPoint 30 80) [] eq_refl Hback).
Defined.

(** ** Elements that are never drawn *)

(** The arrow and the rich-note tool create elements of a type that
    neither renderer has a case for: such an element is drawn as nothing
    but the style settings (and, on screen, the selection indicator), a
    drag leaves it as it was created, and no point is inside it. *)
Theorem arrow_and_rich_note_are_never_drawn
        (vp : ViewportState) (el : WhiteboardElement) :
  In (type el) [TyArrow; TyRichNote] ->
  App.exportElement el = styleHeader el
  /\ Canvas.drawElement vp el = styleHeader el ++ selectionIndicator vp el
  /\ (forall p path, Canvas.updateElementWithPoint el p path = el)
  /\ (forall q, Canvas.isPointInElement q el = false)
  /\ (forall newId p c w,
        type (Canvas.createNewElement newId ToolArrow p c w) = TyArrow
        /\ type (Canvas.createNewElement newId ToolRichNote p c w)
           = TyRichNote).
Proof.
  intros Hin.
  assert (Hexp : App.exportElement el = styleHeader el).
  { unfold App.exportElement, styleHeader. simpl in Hin.
    destruct Hin as [<-|[<-|[]]]; reflexivity. }
  split; [exact Hexp|].
  split; [now rewrite drawElement_is_export_then_indicator, Hexp|].
  split.
  { intros p path. unfold Canvas.updateElementWithPoint. simpl in Hin.
    destruct Hin as [<-|[<-|[]]]; reflexivity. }
  split.
  { intros q. unfold Canvas.isPointInElement. simpl in Hin.
    destruct Hin as [<-|[<-|[]]]; reflexivity. }
  intros newId p c w. split; reflexivity.
Qed.

Lemma arrow_and_rich_note_are_never_drawn_witness :
  let arrow := Canvas.createNewElement "a1" ToolArrow (mkPoint 10 10)
                                       "#EF4444" 4 in
  In (type arrow) [TyArrow; TyRichNote]
  /\ App.exportElement arrow
     = [ SetStrokeStyle "#EF4444"; SetLineWidth 4; SetLineCap "round";
         SetLineJoin "round" ].
Proof.
  intros arrow.
  assert (Hin : In (type arrow) [TyArrow; TyRichNote])
    by (left; reflexivity).
  split; [exact Hin|].
  apply (arrow_and_rich_note_are_never_drawn (mkViewport 0 0 1) arrow Hin).
Defined.

(** ** A new sticky note *)

Lemma num_or_hundred : Js.num_or (Some 100) 100 = 100.
Proof. simpl. destruct (Req_dec_T 100 0); lra. Qed.

(** The sticky note created by a pointer-down at [p] is drawn as the
    100 x 100 square with corner [p], and the points inside it for the
    select tool are exactly the points of that square: what is drawn is
    what can be clicked. *)
Theorem new_sticky_note_is_hit_where_drawn
        (vp : ViewportState) (newId : string) (p q : Point) (c : string)
        (w : R) :
  let note := Canvas.createNewElement newId ToolStickyNote p c w in
  In (FillRect (pt_x p) (pt_y p) 100 100) (Canvas.drawElement vp note)
  /\ In (StrokeRect (pt_x p) (pt_y p) 100 100) (Canvas.drawElement vp note)
  /\ (Canvas.isPointInElement q note = true
      <-> pt_x p <= pt_x q <= pt_x p + 100
          /\ pt_y p <= pt_y q <= pt_y p + 100)
  /\ Canvas.isPointInElement p note = true.
Proof.
  intros note.
  assert (Hbox : forall r,
             Canvas.isPointInElement r note = true
             <-> pt_x p <= pt_x r <= pt_x p + 100
                 /\ pt_y p <= pt_y r <= pt_y p + 100).
  { intros r.
    rewrite (isPointInElement_box r note) by (right; reflexivity).
    unfold boxWidth, boxHeight. rewrite !num_or_zero. simpl. tauto. }
  split; [|split; [|split; [apply Hbox|apply Hbox; lra]]].
  - unfold Canvas.drawElement. cbn [type note Canvas.createNewElement].
    apply in_or_app. right. apply in_or_app. left.
    cbn [width height x y note Canvas.createNewElement].
    rewrite num_or_hundred. apply in_or_app. left. right. left. reflexivity.
  - unfold Canvas.drawElement. cbn [type note Canvas.createNewElement].
    apply in_or_app. right. apply in_or_app. left.
    cbn [width height x y note Canvas.createNewElement].
    rewrite num_or_hundred. apply in_or_app. left. right. right. left.
    reflexivity.
Qed.

(** ** Zooming at the limits *)

Lemma clamp_at_top (z : R) : z = 5 -> Rmax 0.1 (Rmin 5 (z * 1.1)) = z.
Proof.
  intros ->. unfold Rmax, Rmin.
  destruct (Rle_dec 5 (5 * 1.1)); destruct (Rle_dec 0.1 _); lra.
Qed.

Lemma clamp_at_bottom (z : R) : z = 0.1 -> Rmax 0.1 (Rmin 5 (z * 0.9)) = z.
Proof.
  intros ->. unfold Rmax, Rmin.
  destruct (Rle_dec 5 (0.1 * 0.9)); destruct (Rle_dec 0.1 _); lra.
Qed.

(** At the largest zoom, 5, neither a zoom-in wheel event nor the zoom-in
    button changes the viewport at all; at the smallest, 0.1, neither a
    zoom-out wheel event nor the zoom-out button does. *)
Theorem zoom_at_limit_changes_nothing
        (rect : option Canvas.DOMRect) (e : Canvas.WheelEvent)
        (s : App.State) :
  (zoom (App.viewport s) = 5 ->
   App.handleZoomIn s = s
   /\ (Canvas.deltaY e <= 0 ->
       Canvas.afterWheel (App.viewport s) (rect, e) = App.viewport s))
  /\ (zoom (App.viewport s) = 0.1 ->
      App.handleZoomOut s = s
      /\ (0 < Canvas.deltaY e ->
          Canvas.afterWheel (App.viewport s) (rect, e) = App.viewport s)).
Proof.
  destruct s as [els tool c sw [vx vy z] h i].
  unfold App.handleZoomIn, App.handleZoomOut, Canvas.afterWheel,
    Canvas.handleWheel, Canvas.newZoomOf, App.setViewport.
  cbn [App.viewport App.elements App.activeTool App.strokeColor
       App.strokeWidth App.history App.historyIndex zoom vp_x vp_y fst snd].
  split; intros Hz.
  - split.
    + f_equal. f_equal. subst z. unfold Rmin.
      destruct (Rle_dec 5 (5 * 1.2)); lra.
    + intros Hd. apply gtb_false in Hd. rewrite Hd.
      destruct rect as [r|]; [|reflexivity].
      rewrite (clamp_at_top z Hz). f_equal; subst z; field; lra.
  - split.
    + f_equal. f_equal. subst z. unfold Rmax.
      destruct (Rle_dec 0.1 (0.1 * 0.8)); lra.
    + intros Hd. apply gtb_true in Hd. rewrite Hd.
      destruct rect as [r|]; [|reflexivity].
      rewrite (clamp_at_bottom z Hz). f_equal; subst z; field; lra.
Qed.

Lemma zoom_at_limit_changes_nothing_witness :
  let s := App.setViewport (mkViewport 12 (-7) 5) App.initialState in
  zoom (App.viewport s) = 5
  /\ App.handleZoomIn s = s
  /\ Canvas.afterWheel (App.viewport s)
                       (Some (Canvas.mkRect 0 0),
                        Canvas.mkWheelEvent (-100) 300 200)
     = App.viewport s.
Proof.
  intros s.
  destruct (zoom_at_limit_changes_nothing
              (Some (Canvas.mkRect 0 0)) (Canvas.mkWheelEvent (-100) 300 200)
              s) as [Htop _].
  destruct (Htop eq_refl) as [Hbutton Hwheel].
  split; [reflexivity|]. split; [exact Hbutton|].
  apply Hwheel. simpl. lra.
Defined.

(** ** Pointer moves *)

Lemma setCanvas_same (w : System.State) :
  System.setCanvas (System.canvas w) w = w.
Proof. destruct w. reflexivity. Qed.

Section PointerMoves.

Variable rect : option Canvas.DOMRect.
Variable now : R.
Variable e : Canvas.MouseEvent.
Variable w : System.State.

Let cursorMessage : option Collaboration.Publication :=
  Collaboration.broadcastCursor
    (System.currentUser w) (System.userColor w) now
    (pt_x (worldPoint rect w e)) (pt_y (worldPoint rect w e)).

Lemma mouseMove_while_panning :
  Canvas.isPanning (System.canvas w) = true ->
  System.mouseMove rect now e w
  = System.setApp
      (App.setViewport
         (mkViewport
            (vp_x (App.viewport (System.app w))
             + (Canvas.clientX e
                - pt_x (Canvas.lastPanPoint (System.canvas w))))
            (vp_y (App.viewport (System.app w))
             + (Canvas.clientY e
                - pt_y (Canvas.lastPanPoint (System.canvas w))))
            (zoom (App.viewport (System.app w))))
         (System.app w))
      (System.publish
         cursorMessage
         (System.setCanvas
            (Canvas.mkState (Canvas.drawingState (System.canvas w)) true
                            (clientPoint e))
            w)).
Proof.
  intros Hpan. unfold System.mouseMove, Canvas.handleMouseMove.
  rewrite Hpan. unfold System.run, cursorMessage, worldPoint.
  cbn [fst snd fold_left System.dispatch].
  destruct (Collaboration.broadcastCursor _ _ _ _ _); reflexivity.
Qed.

Lemma mouseMove_while_drawing (cur : WhiteboardElement) :
  Canvas.isPanning (System.canvas w) = false ->
  isDrawing (Canvas.drawingState (System.canvas w)) = true ->
  currentElement (Canvas.drawingState (System.canvas w)) = Some cur ->
  System.mouseMove rect now e w
  = System.publish
      cursorMessage
      (System.setCanvas
         (Canvas.mkState
            (mkDrawingState
               true
               (match App.activeTool (System.app w) with
                | ToolPen =>
                    currentPath (Canvas.drawingState (System.canvas w))
                    ++ [worldPoint rect w e]
                | _ => currentPath (Canvas.drawingState (System.canvas w))
                end)
               (Some (Canvas.updateElementWithPoint
                        cur (worldPoint rect w e)
                        (currentPath
                           (Canvas.drawingState (System.canvas w))))))
            false (Canvas.lastPanPoint (System.canvas w)))
         w).
Proof.
  intros Hpan Hdraw Hcur. unfold System.mouseMove, Canvas.handleMouseMove.
  rewrite Hpan, Hdraw, Hcur. unfold System.run, cursorMessage, worldPoint.
  cbn [fst snd fold_left System.dispatch]. rewrite ?Hpan, ?Hdraw.
  reflexivity.
Qed.

Lemma mouseMove_while_idle :
  Canvas.isPanning (System.canvas w) = false ->
  isDrawing (Canvas.drawingState (System.canvas w)) = false
  \/ currentElement (Canvas.drawingState (System.canvas w)) = None ->
  System.mouseMove rect now e w = System.publish cursorMessage w.
Proof.
  intros Hpan Hidle. unfold System.mouseMove, Canvas.handleMouseMove.
  rewrite Hpan. unfold System.run, cursorMessage, worldPoint.
  destruct (isDrawing (Canvas.drawingState (System.canvas w))) eqn:Hd;
    destruct (currentElement (Canvas.drawingState (System.canvas w)))
      eqn:Hc;
    try (cbn [fst snd fold_left System.dispatch];
         now rewrite setCanvas_same).
  destruct Hidle; discriminate.
Qed.

End PointerMoves.

Lemma published_after_publish
      (m : option Collaboration.Publication) (w : System.State) :
  System.published (System.publish m w)
  = System.published w ++ match m with Some p => [p] | None => [] end.
Proof. destruct m; simpl; [reflexivity|now rewrite app_nil_r]. Qed.

Lemma setViewport_same (a : App.State) : App.setViewport (App.viewport a) a = a.
Proof. destruct a. reflexivity. Qed.

Lemma setApp_same (w : System.State) : System.setApp (System.app w) w = w.
Proof. destruct w. reflexivity. Qed.

Lemma setApp_after_publish
      (m : option Collaboration.Publication) (cs : Canvas.State)
      (w : System.State) :
  System.setApp (System.app w) (System.publish m (System.setCanvas cs w))
  = System.publish m (System.setCanvas cs w).
Proof. destruct m, w; reflexivity. Qed.

(** Whatever the canvas is doing, a pointer move makes one
    [broadcastCursor] call with the world point under the pointer, may
    change the canvas's own state, and changes of the application state at
    most the viewport's offsets. *)
Lemma mouseMove_shape
      (rect : option Canvas.DOMRect) (now : R) (e : Canvas.MouseEvent)
      (w : System.State) :
  exists cs vp,
    System.mouseMove rect now e w
    = System.setApp
        (App.setViewport vp (System.app w))
        (System.publish
           (Collaboration.broadcastCursor
              (System.currentUser w) (System.userColor w) now
              (pt_x (worldPoint rect w e)) (pt_y (worldPoint rect w e)))
           (System.setCanvas cs w))
    /\ zoom vp = zoom (App.viewport (System.app w))
    /\ (Canvas.isPanning (System.canvas w) = false ->
        vp = App.viewport (System.app w)).
Proof.
  destruct (Canvas.isPanning (System.canvas w)) eqn:Hpan.
  - eexists. eexists. split; [now apply mouseMove_while_panning|].
    split; [reflexivity|discriminate].
  - destruct (isDrawing (Canvas.drawingState (System.canvas w))) eqn:Hd.
    + destruct (currentElement (Canvas.drawingState (System.canvas w)))
        as [cur|] eqn:Hc.
      * eexists. exists (App.viewport (System.app w)).
        rewrite (mouseMove_while_drawing rect now e w cur Hpan Hd Hc).
        rewrite setViewport_same, setApp_after_publish.
        split; [|split]; reflexivity.
      * exists (System.canvas w), (App.viewport (System.app w)).
        rewrite (mouseMove_while_idle rect now e w Hpan (or_intror Hc)).
        rewrite setViewport_same, setApp_after_publish, setCanvas_same.
        split; [|split]; reflexivity.
    + exists (System.canvas w), (App.viewport (System.app w)).
      rewrite (mouseMove_while_idle rect now e w Hpan (or_introl Hd)).
      rewrite setViewport_same, setApp_after_publish, setCanvas_same.
      split; [|split]; reflexivity.
Qed.

(** Every pointer move over the canvas, whether it pans, draws or does
    neither, publishes exactly one cursor-move while a user is signed in:
    it carries the world point under the pointer, the user's id, display
    name and colour.  Nothing is published while nobody is signed in.  A
    move never changes the elements, the history or the zoom. *)
Theorem pointer_move_publishes_one_cursor
        (rect : option Canvas.DOMRect) (now : R) (e : Canvas.MouseEvent)
        (w : System.State) :
  let w' := System.mouseMove rect now e w in
  App.elements (System.app w') = App.elements (System.app w)
  /\ App.history (System.app w') = App.history (System.app w)
  /\ App.historyIndex (System.app w') = App.historyIndex (System.app w)
  /\ zoom (App.viewport (System.app w'))
     = zoom (App.viewport (System.app w))
  /\ (System.currentUser w = None ->
      System.published w' = System.published w)
  /\ (forall u,
        System.currentUser w = Some u ->
        System.published w'
        = System.published w
          ++ [Collaboration.mkPublication
                Collaboration.CHANNEL_NAME "cursor-move"
                (Collaboration.mkData (pt_x (worldPoint rect w e))
                                      (pt_y (worldPoint rect w e)) [] now)
                (user_id u)
                (Collaboration.mkMetadata (Some (displayName u))
                                          (Some (System.userColor w)))]).
Proof.
  intros w'. unfold w'.
  destruct (mouseMove_shape rect now e w) as (cs & vp & Heq & Hzoom & _).
  rewrite Heq. cbn [System.app System.setApp System.published].
  split; [reflexivity|]. split; [reflexivity|]. split; [reflexivity|].
  split; [exact Hzoom|].
  rewrite published_after_publish. split.
  - intros ->. simpl. apply app_nil_r.
  - intros u ->. reflexivity.
Qed.

Lemma pointer_move_publishes_one_cursor_witness :
  let alice := mkUser "alice" "alice@example.com" "alice" in
  let w := System.startAs (Some alice) "#FF6B6B" in
  let e := Canvas.mkMouseEvent 40 30 in
  System.currentUser w = Some alice
  /\ List.length
       (System.published (System.mouseMove (Some (Canvas.mkRect 0 0)) 9 e w))
     = 1%nat.
Proof.
  intros alice w e. split; [reflexivity|].
  destruct (pointer_move_publishes_one_cursor
              (Some (Canvas.mkRect 0 0)) 9 e w)
    as (_ & _ & _ & _ & _ & Hpub).
  rewrite (Hpub alice eq_refl). reflexivity.
Defined.

(** ** Freehand drawing *)

Section Freehand.

Variable rect : option Canvas.DOMRect.

Lemma worldPoint_same_app (w w' : System.State) (e : Canvas.MouseEvent) :
  System.app w' = System.app w -> worldPoint rect w' e = worldPoint rect w e.
Proof. unfold worldPoint. now intros ->. Qed.

Lemma with_points_own (el : WhiteboardElement) (ps : list Point) :
  points el = Some ps -> with_points el ps = el.
Proof. destruct el. simpl. now intros ->. Qed.

Lemma pen_moves (es : list (R * Canvas.MouseEvent)) :
  forall (w : System.State) (path : list Point) (cur : WhiteboardElement),
    App.activeTool (System.app w) = ToolPen ->
    Canvas.isPanning (System.canvas w) = false ->
    Canvas.drawingState (System.canvas w)
    = mkDrawingState true path (Some cur) ->
    type cur = TyPath ->
    points cur = Some path ->
    exists w',
      System.runEvents w (moveEvents rect es) = Some w'
      /\ System.app w' = System.app w
      /\ Canvas.isPanning (System.canvas w') = false
      /\ Canvas.drawingState (System.canvas w')
         = mkDrawingState
             true
             (path ++ map (fun ne => worldPoint rect w (snd ne)) es)
             (Some (with_points
                      cur
                      (path ++ map (fun ne => worldPoint rect w (snd ne))
                                   es))).
Proof.
  induction es as [|[now e] rest IH]; intros w path cur Htool Hpan Hds Hty Hpts.
  - exists w. simpl. rewrite app_nil_r, (with_points_own cur path Hpts).
    auto.
  - simpl moveEvents. cbn [System.runEvents System.step fst snd].
    assert (Hd : isDrawing (Canvas.drawingState (System.canvas w)) = true)
      by (now rewrite Hds).
    assert (Hc : currentElement (Canvas.drawingState (System.canvas w))
                 = Some cur) by (now rewrite Hds).
    pose proof (mouseMove_while_drawing rect now e w cur Hpan Hd Hc) as Hmove.
    rewrite Htool, Hds in Hmove. cbn [currentPath] in Hmove.
    set (w1 := System.mouseMove rect now e w) in *.
    assert (Happ1 : System.app w1 = System.app w).
    { rewrite Hmove. now rewrite (proj1 (publish_keeps_app_and_canvas _ _)). }
    assert (Hcanvas1 :
              System.canvas w1
              = Canvas.mkState
                  (mkDrawingState
                     true (path ++ [worldPoint rect w e])
                     (Some (Canvas.updateElementWithPoint
                              cur (worldPoint rect w e) path)))
                  false (Canvas.lastPanPoint (System.canvas w))).
    { rewrite Hmove. now rewrite (proj2 (publish_keeps_app_and_canvas _ _)). }
    assert (Hupd : Canvas.updateElementWithPoint cur (worldPoint rect w e) path
                   = with_points cur (path ++ [worldPoint rect w e])).
    { unfold Canvas.updateElementWithPoint. now rewrite Hty. }
    destruct (IH w1 (path ++ [worldPoint rect w e])
                 (with_points cur (path ++ [worldPoint rect w e])))
      as (w' & Hrun & Happ & Hpan' & Hds').
    + now rewrite Happ1.
    + now rewrite Hcanvas1.
    + rewrite Hcanvas1, Hupd. reflexivity.
    + exact Hty.
    + reflexivity.
    + exists w'. split; [exact Hrun|]. split; [congruence|].
      split; [exact Hpan'|]. rewrite Hds'.
      assert (Hmap : map (fun ne => worldPoint rect w1 (snd ne)) rest
                     = map (fun ne => worldPoint rect w (snd ne)) rest).
      { apply map_ext. intros ne. now apply worldPoint_same_app. }
      rewrite Hmap. cbn [map snd]. rewrite <- !app_assoc. reflexivity.
Qed.

(** A stroke of the pen.  After a pointer-down with the pen and any number
    of pointer moves, nothing has been stored yet, and the element being
    drawn is a path whose points are the world points of the pointer-down
    and of every move, in order; the pointer-up then appends exactly that
    path to the stored elements. *)
Theorem freehand_path_collects_pointer_positions
        (newId : string) (now0 now1 : R) (e0 : Canvas.MouseEvent)
        (es : list (R * Canvas.MouseEvent)) (w : System.State) :
  App.activeTool (System.app w) = ToolPen ->
  Canvas.isPanning (System.canvas w) = false ->
  let visited := worldPoint rect w e0
                 :: map (fun ne => worldPoint rect w (snd ne)) es in
  let stroke := with_points
                  (Canvas.createNewElement
                     newId ToolPen (worldPoint rect w e0)
                     (App.strokeColor (System.app w))
                     (App.strokeWidth (System.app w)))
                  visited in
  exists w',
    System.runEvents w (System.MouseDown newId rect now0 e0
                        :: moveEvents rect es) = Some w'
    /\ System.app w' = System.app w
    /\ Canvas.drawingState (System.canvas w')
       = mkDrawingState true visited (Some stroke)
    /\ type stroke = TyPath /\ id stroke = newId
    /\ points stroke = Some visited
    /\ App.elements (System.app (System.mouseUp now1 w'))
       = App.elements (System.app w) ++ [stroke].
Proof.
  intros Htool Hpan visited stroke.
  cbn [System.runEvents System.step].
  rewrite (mouseDown_starts_drawing now0 newId rect e0 w)
    by (rewrite Htool; discriminate).
  rewrite Htool.
  set (w0 := System.setCanvas _ w).
  destruct (pen_moves es w0 [worldPoint rect w e0]
                      (Canvas.createNewElement
                         newId ToolPen (worldPoint rect w e0)
                         (App.strokeColor (System.app w))
                         (App.strokeWidth (System.app w))))
    as (w' & Hrun & Happ & Hpan' & Hds); try reflexivity; try assumption.
  exists w'. split; [exact Hrun|]. split; [exact Happ|].
  split; [exact Hds|]. split; [reflexivity|]. split; [reflexivity|].
  split; [reflexivity|].
  rewrite (mouseUp_commits now1 w' stroke Hpan').
  - rewrite (proj1 (publish_keeps_app_and_canvas _ _)).
    cbn [System.app System.setApp]. rewrite Happ. reflexivity.
  - now rewrite Hds.
  - now rewrite Hds.
Qed.

End Freehand.

Lemma freehand_path_collects_pointer_positions_witness :
  let rect := Some (Canvas.mkRect 0 0) in
  let w := System.startAs None "" in
  let stroke :=
    mkElement "p1" TyPath ((5 - 0 - 0) / 1) ((6 - 0 - 0) / 1) None None
              (Some [mkPoint ((5 - 0 - 0) / 1) ((6 - 0 - 0) / 1);
                     mkPoint ((7 - 0 - 0) / 1) ((8 - 0 - 0) / 1)])
              None "#000000" 2 None None None in
  App.activeTool (System.app w) = ToolPen
  /\ Canvas.isPanning (System.canvas w) = false
  /\ exists w',
      System.runEvents
        w [System.MouseDown "p1" rect 0 (Canvas.mkMouseEvent 5 6);
           System.MouseMove rect 1 (Canvas.mkMouseEvent 7 8)] = Some w'
      /\ App.elements (System.app (System.mouseUp 2 w')) = [stroke].
Proof.
  intros rect w stroke.
  split; [reflexivity|]. split; [reflexivity|].
  destruct (freehand_path_collects_pointer_positions
              rect "p1" 0 2 (Canvas.mkMouseEvent 5 6)
              [(1, Canvas.mkMouseEvent 7 8)] w eq_refl eq_refl)
    as (w' & Hrun & _ & _ & _ & _ & _ & Hup).
  exists w'. split; [exact Hrun|]. exact Hup.
Defined.

(** ** Panning *)

Section Panning.

Variable rect : option Canvas.DOMRect.

Lemma last_default_irrelevant {A : Type} (l : list A) (a d d' : A) :
  last (a :: l) d = last (a :: l) d'.
Proof.
  revert a. induction l as [|b rest IH]; intros a; [reflexivity|].
  change (last (b :: rest) d = last (b :: rest) d'). apply IH.
Qed.

Lemma last_cons_default {A : Type} (l : list A) (a d : A) :
  last (a :: l) d = last l a.
Proof.
  destruct l as [|b rest]; [reflexivity|].
  change (last (b :: rest) d = last (b :: rest) a).
  apply last_default_irrelevant.
Qed.

Lemma pan_moves (es : list (R * Canvas.MouseEvent)) :
  forall w : System.State,
    Canvas.isPanning (System.canvas w) = true ->
    exists w',
      System.runEvents w (moveEvents rect es) = Some w'
      /\ Canvas.isPanning (System.canvas w') = true
      /\ Canvas.drawingState (System.canvas w')
         = Canvas.drawingState (System.canvas w)
      /\ Canvas.lastPanPoint (System.canvas w')
         = last (map (fun ne => clientPoint (snd ne)) es)
                (Canvas.lastPanPoint (System.canvas w))
      /\ App.elements (System.app w') = App.elements (System.app w)
      /\ App.history (System.app w') = App.history (System.app w)
      /\ App.historyIndex (System.app w') = App.historyIndex (System.app w)
      /\ zoom (App.viewport (System.app w'))
         = zoom (App.viewport (System.app w))
      /\ vp_x (App.viewport (System.app w'))
         = vp_x (App.viewport (System.app w))
           + (pt_x (Canvas.lastPanPoint (System.canvas w'))
              - pt_x (Canvas.lastPanPoint (System.canvas w)))
      /\ vp_y (App.viewport (System.app w'))
         = vp_y (App.viewport (System.app w))
           + (pt_y (Canvas.lastPanPoint (System.canvas w'))
              - pt_y (Canvas.lastPanPoint (System.canvas w))).
Proof.
  induction es as [|[now e] rest IH]; intros w Hpan.
  - exists w. simpl. repeat split; auto; lra.
  - simpl moveEvents. cbn [System.runEvents System.step fst snd].
    pose proof (mouseMove_while_panning rect now e w Hpan) as Hmove.
    set (w1 := System.mouseMove rect now e w) in *.
    assert (Hcanvas1 :
              System.canvas w1
              = Canvas.mkState (Canvas.drawingState (System.canvas w)) true
                               (clientPoint e)).
    { rewrite Hmove. cbn [System.canvas System.setApp].
      now rewrite (proj2 (publish_keeps_app_and_canvas _ _)). }
    assert (Happ1 :
              System.app w1
              = App.setViewport
                  (mkViewport
                     (vp_x (App.viewport (System.app w))
                      + (Canvas.clientX e
                         - pt_x (Canvas.lastPanPoint (System.canvas w))))
                     (vp_y (App.viewport (System.app w))
                      + (Canvas.clientY e
                         - pt_y (Canvas.lastPanPoint (System.canvas w))))
                     (zoom (App.viewport (System.app w))))
                  (System.app w)).
    { rewrite Hmove. reflexivity. }
    destruct (IH w1) as (w' & Hrun & Hpan' & Hds & Hlast & Hel & Hh & Hi
                         & Hz & Hx & Hy).
    { now rewrite Hcanvas1. }
    rewrite Hcanvas1 in Hds, Hlast, Hx, Hy.
    rewrite Happ1 in Hel, Hh, Hi, Hz, Hx, Hy.
    cbn [Canvas.drawingState Canvas.lastPanPoint] in Hds, Hlast, Hx, Hy.
    cbn [App.setViewport App.viewport App.elements App.history
         App.historyIndex zoom vp_x vp_y] in Hel, Hh, Hi, Hz, Hx, Hy.
    exists w'. split; [exact Hrun|]. split; [exact Hpan'|].
    split; [exact Hds|].
    split.
    { rewrite Hlast. cbn [map snd]. now rewrite last_cons_default. }
    split; [exact Hel|]. split; [exact Hh|]. split; [exact Hi|].
    split; [exact Hz|].
    unfold clientPoint in Hx, Hy. cbn [pt_x pt_y] in Hx, Hy.
    split; lra.
Qed.

(** Dragging the board.  While panning, after any number of pointer moves
    the viewport's offset has moved by exactly the displacement of the
    pointer since the pan was anchored, however the pointer got there; the
    zoom, the elements and the history are untouched; and the world point
    that was under the pointer at the anchor is under the pointer now. *)
Theorem pan_follows_the_pointer
        (es : list (R * Canvas.MouseEvent)) (w : System.State) :
  Canvas.isPanning (System.canvas w) = true ->
  let anchor := Canvas.lastPanPoint (System.canvas w) in
  let pointer := last (map (fun ne => clientPoint (snd ne)) es) anchor in
  exists w',
    System.runEvents w (moveEvents rect es) = Some w'
    /\ vp_x (App.viewport (System.app w'))
       = vp_x (App.viewport (System.app w)) + (pt_x pointer - pt_x anchor)
    /\ vp_y (App.viewport (System.app w'))
       = vp_y (App.viewport (System.app w)) + (pt_y pointer - pt_y anchor)
    /\ zoom (App.viewport (System.app w'))
       = zoom (App.viewport (System.app w))
    /\ App.elements (System.app w') = App.elements (System.app w)
    /\ App.history (System.app w') = App.history (System.app w)
    /\ App.historyIndex (System.app w') = App.historyIndex (System.app w)
    /\ Canvas.isPanning (System.canvas w') = true
    /\ Canvas.screenToCanvas rect (App.viewport (System.app w'))
                             (pt_x pointer) (pt_y pointer)
       = Canvas.screenToCanvas rect (App.viewport (System.app w))
                               (pt_x anchor) (pt_y anchor).
Proof.
  intros Hpan anchor pointer.
  destruct (pan_moves es w Hpan)
    as (w' & Hrun & Hpan' & _ & Hlast & Hel & Hh & Hi & Hz & Hx & Hy).
  fold anchor in Hlast, Hx, Hy. fold pointer in Hlast.
  rewrite Hlast in Hx, Hy.
  exists w'. repeat (split; [assumption|]).
  unfold Canvas.screenToCanvas. destruct rect as [r|]; [|reflexivity].
  rewrite Hx, Hy, Hz. f_equal; f_equal; ring.
Qed.

End Panning.

Lemma pan_follows_the_pointer_witness :
  let rect := Some (Canvas.mkRect 0 0) in
  let w := System.mouseDown
             "n" rect 0 (Canvas.mkMouseEvent 100 100)
             (System.setApp (App.setActiveTool ToolSelect App.initialState)
                            (System.startAs None "")) in
  Canvas.isPanning (System.canvas w) = true
  /\ exists w',
      System.runEvents
        w (moveEvents rect [(1, Canvas.mkMouseEvent 130 90);
                            (2, Canvas.mkMouseEvent 160 140)]) = Some w'
      /\ vp_x (App.viewport (System.app w')) = 0 + (160 - 100)
      /\ vp_y (App.viewport (System.app w')) = 0 + (140 - 100).
Proof.
  intros rect w.
  split; [reflexivity|].
  destruct (pan_follows_the_pointer
              rect [(1, Canvas.mkMouseEvent 130 90);
                    (2, Canvas.mkMouseEvent 160 140)] w eq_refl)
    as (w' & Hrun & Hx & Hy & _).
  exists w'. split; [exact Hrun|]. split; [exact Hx|exact Hy].
Defined.

(** ** Clicks *)

Lemma mouseDown_select_shape
      (newId : string) (rect : option Canvas.DOMRect) (now : R)
      (e : Canvas.MouseEvent) (w : System.State) :
  App.activeTool (System.app w) = ToolSelect ->
  exists updated cs,
    System.mouseDown newId rect now e w
    = System.setApp (App.handleElementsChange updated (System.app w))
                    (System.setCanvas cs w)
    /\ Canvas.drawingState cs = Canvas.drawingState (System.canvas w)
    /\ List.length updated = List.length (App.elements (System.app w)).
Proof.
  intros Htool. unfold System.mouseDown, Canvas.handleMouseDown.
  cbn [Canvas.activeTool Canvas.elements Canvas.viewport App.canvasProps].
  rewrite Htool.
  destruct (find _ (App.elements (System.app w))) as [clicked|].
  - eexists. exists (System.canvas w). split; [reflexivity|].
    split; [reflexivity|apply length_map].
  - eexists. eexists. split; [reflexivity|].
    split; [reflexivity|apply length_map].
Qed.

(** A pointer-down with the select tool, whether it hits an element or
    not, is recorded as a history entry of its own and is not broadcast:
    it can be undone, the undo displays the snapshot that was under the
    index before the click (the collection as it was before the click,
    when that was this snapshot), and it wipes whatever could be
    redone. *)
Theorem select_click_is_an_undo_step
        (newId : string) (rect : option Canvas.DOMRect) (now : R)
        (e : Canvas.MouseEvent) (w : System.State) :
  App.activeTool (System.app w) = ToolSelect ->
  indexInRange (System.app w) ->
  let w' := System.mouseDown newId rect now e w in
  System.published w' = System.published w
  /\ App.historyIndex (System.app w')
     = (App.historyIndex (System.app w) + 1)%nat
  /\ App.canUndo (System.app w') = true
  /\ App.canRedo (System.app w') = false
  /\ inSync (System.app w')
  /\ (exists a snapshot,
        nth_error (App.history (System.app w))
                  (App.historyIndex (System.app w)) = Some snapshot
        /\ App.handleUndo (System.app w') = Some a
        /\ App.elements a = snapshot)
  /\ (inSync (System.app w) ->
      exists a,
        App.handleUndo (System.app w') = Some a
        /\ App.elements a = App.elements (System.app w)).
Proof.
  intros Htool Hwf w'. unfold w'.
  destruct (mouseDown_select_shape newId rect now e w Htool)
    as (updated & cs & Heq & _ & _).
  rewrite Heq. cbn [System.app System.setApp System.published].
  split; [reflexivity|].
  split; [now apply record_index_succ|].
  split; [apply canUndo_true; rewrite record_index_succ by assumption; lia|].
  split; [apply canRedo_false; rewrite record_index_last; lia|].
  split; [apply record_in_sync|].
  split.
  - destruct (nth_error (App.history (System.app w))
                        (App.historyIndex (System.app w)))
      as [snapshot|] eqn:Hnth.
    2:{ apply nth_error_None in Hnth. unfold indexInRange in Hwf. lia. }
    destruct (undo_after_commit updated snapshot (System.app w) Hnth)
      as (a & Ha & Hel & _).
    exists a, snapshot. split; [reflexivity|]. split; assumption.
  - intros Hsync.
    destruct (undo_after_commit updated (App.elements (System.app w))
                                (System.app w) Hsync)
      as (a & Ha & Hel & _).
    exists a. split; assumption.
Qed.

Lemma select_click_is_an_undo_step_witness :
  let w := System.setApp
             (App.setActiveTool ToolSelect
                (App.handleElementsChange [sampleRectangle] App.initialState))
             (System.startAs None "") in
  let w' := System.mouseDown "n" (Some (Canvas.mkRect 0 0)) 0
                             (Canvas.mkMouseEvent 500 500) w in
  App.activeTool (System.app w) = ToolSelect
  /\ indexInRange (System.app w) /\ inSync (System.app w)
  /\ App.historyIndex (System.app w') = 2%nat
  /\ exists a,
      App.handleUndo (System.app w') = Some a
      /\ App.elements a = [sampleRectangle].
Proof.
  intros w w'.
  assert (Hwf : indexInRange (System.app w))
    by (unfold indexInRange; simpl; lia).
  assert (Hsync : inSync (System.app w)) by reflexivity.
  destruct (select_click_is_an_undo_step
              "n" (Some (Canvas.mkRect 0 0)) 0 (Canvas.mkMouseEvent 500 500)
              w eq_refl Hwf)
    as (_ & Hidx & _ & _ & _ & _ & Hundo).
  split; [reflexivity|]. split; [exact Hwf|]. split; [exact Hsync|].
  split; [exact Hidx|exact (Hundo Hsync)].
Defined.

(** A click without a drag.  With any drawing tool, a pointer-down
    followed at once by a pointer-up stores the element exactly as
    [createNewElement] made it.  For the pen that is a path of a single
    point, which neither renderer draws and which no click can select. *)
Theorem click_without_drag_stores_the_new_element
        (newId : string) (rect : option Canvas.DOMRect) (now0 now1 : R)
        (e : Canvas.MouseEvent) (w : System.State) :
  App.activeTool (System.app w) <> ToolSelect ->
  Canvas.isPanning (System.canvas w) = false ->
  let created := Canvas.createNewElement
                   newId (App.activeTool (System.app w))
                   (worldPoint rect w e)
                   (App.strokeColor (System.app w))
                   (App.strokeWidth (System.app w)) in
  let w' := System.mouseUp now1 (System.mouseDown newId rect now0 e w) in
  App.elements (System.app w') = App.elements (System.app w) ++ [created]
  /\ Canvas.drawingState (System.canvas w') = mkDrawingState false [] None
  /\ (App.activeTool (System.app w) = ToolPen ->
      points created = Some [worldPoint rect w e]
      /\ App.exportElement created = styleHeader created
      /\ (forall vp, Canvas.drawElement vp created = styleHeader created)
      /\ (forall q, Canvas.isPointInElement q created = false)).
Proof.
  intros Htool Hpan created w'. unfold w'.
  rewrite (mouseDown_starts_drawing now0 newId rect e w Htool).
  fold (worldPoint rect w e). fold created.
  rewrite (mouseUp_commits now1 _ created); try reflexivity; [|exact Hpan].
  rewrite (proj1 (publish_keeps_app_and_canvas _ _)).
  rewrite (proj2 (publish_keeps_app_and_canvas _ _)).
  split; [reflexivity|]. split; [reflexivity|].
  intros Hpen. unfold created. rewrite Hpen.
  split; [reflexivity|]. split; [reflexivity|].
  split; [intros vp; reflexivity|intros q; reflexivity].
Qed.

Lemma click_without_drag_stores_the_new_element_witness :
  let w := System.startAs None "" in
  let w' := System.mouseUp 1 (System.mouseDown
                                "p1" (Some (Canvas.mkRect 0 0)) 0
                                (Canvas.mkMouseEvent 5 6) w) in
  App.activeTool (System.app w) <> ToolSelect
  /\ Canvas.isPanning (System.canvas w) = false
  /\ List.length (App.elements (System.app w')) = 1%nat.
Proof.
  intros w w'.
  assert (Htool : App.activeTool (System.app w) <> ToolSelect)
    by (simpl; discriminate).
  destruct (click_without_drag_stores_the_new_element
              "p1" (Some (Canvas.mkRect 0 0)) 0 1 (Canvas.mkMouseEvent 5 6)
              w Htool eq_refl) as (Hel & _).
  split; [exact Htool|]. split; [reflexivity|].
  unfold w'. rewrite Hel. reflexivity.
Defined.

(** ** Messages and presence *)

(** Messages are routed by their type alone.  A message that is neither a
    cursor-move nor an elements-update changes nothing, whoever sent it; a
    cursor-move never touches the elements or the history; an
    elements-update never touches the cursors; and no message touches the
    user list, the canvas's gesture or what has been published. *)
Theorem messages_are_routed_by_type
        (m : Collaboration.Message) (w : System.State) :
  (Collaboration.msg_type m <> "cursor-move" ->
   Collaboration.msg_type m <> "elements-update" ->
   System.receive m w = w)
  /\ (Collaboration.msg_type m = "cursor-move" ->
      System.app (System.receive m w) = System.app w)
  /\ (Collaboration.msg_type m = "elements-update" ->
      System.collaboration (System.receive m w) = System.collaboration w)
  /\ users (System.collaboration (System.receive m w))
     = users (System.collaboration w)
  /\ System.canvas (System.receive m w) = System.canvas w
  /\ System.published (System.receive m w) = System.published w
  /\ App.history (System.app (System.receive m w))
     = App.history (System.app w).
Proof.
  unfold System.receive, Collaboration.onMessage.
  destruct (System.currentUser w) as [user|] eqn:Huser;
    [|repeat split; reflexivity].
  destruct (String.eqb_spec (Collaboration.msg_type m) "cursor-move")
    as [Hc|Hc];
    destruct (String.eqb_spec (Collaboration.msg_type m) "elements-update")
      as [Hu|Hu];
    destruct (String.eqb (Collaboration.msg_userId m) (user_id user));
    cbn [andb negb fst snd];
    repeat split; try reflexivity; try congruence;
      try (intros; destruct w; reflexivity);
      try (intros; exfalso; congruence).
Qed.

Lemma messages_are_routed_by_type_witness :
  let alice := mkUser "alice" "alice@example.com" "alice" in
  let w := System.startAs (Some alice) "#FF6B6B" in
  let m := Collaboration.mkMessage
             "note-update" "bob"
             (Collaboration.mkData 1 2 [sampleRectangle] 3) None in
  Collaboration.msg_type m <> "cursor-move"
  /\ Collaboration.msg_type m <> "elements-update"
  /\ System.receive m w = w.
Proof.
  intros alice w m.
  assert (H1 : Collaboration.msg_type m <> "cursor-move")
    by (simpl; discriminate).
  assert (H2 : Collaboration.msg_type m <> "elements-update")
    by (simpl; discriminate).
  split; [exact H1|]. split; [exact H2|].
  apply (messages_are_routed_by_type m w); assumption.
Defined.

(** A presence notification replaces the user list by the members, in
    order and with their ids, marks the client connected and gives every
    user a non-empty display name ('Anonymous' for want of one).  It keeps
    every cursor, also the cursor of a user who is no longer a member. *)
Theorem presence_replaces_users_keeps_cursors
        (members : list Collaboration.PresenceMember)
        (prev : CollaborationState) :
  let next := Collaboration.onPresence members prev in
  map user_id (users next) = map Collaboration.member_userId members
  /\ (forall u, In u (users next) -> displayName u <> "")
  /\ isConnected next = true
  /\ cursors next = cursors prev
  /\ (forall c,
        In c (cursors prev) ->
        ~ In (userId c) (map Collaboration.member_userId members) ->
        In c (cursors next)).
Proof.
  intros next. unfold next, Collaboration.onPresence.
  cbn [users cursors isConnected].
  split; [|split; [|split; [reflexivity|split; [reflexivity|]]]].
  - rewrite map_map. reflexivity.
  - intros u Hin. apply in_map_iff in Hin.
    destruct Hin as (mem & <- & _). cbn [displayName].
    destruct (Collaboration.memberDisplayName mem) as [[|ch rest]|];
      simpl; discriminate.
  - intros c Hin _. exact Hin.
Qed.

(** ** Drawing while a collaborator's update arrives *)

(** The element being drawn lives outside the element collection, so a
    collaborator's update that arrives in the middle of a gesture does not
    disturb it: the pointer-up appends the element to the collection the
    collaborator sent, records that as the new snapshot and broadcasts it.
    The elements displayed before the update are gone from the display. *)
Theorem drawing_survives_a_remote_update
        (user : User) (now : R) (m : Collaboration.Message)
        (w : System.State) (cur : WhiteboardElement) :
  System.currentUser w = Some user ->
  Collaboration.msg_type m = "elements-update" ->
  Collaboration.msg_userId m <> user_id user ->
  Canvas.isPanning (System.canvas w) = false ->
  isDrawing (Canvas.drawingState (System.canvas w)) = true ->
  currentElement (Canvas.drawingState (System.canvas w)) = Some cur ->
  let remote := Collaboration.data_elements (Collaboration.data m) in
  let w' := System.mouseUp now (System.receive m w) in
  System.canvas (System.receive m w) = System.canvas w
  /\ App.elements (System.app w') = remote ++ [cur]
  /\ App.history (System.app w')
     = firstn (App.historyIndex (System.app w) + 1)
              (App.history (System.app w)) ++ [remote ++ [cur]]
  /\ exists p,
      System.published w' = System.published w ++ [p]
      /\ Collaboration.pub_type p = "elements-update"
      /\ Collaboration.data_elements (Collaboration.pub_data p)
         = remote ++ [cur].
Proof.
  intros Huser Hty Hother Hpan Hd Hc remote w'. unfold w'.
  rewrite (receive_remote_update user w Huser m Hty Hother).
  fold remote. split; [reflexivity|].
  rewrite (mouseUp_commits now _ cur); try assumption.
  rewrite (proj1 (publish_keeps_app_and_canvas _ _)).
  rewrite published_after_publish.
  cbn [System.app System.setApp System.setCanvas System.currentUser
       System.published App.handleCollaborativeElementsUpdate].
  rewrite Huser.
  split; [reflexivity|]. split; [reflexivity|].
  eexists. split; [reflexivity|]. split; reflexivity.
Qed.

Lemma drawing_survives_a_remote_update_witness :
  let alice := mkUser "alice" "alice@example.com" "alice" in
  let w := System.mkState
             App.initialState
             (Canvas.mkState
                (mkDrawingState true [mkPoint 10 10] (Some sampleRectangle))
                false (mkPoint 0 0))
             Collaboration.initialState (Some alice) "#FF6B6B" [] in
  let other := Canvas.createNewElement "b7" ToolCircle (mkPoint 1 1)
                                       "#EF4444" 4 in
  let m := Collaboration.mkMessage "elements-update" "bob"
             (Collaboration.mkData 0 0 [other] 17) None in
  System.currentUser w = Some alice
  /\ Collaboration.msg_userId m <> user_id alice
  /\ App.elements (System.app (System.mouseUp 20 (System.receive m w)))
     = [other; sampleRectangle].
Proof.
  intros alice w other m.
  assert (Hother : Collaboration.msg_userId m <> user_id alice)
    by (simpl; discriminate).
  destruct (drawing_survives_a_remote_update
              alice 20 m w sampleRectangle eq_refl eq_refl Hother
              eq_refl eq_refl eq_refl) as (_ & Hel & _).
  split; [reflexivity|]. split; [exact Hother|]. exact Hel.
Defined.

Lemma presence_replaces_users_keeps_cursors_witness :
  let prev := mkCollaborationState
                [mkUser "bob" "" "bob"]
                [mkUserCursor "bob" 3 4 "bob" "#666"] true in
  let next := Collaboration.onPresence
                [Collaboration.mkPresenceMember "carol" None] prev in
  ~ In "bob" (map Collaboration.member_userId
                  [Collaboration.mkPresenceMember "carol" None])
  /\ users next = [mkUser "carol" "" "Anonymous"]
  /\ In (mkUserCursor "bob" 3 4 "bob" "#666") (cursors next).
Proof.
  intros prev next.
  assert (Hgone : ~ In "bob" (map Collaboration.member_userId
                                  [Collaboration.mkPresenceMember
                                     "carol" None])).
  { simpl. intros [H|[]]. discriminate. }
  split; [exact Hgone|]. split; [reflexivity|].
  destruct (presence_replaces_users_keeps_cursors
              [Collaboration.mkPresenceMember "carol" None] prev)
    as (_ & _ & _ & _ & Hkeep).
  apply Hkeep; [left; reflexivity|exact Hgone].
Defined.

Lemma new_sticky_note_is_hit_where_drawn_witness :
  Canvas.isPointInElement
    (mkPoint 20 30)
    (Canvas.createNewElement "s1" ToolStickyNote (mkPoint 20 30)
                             "#000000" 2)
  = true.
Proof.
  apply (new_sticky_note_is_hit_where_drawn
           (mkViewport 0 0 1) "s1" (mkPoint 20 30) (mkPoint 0 0)
           "#000000" 2).
Defined.

(** ** From one client to another *)

Lemma mouseUp_publication
      (now : R) (w : System.State) (cur : WhiteboardElement) (u : User) :
  Canvas.isPanning (System.canvas w) = false ->
  isDrawing (Canvas.drawingState (System.canvas w)) = true ->
  currentElement (Canvas.drawingState (System.canvas w)) = Some cur ->
  System.currentUser w = Some u ->
  exists p,
    System.published (System.mouseUp now w) = System.published w ++ [p]
    /\ Collaboration.pub_type p = "elements-update"
    /\ Collaboration.pub_userId p = user_id u
    /\ Collaboration.data_elements (Collaboration.pub_data p)
       = App.elements (System.app (System.mouseUp now w))
    /\ System.currentUser (System.mouseUp now w) = Some u.
Proof.
  intros Hpan Hd Hc Hu.
  rewrite (mouseUp_commits now w cur Hpan Hd Hc).
  rewrite (proj1 (publish_keeps_app_and_canvas _ _)).
  rewrite published_after_publish, Hu.
  eexists. split; [reflexivity|]. repeat split. exact Hu.
Qed.

Lemma mouseMove_publication
      (rect : option Canvas.DOMRect) (now : R) (e : Canvas.MouseEvent)
      (w : System.State) (u : User) :
  System.currentUser w = Some u ->
  System.published (System.mouseMove rect now e w)
  = System.published w
    ++ [Collaboration.mkPublication
          Collaboration.CHANNEL_NAME "cursor-move"
          (Collaboration.mkData (pt_x (worldPoint rect w e))
                                (pt_y (worldPoint rect w e)) [] now)
          (user_id u)
          (Collaboration.mkMetadata (Some (displayName u))
                                    (Some (System.userColor w)))]
  /\ System.currentUser (System.mouseMove rect now e w) = Some u.
Proof.
  intros Hu.
  destruct (mouseMove_shape rect now e w) as (cs & vp & Heq & _).
  rewrite Heq. cbn [System.published System.currentUser System.setApp].
  rewrite published_after_publish, Hu. split; [reflexivity|].
  exact Hu.
Qed.

Lemma receive_cursor_move_keeps_app
      (m : Collaboration.Message) (w : System.State) :
  isCursorMove m -> System.app (System.receive m w) = System.app w.
Proof.
  unfold isCursorMove. intros Hty.
  unfold System.receive, Collaboration.onMessage.
  destruct (System.currentUser w) as [user|]; [|reflexivity].
  rewrite Hty.
  destruct (String.eqb (Collaboration.msg_userId m) (user_id user));
    reflexivity.
Qed.

Section TwoClients.

Variable sender receiver : System.State.
Variable a b : User.
Hypothesis senderSignedIn : System.currentUser sender = Some a.
Hypothesis receiverSignedIn : System.currentUser receiver = Some b.
Hypothesis differentUsers : user_id a <> user_id b.

(** What one client commits, every other client displays.  The pointer-up
    that ends a drawing publishes one message; delivered to another
    signed-in user, it makes that user's element collection equal to the
    sender's, element for element, and leaves that user's history alone;
    delivered back to the sender it changes nothing. *)
Theorem commit_is_displayed_by_other_clients
        (now : R) (cur : WhiteboardElement) :
  Canvas.isPanning (System.canvas sender) = false ->
  isDrawing (Canvas.drawingState (System.canvas sender)) = true ->
  currentElement (Canvas.drawingState (System.canvas sender)) = Some cur ->
  let sender' := System.mouseUp now sender in
  exists p,
    System.published sender' = System.published sender ++ [p]
    /\ forall m,
        deliveredAs p m ->
        App.elements (System.app (System.receive m receiver))
        = App.elements (System.app sender')
        /\ App.history (System.app (System.receive m receiver))
           = App.history (System.app receiver)
        /\ App.historyIndex (System.app (System.receive m receiver))
           = App.historyIndex (System.app receiver)
        /\ System.receive m sender' = sender'.
Proof.
  intros Hpan Hd Hc sender'.
  destruct (mouseUp_publication now sender cur a Hpan Hd Hc senderSignedIn)
    as (p & Hpub & Hty & Hid & Hdata & Huser').
  fold sender' in Hpub, Hdata, Huser'.
  exists p. split; [exact Hpub|].
  intros m (Hmty & Hmid & Hmdata & _).
  assert (Htype : Collaboration.msg_type m = "elements-update")
    by congruence.
  assert (Hfrom : Collaboration.msg_userId m = user_id a) by congruence.
  assert (Hother : Collaboration.msg_userId m <> user_id b) by congruence.
  rewrite (receive_remote_update b receiver receiverSignedIn m Htype Hother).
  cbn [System.app System.setApp].
  split.
  { cbn [App.elements App.handleCollaborativeElementsUpdate App.setElements].
    rewrite Hmdata. exact Hdata. }
  split; [reflexivity|]. split; [reflexivity|].
  apply (receive_own_update a sender' Huser' m Htype Hfrom).
Qed.

(** Where one client's pointer is, every other client has its cursor.  A
    pointer move publishes one message; delivered to another signed-in
    user, it leaves that user with exactly one cursor for the sender, at
    the world point under the sender's pointer, under the sender's display
    name; delivered back to the sender it changes nothing. *)
Theorem cursor_is_shown_by_other_clients
        (rect : option Canvas.DOMRect) (now : R) (e : Canvas.MouseEvent) :
  let sender' := System.mouseMove rect now e sender in
  exists p,
    System.published sender' = System.published sender ++ [p]
    /\ forall m,
        deliveredAs p m ->
        (exists c,
            cursorFor (user_id a)
                      (cursors (System.collaboration
                                  (System.receive m receiver)))
            = Some c
            /\ cursor_x c = pt_x (worldPoint rect sender e)
            /\ cursor_y c = pt_y (worldPoint rect sender e)
            /\ cursor_displayName c
               = Js.str_or (Some (displayName a)) "Anonymous"
            /\ List.length
                 (filter (fun c' => String.eqb (userId c') (user_id a))
                         (cursors (System.collaboration
                                     (System.receive m receiver))))
               = 1%nat)
        /\ System.app (System.receive m receiver) = System.app receiver
        /\ System.receive m sender' = sender'.
Proof.
  intros sender'.
  destruct (mouseMove_publication rect now e sender a senderSignedIn)
    as [Hpub Huser'].
  fold sender' in Hpub, Huser'.
  eexists. split; [exact Hpub|].
  intros m (Hmty & Hmid & Hmdata & Hmeta).
  cbn [Collaboration.pub_type Collaboration.pub_userId
       Collaboration.pub_data Collaboration.pub_metadata]
    in Hmty, Hmid, Hmdata, Hmeta.
  assert (Hmove : isCursorMove m) by exact Hmty.
  assert (Hother : Collaboration.msg_userId m <> user_id b) by congruence.
  split; [|split].
  - unfold System.receive. rewrite receiverSignedIn.
    rewrite (cursor_move_remote b m (System.collaboration receiver)
                                Hmove Hother).
    cbn [fst snd System.collaboration System.setCollaboration cursors].
    exists (Collaboration.cursorOf m).
    split.
    { rewrite cursorFor_app, <- Hmid, cursorFor_filter_same.
      unfold cursorFor. simpl. now rewrite String.eqb_refl. }
    unfold Collaboration.cursorOf, Collaboration.metaDisplayName.
    cbn [cursor_x cursor_y cursor_displayName]. rewrite Hmdata, Hmeta.
    split; [reflexivity|]. split; [reflexivity|]. split; [reflexivity|].
    rewrite filter_app, length_app, <- Hmid.
    assert (Hnone :
              filter (fun c' => String.eqb (userId c')
                                           (Collaboration.msg_userId m))
                     (filter (fun c' =>
                                negb (String.eqb
                                        (userId c')
                                        (Collaboration.msg_userId m)))
                             (cursors (System.collaboration receiver)))
              = []).
    { induction (cursors (System.collaboration receiver)) as [|c rest IH];
        [reflexivity|].
      simpl. destruct (String.eqb (userId c) (Collaboration.msg_userId m))
        eqn:Hc; simpl; [exact IH|]. now rewrite Hc. }
    rewrite Hnone. simpl. now rewrite String.eqb_refl.
  - now apply receive_cursor_move_keeps_app.
  - unfold System.receive. rewrite Huser'.
    rewrite (cursor_move_own a m (System.collaboration sender') Hmove)
      by congruence.
    cbn [fst snd]. now destruct sender'.
Qed.

End TwoClients.

(** ** What every run of the application keeps *)

Section Invariant.

Variable u : option User.

Lemma appOk_setElements (els : list WhiteboardElement) (a : App.State) :
  appOk a -> appOk (App.setElements els a).
Proof. intros H. exact H. Qed.

Lemma appOk_commit (els : list WhiteboardElement) (a : App.State) :
  appOk a -> appOk (App.handleElementsChange els a).
Proof.
  intros (_ & Hz & Hs). split; [apply record_in_range|]. split; assumption.
Qed.

Lemma appOk_setViewport (v : ViewportState) (a : App.State) :
  zoomInRange v -> appOk a -> appOk (App.setViewport v a).
Proof. intros Hv (Hi & _ & Hs). split; [exact Hi|]. split; assumption. Qed.

Lemma publishedAs_publish_cursor (w : System.State) (now cx cy : R) :
  System.currentUser w = u ->
  publishedAs u (System.published w) ->
  publishedAs u (System.published
                   (System.publish
                      (Collaboration.broadcastCursor
                         (System.currentUser w) (System.userColor w)
                         now cx cy) w)).
Proof.
  intros Hu Hp. rewrite published_after_publish, Hu.
  destruct u as [a|]; simpl.
  - apply Forall_app. split; [exact Hp|]. repeat constructor.
  - now rewrite app_nil_r.
Qed.

Lemma publishedAs_publish_elements (w : System.State) (now : R)
      (els : list WhiteboardElement) :
  System.currentUser w = u ->
  publishedAs u (System.published w) ->
  publishedAs u (System.published
                   (System.publish
                      (Collaboration.broadcastElementChange
                         (System.currentUser w) now els) w)).
Proof.
  intros Hu Hp. rewrite published_after_publish, Hu.
  destruct u as [a|]; simpl.
  - apply Forall_app. split; [exact Hp|]. repeat constructor.
  - now rewrite app_nil_r.
Qed.

Lemma wellFormed_publish (m : option Collaboration.Publication)
      (w : System.State) :
  wellFormed u w ->
  publishedAs u (System.published (System.publish m w)) ->
  wellFormed u (System.publish m w).
Proof.
  intros (Hu & Ha & Hc & _ & Hcs) Hp.
  destruct m; (split; [exact Hu|]; split; [exact Ha|]; split; [exact Hc|];
               split; [exact Hp|exact Hcs]).
Qed.

Lemma wellFormed_setApp (a : App.State) (w : System.State) :
  wellFormed u w -> appOk a -> wellFormed u (System.setApp a w).
Proof.
  intros (Hu & _ & Hc & Hp & Hcs) Ha.
  split; [exact Hu|]. split; [exact Ha|]. split; [exact Hc|].
  split; [exact Hp|exact Hcs].
Qed.

Lemma wellFormed_setCanvas (cs : Canvas.State) (w : System.State) :
  wellFormed u w -> canvasOk cs -> wellFormed u (System.setCanvas cs w).
Proof.
  intros (Hu & Ha & _ & Hp & Hcs) Hc.
  split; [exact Hu|]. split; [exact Ha|]. split; [exact Hc|].
  split; [exact Hp|exact Hcs].
Qed.

Lemma dispatch_wellFormed (now : R) (w : System.State) (c : Canvas.Call) :
  wellFormed u w -> callOk c -> wellFormed u (System.dispatch now w c).
Proof.
  intros Hw Hok.
  pose proof Hw as (Hu & Ha & _ & Hp & _).
  destruct c as [els|v|cx cy|els]; cbn [System.dispatch].
  - apply wellFormed_setApp; [exact Hw|now apply appOk_commit].
  - apply wellFormed_setApp; [exact Hw|now apply appOk_setViewport].
  - apply wellFormed_publish; [exact Hw|].
    now apply publishedAs_publish_cursor.
  - apply wellFormed_publish; [exact Hw|].
    now apply publishedAs_publish_elements.
Qed.

Lemma run_wellFormed (now : R) (cs : Canvas.State)
      (calls : list Canvas.Call) (w : System.State) :
  wellFormed u w -> canvasOk cs -> Forall callOk calls ->
  wellFormed u (System.run now (cs, calls) w).
Proof.
  intros Hw Hcs Hcalls. unfold System.run. cbn [fst snd].
  pose proof (wellFormed_setCanvas cs w Hw Hcs) as Hstart.
  clear Hw. revert Hstart. generalize (System.setCanvas cs w).
  induction Hcalls as [|c rest Hc _ IH]; intros w0 Hw0; simpl.
  - exact Hw0.
  - apply IH. now apply dispatch_wellFormed.
Qed.

Lemma mouseDown_canvasOk (newId : string) (rect : option Canvas.DOMRect)
      (props : Canvas.Props) (e : Canvas.MouseEvent) (st : Canvas.State) :
  canvasOk st ->
  toolbarStyle (Canvas.strokeColor props) (Canvas.prop_strokeWidth props) ->
  canvasOk (fst (Canvas.handleMouseDown newId rect props e st))
  /\ Forall callOk (snd (Canvas.handleMouseDown newId rect props e st)).
Proof.
  intros Hst Hstyle. unfold Canvas.handleMouseDown.
  destruct (Canvas.activeTool props) eqn:Htool;
    try (split; [|constructor]; split;
         [unfold gestureConsistent; cbn; split; [reflexivity|discriminate]
         |cbn; intros el [= <-]; exact Hstyle]).
  destruct (find _ (Canvas.elements props)); cbn [fst snd].
  - split; [exact Hst|repeat constructor].
  - split; [exact Hst|repeat constructor].
Qed.

Lemma updateElementWithPoint_style (el : WhiteboardElement) (p : Point)
      (path : list Point) :
  color (Canvas.updateElementWithPoint el p path) = color el
  /\ strokeWidth (Canvas.updateElementWithPoint el p path) = strokeWidth el.
Proof.
  unfold Canvas.updateElementWithPoint. destruct (type el); split; reflexivity.
Qed.

Lemma mouseMove_canvasOk (rect : option Canvas.DOMRect)
      (props : Canvas.Props) (e : Canvas.MouseEvent) (st : Canvas.State) :
  canvasOk st ->
  zoomInRange (Canvas.viewport props) ->
  canvasOk (fst (Canvas.handleMouseMove rect props e st))
  /\ Forall callOk (snd (Canvas.handleMouseMove rect props e st)).
Proof.
  intros [Hg Hstyle] Hz. unfold Canvas.handleMouseMove.
  destruct (Canvas.isPanning st).
  - cbn [fst snd]. split; [split; assumption|].
    constructor; [exact I|]. constructor; [exact Hz|]. constructor.
  - unfold gestureConsistent in Hg.
    destruct (isDrawing (Canvas.drawingState st)) eqn:Hd;
      destruct (currentElement (Canvas.drawingState st)) as [cur|] eqn:Hc;
      cbn [fst snd];
      try (split; [split; [unfold gestureConsistent; rewrite Hc, Hd; exact Hg
                          |rewrite Hc; exact Hstyle]
                  |repeat constructor]).
    split; [|repeat constructor]. split.
    + unfold gestureConsistent. cbn. split; [reflexivity|].
      destruct Hg as [_ Hpath].
      destruct (Canvas.activeTool props); try exact Hpath.
      intros Hnil. apply app_eq_nil in Hnil. destruct Hnil; discriminate.
    + cbn. intros el [= <-].
      destruct (updateElementWithPoint_style
                  cur
                  (Canvas.screenToCanvas rect (Canvas.viewport props)
                                         (Canvas.clientX e) (Canvas.clientY e))
                  (currentPath (Canvas.drawingState st))) as [-> ->].
      now apply Hstyle.
Qed.

Lemma mouseUp_canvasOk (props : Canvas.Props) (st : Canvas.State) :
  canvasOk st ->
  canvasOk (fst (Canvas.handleMouseUp props st))
  /\ Forall callOk (snd (Canvas.handleMouseUp props st)).
Proof.
  intros Hst. unfold Canvas.handleMouseUp.
  destruct (Canvas.isPanning st); cbn [fst snd].
  - split; [exact Hst|constructor].
  - split.
    + split; [unfold gestureConsistent; cbn; auto|cbn; discriminate].
    + destruct (isDrawing (Canvas.drawingState st));
        destruct (currentElement (Canvas.drawingState st));
        repeat constructor.
Qed.

End Invariant.

Section InvariantOfEvents.

Variable u : option User.

Lemma canvasProps_style (a : App.State) :
  appOk a ->
  toolbarStyle (Canvas.strokeColor (App.canvasProps a))
               (Canvas.prop_strokeWidth (App.canvasProps a))
  /\ zoomInRange (Canvas.viewport (App.canvasProps a)).
Proof. intros (_ & Hz & Hs). split; assumption. Qed.

Lemma undo_keeps_appOk (a : App.State) :
  appOk a -> exists a', App.handleUndo a = Some a' /\ appOk a'.
Proof.
  intros (Hi & Hz & Hs).
  destruct (Nat.eq_dec (App.historyIndex a) 0) as [H0|Hpos].
  - exists a. rewrite undo_at_bottom by assumption.
    split; [reflexivity|]. split; [exact Hi|]. split; assumption.
  - destruct (undo_effective a) as (snapshot & _ & Hundo); [lia|exact Hi|].
    eexists. split; [exact Hundo|].
    split; [unfold indexInRange in *; simpl; lia|]. split; assumption.
Qed.

Lemma redo_keeps_appOk (a : App.State) :
  appOk a -> exists a', App.handleRedo a = Some a' /\ appOk a'.
Proof.
  intros (Hi & Hz & Hs).
  destruct (Nat.ltb_spec (App.historyIndex a)
                         (List.length (App.history a) - 1)) as [Hlt|Hge].
  - destruct (redo_effective a Hlt) as (snapshot & _ & Hredo).
    eexists. split; [exact Hredo|].
    split; [unfold indexInRange in *; simpl; lia|]. split; assumption.
  - exists a. rewrite redo_at_top by assumption.
    split; [reflexivity|]. split; [exact Hi|]. split; assumption.
Qed.

Lemma zoomIn_keeps_appOk (a : App.State) : appOk a -> appOk (App.handleZoomIn a).
Proof.
  intros (Hi & Hz & Hs). split; [exact Hi|]. split; [|exact Hs].
  unfold zoomInRange in *. cbn. unfold Rmin.
  destruct (Rle_dec 5 (zoom (App.viewport a) * 1.2)); lra.
Qed.

Lemma zoomOut_keeps_appOk (a : App.State) :
  appOk a -> appOk (App.handleZoomOut a).
Proof.
  intros (Hi & Hz & Hs). split; [exact Hi|]. split; [|exact Hs].
  unfold zoomInRange in *. cbn. unfold Rmax.
  destruct (Rle_dec 0.1 (zoom (App.viewport a) * 0.8)); lra.
Qed.

Lemma load_keeps_appOk (els : list WhiteboardElement) (a : App.State) :
  appOk a -> appOk (App.onElementsLoaded els a).
Proof.
  intros (Hi & Hz & Hs). split; [now apply load_in_range|].
  unfold App.onElementsLoaded.
  destruct (0 <? List.length els)%nat; split; assumption.
Qed.

Lemma wheel_keeps_appOk (rect : option Canvas.DOMRect)
      (e : Canvas.WheelEvent) (w : System.State) :
  wellFormed u w -> wellFormed u (System.wheel rect e w).
Proof.
  intros Hw. unfold System.wheel.
  destruct (Canvas.handleWheel rect (App.viewport (System.app w)) e)
    as [v|] eqn:Hwheel; [|exact Hw].
  apply wellFormed_setApp; [exact Hw|].
  apply appOk_setViewport; [|apply Hw].
  unfold Canvas.handleWheel in Hwheel. destruct rect; [|discriminate].
  injection Hwheel as <-. unfold zoomInRange. cbn [zoom].
  apply newZoomOf_in_range.
Qed.

Lemma receive_wellFormed (m : Collaboration.Message) (w : System.State) :
  wellFormed u w -> wellFormed u (System.receive m w).
Proof.
  intros Hw. pose proof Hw as (Hu & Ha & Hc & Hp & Hone & Hown).
  unfold System.receive.
  destruct u as [user|]; rewrite Hu; [|exact Hw].
  destruct (String.eqb_spec (Collaboration.msg_type m) "cursor-move")
    as [Hmove|Hnot].
  - destruct (cursor_moves_invariant
                user [m] (System.collaboration w)
                (Forall_cons m Hmove (Forall_nil _)) Hone)
      as (Hone' & _ & Hown').
    unfold Collaboration.onMessages in Hone', Hown'. simpl in Hone', Hown'.
    assert (Hnone : snd (Collaboration.onMessage
                           user m (System.collaboration w)) = None).
    { unfold Collaboration.onMessage. rewrite Hmove.
      destruct (String.eqb (Collaboration.msg_userId m) (user_id user));
        reflexivity. }
    rewrite Hnone.
    split; [exact Hu|]. split; [exact Ha|]. split; [exact Hc|].
    split; [exact Hp|]. split; [exact Hone'|].
    cbn [System.collaboration System.setCollaboration].
    rewrite Hown'. exact Hown.
  - assert (Hsame : fst (Collaboration.onMessage
                           user m (System.collaboration w))
                    = System.collaboration w).
    { unfold Collaboration.onMessage.
      destruct (String.eqb_spec (Collaboration.msg_type m) "cursor-move");
        [contradiction|].
      cbn [andb].
      destruct (String.eqb (Collaboration.msg_type m) "elements-update"
                && negb (String.eqb (Collaboration.msg_userId m)
                                    (user_id user))); reflexivity. }
    rewrite Hsame.
    assert (Hw' : wellFormed (Some user)
                             (System.setCollaboration
                                (System.collaboration w) w)).
    { split; [exact Hu|]. split; [exact Ha|]. split; [exact Hc|].
      split; [exact Hp|]. split; [exact Hone|exact Hown]. }
    destruct (snd (Collaboration.onMessage user m (System.collaboration w)));
      [|exact Hw'].
    split; [exact Hu|]. split; [exact Ha|]. split; [exact Hc|].
    split; [exact Hp|]. split; [exact Hone|exact Hown].
Qed.

Lemma step_wellFormed (w : System.State) (ev : System.Event) :
  wellFormed u w ->
  exists w', System.step w ev = Some w' /\ wellFormed u w'.
Proof.
  intros Hw. pose proof Hw as (Hu & Ha & Hc & Hp & Hcs).
  destruct (canvasProps_style (System.app w) Ha) as [Hstyle Hzoom].
  destruct ev as [newId rect now e|rect now e|now|rect e|t|button|button
                  | | | | |m|members|els]; cbn [System.step].
  - eexists. split; [reflexivity|]. unfold System.mouseDown.
    destruct (mouseDown_canvasOk newId rect (App.canvasProps (System.app w))
                                 e (System.canvas w) Hc Hstyle)
      as [Hc' Hcalls].
    destruct (Canvas.handleMouseDown _ _ _ _ _) as [cs calls].
    now apply run_wellFormed.
  - eexists. split; [reflexivity|]. unfold System.mouseMove.
    destruct (mouseMove_canvasOk rect (App.canvasProps (System.app w))
                                 e (System.canvas w) Hc Hzoom)
      as [Hc' Hcalls].
    destruct (Canvas.handleMouseMove _ _ _ _) as [cs calls].
    now apply run_wellFormed.
  - eexists. split; [reflexivity|]. unfold System.mouseUp.
    destruct (mouseUp_canvasOk (App.canvasProps (System.app w))
                               (System.canvas w) Hc)
      as [Hc' Hcalls].
    destruct (Canvas.handleMouseUp _ _) as [cs calls].
    now apply run_wellFormed.
  - eexists. split; [reflexivity|]. now apply wheel_keeps_appOk.
  - eexists. split; [reflexivity|].
    apply wellFormed_setApp; [exact Hw|exact Ha].
  - destruct (nth_error Toolbar.colors button) as [c|] eqn:Hnth.
    + eexists. split; [reflexivity|].
      apply wellFormed_setApp; [exact Hw|].
      destruct Ha as (Hi & Hz & Hcol & Hwid).
      split; [exact Hi|]. split; [exact Hz|].
      split; [apply (nth_error_In _ _ Hnth)|exact Hwid].
    + exists w. split; [reflexivity|exact Hw].
  - destruct (nth_error Toolbar.strokeWidths button) as [width|] eqn:Hnth.
    + eexists. split; [reflexivity|].
      apply wellFormed_setApp; [exact Hw|].
      destruct Ha as (Hi & Hz & Hcol & Hwid).
      split; [exact Hi|]. split; [exact Hz|].
      split; [exact Hcol|apply (nth_error_In _ _ Hnth)].
    + exists w. split; [reflexivity|exact Hw].
  - destruct (undo_keeps_appOk (System.app w) Ha) as (a' & Hundo & Ha').
    rewrite Hundo. eexists. split; [reflexivity|].
    now apply wellFormed_setApp.
  - destruct (redo_keeps_appOk (System.app w) Ha) as (a' & Hredo & Ha').
    rewrite Hredo. eexists. split; [reflexivity|].
    now apply wellFormed_setApp.
  - eexists. split; [reflexivity|].
    apply wellFormed_setApp; [exact Hw|now apply zoomIn_keeps_appOk].
  - eexists. split; [reflexivity|].
    apply wellFormed_setApp; [exact Hw|now apply zoomOut_keeps_appOk].
  - eexists. split; [reflexivity|]. now apply receive_wellFormed.
  - destruct (System.currentUser w) eqn:Hcur; eexists;
      (split; [reflexivity|]); [|exact Hw].
    split; [rewrite <- Hu; exact Hcur|]. split; [exact Ha|].
    split; [exact Hc|]. split; [exact Hp|exact Hcs].
  - eexists. split; [reflexivity|].
    apply wellFormed_setApp; [exact Hw|now apply load_keeps_appOk].
Qed.

Lemma runEvents_wellFormed (evs : list System.Event) :
  forall w, wellFormed u w ->
  exists w', System.runEvents w evs = Some w' /\ wellFormed u w'.
Proof.
  induction evs as [|ev rest IH]; intros w Hw; simpl.
  - exists w. auto.
  - destruct (step_wellFormed w ev Hw) as (w1 & Hstep & Hw1).
    rewrite Hstep. now apply IH.
Qed.

Lemma start_wellFormed (c : string) : wellFormed u (System.startAs u c).
Proof.
  split; [reflexivity|]. split.
  { split; [apply initial_in_range|]. split.
    - unfold zoomInRange. simpl. lra.
    - split; simpl; auto. }
  split.
  { split; [unfold gestureConsistent; simpl; auto|simpl; discriminate]. }
  split.
  { destruct u; simpl; [constructor|reflexivity]. }
  split; [constructor|destruct u; reflexivity].
Qed.

End InvariantOfEvents.

(** However the application is used - any sequence of pointer and wheel
    events, toolbar clicks, deliveries from the channel and loads - undo
    and redo never read outside the snapshot sequence: every event is
    handled, and the history index always points at a snapshot. *)
Theorem history_index_valid_after_any_events
        (u : option User) (c : string) (evs : list System.Event) :
  exists w,
    System.runEvents (System.startAs u c) evs = Some w
    /\ indexInRange (System.app w)
    /\ (exists snapshot,
          nth_error (App.history (System.app w))
                    (App.historyIndex (System.app w)) = Some snapshot)
    /\ (exists a, App.handleUndo (System.app w) = Some a)
    /\ (exists a, App.handleRedo (System.app w) = Some a).
Proof.
  destruct (runEvents_wellFormed u evs _ (start_wellFormed u c))
    as (w & Hrun & _ & (Hi & _) & _).
  exists w. split; [exact Hrun|]. split; [exact Hi|].
  split.
  { destruct (nth_error (App.history (System.app w))
                        (App.historyIndex (System.app w))) eqn:Hnth;
      [eexists; reflexivity|].
    apply nth_error_None in Hnth. unfold indexInRange in Hi. lia. }
  split.
  { destruct (undo_total (System.app w) Hi) as (a & Ha & _). now exists a. }
  destruct (redo_total (System.app w) Hi) as (a & Ha & _). now exists a.
Qed.

(** However the application is used, the zoom stays within [0.1, 5] -
    under the wheel, the zoom buttons and panning alike - so the
    conversion from screen to world never divides by zero. *)
Theorem zoom_in_range_after_any_events
        (u : option User) (c : string) (evs : list System.Event) :
  exists w,
    System.runEvents (System.startAs u c) evs = Some w
    /\ zoomInRange (App.viewport (System.app w))
    /\ zoom (App.viewport (System.app w)) <> 0.
Proof.
  destruct (runEvents_wellFormed u evs _ (start_wellFormed u c))
    as (w & Hrun & _ & (_ & Hz & _) & _).
  exists w. split; [exact Hrun|]. split; [exact Hz|].
  unfold zoomInRange in Hz. lra.
Qed.

(** However the application is used, the three cells of the drawing state
    agree: there is an element being drawn exactly when [isDrawing] is
    set, its path is then not empty, and otherwise the path is empty. *)
Theorem drawing_state_consistent_after_any_events
        (u : option User) (c : string) (evs : list System.Event) :
  exists w,
    System.runEvents (System.startAs u c) evs = Some w
    /\ (isDrawing (Canvas.drawingState (System.canvas w)) = true
        <-> currentElement (Canvas.drawingState (System.canvas w)) <> None)
    /\ (isDrawing (Canvas.drawingState (System.canvas w)) = true
        <-> currentPath (Canvas.drawingState (System.canvas w)) <> []).
Proof.
  destruct (runEvents_wellFormed u evs _ (start_wellFormed u c))
    as (w & Hrun & _ & _ & (Hg & _) & _).
  exists w. split; [exact Hrun|].
  unfold gestureConsistent in Hg.
  destruct (currentElement (Canvas.drawingState (System.canvas w)));
    destruct Hg as [Hd Hp]; rewrite Hd.
  - split; split; intros _; auto; discriminate.
  - rewrite Hp. split; split; intros H; try discriminate; contradiction.
Qed.

(** However the application is used, the active stroke colour and width
    are among those the toolbar offers, and so are the colour and width of
    the element being drawn. *)
Theorem drawn_style_is_from_the_toolbar
        (u : option User) (c : string) (evs : list System.Event) :
  exists w,
    System.runEvents (System.startAs u c) evs = Some w
    /\ toolbarStyle (App.strokeColor (System.app w))
                    (App.strokeWidth (System.app w))
    /\ (forall el,
          currentElement (Canvas.drawingState (System.canvas w)) = Some el ->
          In (color el) Toolbar.colors
          /\ In (strokeWidth el) Toolbar.strokeWidths
          /\ 0 < strokeWidth el).
Proof.
  destruct (runEvents_wellFormed u evs _ (start_wellFormed u c))
    as (w & Hrun & _ & (_ & _ & Hs) & (_ & Hel) & _).
  exists w. split; [exact Hrun|]. split; [exact Hs|].
  intros el Hcur. destruct (Hel el Hcur) as [Hcol Hwid].
  split; [exact Hcol|]. split; [exact Hwid|].
  simpl in Hwid. destruct Hwid as [<-|[<-|[<-|[<-|[]]]]]; lra.
Qed.

Lemma drawn_style_is_from_the_toolbar_witness :
  exists w,
    System.runEvents
      (System.startAs None "")
      [System.PickColor 2; System.PickWidth 3; System.PickTool ToolCircle;
       System.MouseDown "c1" (Some (Canvas.mkRect 0 0)) 0
                        (Canvas.mkMouseEvent 5 5)] = Some w
    /\ forall el,
        currentElement (Canvas.drawingState (System.canvas w)) = Some el ->
        In (color el) Toolbar.colors.
Proof.
  destruct (drawn_style_is_from_the_toolbar
              None ""
              [System.PickColor 2; System.PickWidth 3;
               System.PickTool ToolCircle;
               System.MouseDown "c1" (Some (Canvas.mkRect 0 0)) 0
                                (Canvas.mkMouseEvent 5 5)])
    as (w & Hrun & _ & Hel).
  exists w. split; [exact Hrun|]. intros el Hcur. now apply Hel.
Defined.

(** However the application is used, nothing is published while nobody is
    signed in, and everything a signed-in user's client publishes goes to
    the one collaboration channel under that user's id. *)
Theorem published_only_under_own_id
        (u : option User) (c : string) (evs : list System.Event) :
  exists w,
    System.runEvents (System.startAs u c) evs = Some w
    /\ System.currentUser w = u
    /\ (u = None -> System.published w = [])
    /\ (forall a p,
          u = Some a -> In p (System.published w) ->
          Collaboration.pub_userId p = user_id a
          /\ Collaboration.pub_channel p = Collaboration.CHANNEL_NAME).
Proof.
  destruct (runEvents_wellFormed u evs _ (start_wellFormed u c))
    as (w & Hrun & Hu & _ & _ & Hp & _).
  exists w. split; [exact Hrun|]. split; [exact Hu|].
  split.
  - intros ->. exact Hp.
  - intros a p -> Hin. simpl in Hp. rewrite Forall_forall in Hp.
    now apply Hp.
Qed.

Lemma published_only_under_own_id_witness :
  exists w,
    System.runEvents
      (System.startAs None "")
      [System.MouseDown "p1" (Some (Canvas.mkRect 0 0)) 0
                        (Canvas.mkMouseEvent 5 5);
       System.MouseMove (Some (Canvas.mkRect 0 0)) 1
                        (Canvas.mkMouseEvent 9 9);
       System.MouseUp 2] = Some w
    /\ System.published w = [].
Proof.
  destruct (published_only_under_own_id
              None ""
              [System.MouseDown "p1" (Some (Canvas.mkRect 0 0)) 0
                                (Canvas.mkMouseEvent 5 5);
               System.MouseMove (Some (Canvas.mkRect 0 0)) 1
                                (Canvas.mkMouseEvent 9 9);
               System.MouseUp 2])
    as (w & Hrun & _ & Hnone & _).
  exists w. split; [exact Hrun|]. now apply Hnone.
Defined.

(** However the application is used, the cursor list holds at most one
    cursor per user and never one for the signed-in user; while nobody is
    signed in it stays empty. *)
Theorem cursors_are_of_other_users_after_any_events
        (u : option User) (c : string) (evs : list System.Event) :
  exists w,
    System.runEvents (System.startAs u c) evs = Some w
    /\ onePerUser (cursors (System.collaboration w))
    /\ (forall a cur,
          u = Some a -> In cur (cursors (System.collaboration w)) ->
          userId cur <> user_id a)
    /\ (u = None -> cursors (System.collaboration w) = []).
Proof.
  destruct (runEvents_wellFormed u evs _ (start_wellFormed u c))
    as (w & Hrun & _ & _ & _ & _ & Hone & Hown).
  exists w. split; [exact Hrun|]. split; [exact Hone|].
  split.
  - intros a cur -> Hin Heq. unfold cursorFor in Hown.
    pose proof (find_none _ _ Hown cur Hin) as Hne. simpl in Hne.
    rewrite Heq, String.eqb_refl in Hne. discriminate.
  - intros ->. exact Hown.
Qed.

Lemma cursors_are_of_other_users_after_any_events_witness :
  let alice := mkUser "alice" "alice@example.com" "alice" in
  exists w,
    System.runEvents
      (System.startAs (Some alice) "#FF6B6B")
      [System.Message
         (Collaboration.mkMessage "cursor-move" "alice"
                                  (Collaboration.mkData 1 2 [] 3) None);
       System.Message
         (Collaboration.mkMessage "cursor-move" "bob"
                                  (Collaboration.mkData 4 5 [] 6) None)]
    = Some w
    /\ forall cur, In cur (cursors (System.collaboration w)) ->
                   userId cur <> "alice".
Proof.
  intros alice.
  destruct (cursors_are_of_other_users_after_any_events
              (Some alice) "#FF6B6B"
              [System.Message
                 (Collaboration.mkMessage "cursor-move" "alice"
                                          (Collaboration.mkData 1 2 [] 3)
                                          None);
               System.Message
                 (Collaboration.mkMessage "cursor-move" "bob"
                                          (Collaboration.mkData 4 5 [] 6)
                                          None)])
    as (w & Hrun & _ & Hother & _).
  exists w. split; [exact Hrun|].
  intros cur Hin. now apply (Hother alice cur eq_refl).
Defined.

(** ** Export and selection *)

Lemma mapi_from_no_dash {A : Type} (f : A -> nat -> CtxOp) (xs : list A) :
  (forall v i, setsLineDash (f v i) = false) ->
  forall i, existsb setsLineDash (Js.mapi_from f i xs) = false.
Proof.
  intros Hf. induction xs as [|v rest IH]; intros i; simpl.
  - reflexivity.
  - now rewrite Hf, IH.
Qed.

Lemma exportElement_no_dash (element : WhiteboardElement) :
  existsb setsLineDash (App.exportElement element) = false.
Proof.
  unfold App.exportElement.
  rewrite existsb_app. cbn [existsb setsLineDash orb].
  destruct (type element); try reflexivity.
  - destruct (points element) as [[|p0 [|p1 ps]]|]; try reflexivity.
    cbn [app existsb setsLineDash orb]. rewrite existsb_app.
    cbn [existsb setsLineDash orb]. rewrite orb_false_r.
    induction ps as [|p rest IH]; [reflexivity|exact IH].
  - destruct (Js.str_truthy (fill element)); reflexivity.
  - destruct (Js.str_truthy (fill element)); reflexivity.
  - cbn [app existsb setsLineDash orb].
    destruct (Js.str_truthy (text element)); [|reflexivity].
    cbn [app existsb setsLineDash orb].
    unfold Js.mapi. apply mapi_from_no_dash. reflexivity.
Qed.

(** The exported image shows no selection.  Export never sets a line
    dash, whatever is selected; the live renderer sets one for every
    selected element, to draw the dashed box around it. *)
Theorem export_never_draws_the_selection
        (vp : ViewportState) (s : App.State) (exported : App.ExportCanvas) :
  App.handleExport true s = Some exported ->
  existsb setsLineDash (App.canvas_ops exported) = false
  /\ (forall el,
        Js.bool_truthy (selected el) = true ->
        existsb setsLineDash (Canvas.drawElement vp el) = true
        /\ existsb setsLineDash (App.exportElement el) = false)
  /\ App.handleExport false s = None.
Proof.
  intros Hexp. injection Hexp as <-. cbn [App.canvas_ops].
  split; [|split; [|reflexivity]].
  - cbn [app existsb setsLineDash orb].
    induction (App.elements s) as [|el rest IH]; [reflexivity|].
    cbn [flat_map]. now rewrite existsb_app, exportElement_no_dash.
  - intros el Hsel. split; [|apply exportElement_no_dash].
    rewrite drawElement_is_export_then_indicator, existsb_app.
    unfold selectionIndicator. rewrite Hsel. cbn. apply orb_true_r.
Qed.

Lemma export_never_draws_the_selection_witness :
  let s := App.handleElementsChange [with_selected sampleRectangle true]
                                    App.initialState in
  exists exported,
    App.handleExport true s = Some exported
    /\ existsb setsLineDash (App.canvas_ops exported) = false
    /\ existsb setsLineDash
         (Canvas.drawElement (mkViewport 0 0 1)
                             (with_selected sampleRectangle true)) = true.
Proof.
  intros s. eexists. split; [reflexivity|].
  destruct (export_never_draws_the_selection
              (mkViewport 0 0 1) s _ eq_refl) as (Hnone & Hsel & _).
  split; [exact Hnone|].
  apply (Hsel (with_selected sampleRectangle true)). reflexivity.
Defined.

Lemma drawing_state_consistent_after_any_events_witness :
  exists w,
    System.runEvents
      (System.startAs None "")
      [System.MouseDown "p1" (Some (Canvas.mkRect 0 0)) 0
                        (Canvas.mkMouseEvent 5 5);
       System.MouseMove (Some (Canvas.mkRect 0 0)) 1
                        (Canvas.mkMouseEvent 9 9)] = Some w
    /\ (isDrawing (Canvas.drawingState (System.canvas w)) = true
        <-> currentPath (Canvas.drawingState (System.canvas w)) <> []).
Proof.
  destruct (drawing_state_consistent_after_any_events
              None ""
              [System.MouseDown "p1" (Some (Canvas.mkRect 0 0)) 0
                                (Canvas.mkMouseEvent 5 5);
               System.MouseMove (Some (Canvas.mkRect 0 0)) 1
                                (Canvas.mkMouseEvent 9 9)])
    as (w & Hrun & _ & Hpath).
  exists w. split; [exact Hrun|exact Hpath].
Defined.

Lemma commit_is_displayed_by_other_clients_witness :
  let alice := mkUser "alice" "alice@example.com" "alice" in
  let bob := mkUser "bob" "bob@example.com" "bob" in
  let sender := System.mkState
                  App.initialState
                  (Canvas.mkState
                     (mkDrawingState true [mkPoint 10 10]
                                     (Some sampleRectangle))
                     false (mkPoint 0 0))
                  Collaboration.initialState (Some alice) "#FF6B6B" [] in
  let receiver := System.startAs (Some bob) "#4ECDC4" in
  user_id alice <> user_id bob
  /\ exists p,
      System.published (System.mouseUp 5 sender) = [p]
      /\ forall m,
          deliveredAs p m ->
          App.elements (System.app (System.receive m receiver))
          = [sampleRectangle].
Proof.
  intros alice bob sender receiver.
  assert (Hdiff : user_id alice <> user_id bob) by (simpl; discriminate).
  split; [exact Hdiff|].
  destruct (commit_is_displayed_by_other_clients
              sender receiver alice bob eq_refl eq_refl Hdiff
              5 sampleRectangle eq_refl eq_refl eq_refl)
    as (p & Hpub & Hall).
  exists p. split; [exact Hpub|].
  intros m Hm. destruct (Hall m Hm) as (Hel & _). exact Hel.
Defined.

Lemma cursor_is_shown_by_other_clients_witness :
  let alice := mkUser "alice" "alice@example.com" "alice" in
  let bob := mkUser "bob" "bob@example.com" "bob" in
  let sender := System.startAs (Some alice) "#FF6B6B" in
  let receiver := System.startAs (Some bob) "#4ECDC4" in
  user_id alice <> user_id bob
  /\ exists p,
      System.published
        (System.mouseMove (Some (Canvas.mkRect 0 0)) 7
                          (Canvas.mkMouseEvent 40 30) sender) = [p]
      /\ forall m,
          deliveredAs p m ->
          System.app (System.receive m receiver) = System.app receiver.
Proof.
  intros alice bob sender receiver.
  assert (Hdiff : user_id alice <> user_id bob) by (simpl; discriminate).
  split; [exact Hdiff|].
  destruct (cursor_is_shown_by_other_clients
              sender receiver alice bob eq_refl eq_refl Hdiff
              (Some (Canvas.mkRect 0 0)) 7 (Canvas.mkMouseEvent 40 30))
    as (p & Hpub & Hall).
  exists p. split; [exact Hpub|].
  intros m Hm. destruct (Hall m Hm) as (_ & Happ & _). exact Happ.
Defined.
